(** * Document classification pipeline: response normaliser and PDF orchestrator

    Shallow embedding of [app/main_clasificacion_1.py] (vision + text,
    module [Hybrid]) and [app/main_clasificacion_Text.py] (text only,
    module [TextOnly]).

    Conventions of the embedding.
    - A Python [str] is a Rocq [string]; one [ascii] stands for one
      character, the code points up to U+00FF.  The embedding is exact
      on Latin-1 text, Spanish included; a character beyond that range
      travels as the bytes of its UTF-8 encoding.
    - A Python [float] is an IEEE binary64 value, a [spec_float] of the
      standard library (precision 53, [emax] 1024).
    - Python objects that [json.loads] can build are values of [pyobj].
    - Exceptions are values of [exn]; code that can raise lives in the
      monad [M], which also records the calls made to the outside world
      (PDF library, inference endpoint, JSON parser) as a list of events. *)

From Stdlib Require Import String Ascii List ZArith Lia Bool Arith DecimalString.
From Stdlib Require Import Floats.SpecFloat.
Import ListNotations.

Open Scope string_scope.

(* ===================================================================== *)
(** * Python string built-ins *)
(* ===================================================================== *)

Module PyStr.

(** The double-quote character. *)
Definition dq : ascii := "034"%char.

(** [lit s] is the Python literal written as [s] in this file: the
    circumflex stands for a double quote, and an accented letter, which
    the file holds as two UTF-8 bytes, is the one character it is in
    Python. *)
Fixpoint lit (s : string) : string :=
  match s with
  | "" => ""
  | String c "" => String (if Ascii.eqb c "^" then dq else c) ""
  | String c (String d rest as s') =>
      let n := nat_of_ascii d in
      if (Ascii.eqb c "194" && (128 <=? n) && (n <? 192))%nat
      then String d (lit rest)
      else if (Ascii.eqb c "195" && (128 <=? n) && (n <? 192))%nat
      then String (ascii_of_nat (n + 64)) (lit rest)
      else String (if Ascii.eqb c "^" then dq else c) (lit s')
  end.

(** [str.isspace] on one character: the white space up to U+00FF. *)
Definition isspace (c : ascii) : bool :=
  let n := nat_of_ascii c in
  (((9 <=? n) && (n <=? 13)) || ((28 <=? n) && (n <=? 32))
   || (n =? 133) || (n =? 160))%nat.

Fixpoint lstrip (s : string) : string :=
  match s with
  | "" => ""
  | String c s' => if isspace c then lstrip s' else s
  end.

(** Right strip, as a right fold: a character is kept when it is not
    white space or when something survives after it. *)
Fixpoint rstrip (s : string) : string :=
  match s with
  | "" => ""
  | String c s' =>
      match rstrip s' with
      | "" => if isspace c then "" else String c ""
      | r => String c r
      end
  end.

(** [s.strip()] *)
Definition strip (s : string) : string := rstrip (lstrip s).

(** The upper case of one character: the letters of ASCII and Latin-1
    move down by 32, the sharp s becomes two letters, and the two letters
    whose capital lies beyond U+00FF (micro sign, y with diaeresis) give
    the UTF-8 bytes of that capital. *)
Definition upper_char (c : ascii) : string :=
  let n := nat_of_ascii c in
  if ((97 <=? n) && (n <=? 122))%nat then String (ascii_of_nat (n - 32)) ""
  else if ((224 <=? n) && (n <=? 254) && negb (n =? 247))%nat
  then String (ascii_of_nat (n - 32)) ""
  else if (n =? 223)%nat then "SS"
  else if (n =? 181)%nat then String "206" (String "156" "")
  else if (n =? 255)%nat then String "197" (String "184" "")
  else String c "".

(** [s.upper()] *)
Fixpoint upper (s : string) : string :=
  match s with
  | "" => ""
  | String c s' => upper_char c ++ upper s'
  end.

(** [s.replace(a, b)] for one-character [a] and [b]. *)
Fixpoint replace (a b : ascii) (s : string) : string :=
  match s with
  | "" => ""
  | String c s' => String (if Ascii.eqb c a then b else c) (replace a b s')
  end.

(** [s[:n]] for [n >= 0]. *)
Definition take (n : nat) (s : string) : string := substring 0 n s.

(** [s[:-1]] *)
Fixpoint init (s : string) : string :=
  match s with
  | "" => ""
  | String c "" => ""
  | String c s' => String c (init s')
  end.

(** [s.endswith(c)] for a one-character suffix. *)
Fixpoint endswith_char (c : ascii) (s : string) : bool :=
  match s with
  | "" => false
  | String d "" => Ascii.eqb d c
  | String _ s' => endswith_char c s'
  end.

(** [s.startswith(p)], returning what follows the prefix. *)
Fixpoint strip_prefix (p s : string) : option string :=
  match p, s with
  | "", _ => Some s
  | String a p', String b s' => if Ascii.eqb a b then strip_prefix p' s' else None
  | _, _ => None
  end.

(** [x in l] for a list of strings. *)
Definition mem (x : string) (l : list string) : bool :=
  existsb (String.eqb x) l.

(** [c in s] for one character. *)
Fixpoint contains (c : ascii) (s : string) : bool :=
  match s with
  | "" => false
  | String d s' => Ascii.eqb d c || contains c s'
  end.


(** [str(n)] for a natural number. *)
Definition str_of_nat (n : nat) : string :=
  NilEmpty.string_of_uint (Nat.to_uint n).

(** ** The regular expressions of the normaliser *)

(** [re.sub(r'```(?:json)?|```', '', s)]: every fence token is removed,
    together with a [json] tag that follows it directly.  Matches are
    found left to right and do not overlap. *)
Fixpoint remove_fences_from (skip : nat) (s : string) : string :=
  match s with
  | "" => ""
  | String c s' =>
      match skip with
      | S k => remove_fences_from k s'
      | O =>
          if prefix "```json" s then remove_fences_from 6 s'
          else if prefix "```" s then remove_fences_from 2 s'
          else String c (remove_fences_from 0 s')
      end
  end.

Definition remove_fences (s : string) : string := remove_fences_from 0 s.

(** [re.sub(r'^[^{]*', '', s)]: the longest prefix free of an opening
    brace is removed. *)
Fixpoint drop_to_lbrace (s : string) : string :=
  match s with
  | "" => ""
  | String c s' => if Ascii.eqb c "{" then s else drop_to_lbrace s'
  end.

(** [re.sub(r'[^}]*$', '', s)]: the leftmost match starts right after the
    last closing brace and runs to the end, so what remains is the text
    up to and including that brace, and nothing when there is none. *)
Fixpoint upto_last_rbrace (s : string) : string :=
  match s with
  | "" => ""
  | String c s' =>
      match upto_last_rbrace s' with
      | "" => if Ascii.eqb c "}" then String c "" else ""
      | r => String c r
      end
  end.

(** [re.sub(r'\s+', ' ', s)]: each maximal run of white space becomes
    one blank. *)
Fixpoint collapse_ws_from (in_run : bool) (s : string) : string :=
  match s with
  | "" => ""
  | String c s' =>
      if isspace c then
        if in_run then collapse_ws_from true s'
        else String " " (collapse_ws_from true s')
      else String c (collapse_ws_from false s')
  end.

Definition collapse_ws (s : string) : string := collapse_ws_from false s.

End PyStr.

Import PyStr.

(* ===================================================================== *)
(** * Python floats and number comparison *)
(* ===================================================================== *)

Module PyFloat.

Open Scope Z_scope.

Definition float : Type := spec_float.

Definition prec : Z := 53.
Definition emax : Z := 1024.

(** [0.0], [0.5] and [1.0] *)
Definition zero : float := S754_zero false.
Definition half : float := S754_finite false 4503599627370496 (-53).
Definition one : float := S754_finite false 4503599627370496 (-52).

(** The value of a number: not-a-number, an infinity, or the dyadic
    rational [m * 2^e].  Integers are the dyadics of exponent 0. *)
Inductive xnum : Type :=
| XNaN
| XInf (neg : bool)
| XDy (m e : Z).

Definition signed (neg : bool) (m : Z) : Z := if neg then - m else m.

Definition of_float (f : float) : xnum :=
  match f with
  | S754_zero _ => XDy 0 0
  | S754_infinity s => XInf s
  | S754_nan => XNaN
  | S754_finite s m e => XDy (signed s (Zpos m)) e
  end.

Definition of_int (z : Z) : xnum := XDy z 0.

(** Exact comparison of two dyadics, on a common exponent. *)
Definition dy_compare (m1 e1 m2 e2 : Z) : comparison :=
  let e := Z.min e1 e2 in
  (m1 * 2 ^ (e1 - e)) ?= (m2 * 2 ^ (e2 - e)).

(** The order of IEEE 754 (and of Python between [int] and [float]):
    [None] when an operand is not a number. *)
Definition xcompare (a b : xnum) : option comparison :=
  match a, b with
  | XNaN, _ | _, XNaN => None
  | XInf s1, XInf s2 =>
      Some (match s1, s2 with
            | true, false => Lt
            | false, true => Gt
            | _, _ => Eq
            end)
  | XInf s, XDy _ _ => Some (if s then Lt else Gt)
  | XDy _ _, XInf s => Some (if s then Gt else Lt)
  | XDy m1 e1, XDy m2 e2 => Some (dy_compare m1 e1 m2 e2)
  end.

Definition xltb (a b : xnum) : bool :=
  match xcompare a b with Some Lt => true | _ => false end.

Definition xleb (a b : xnum) : bool :=
  match xcompare a b with Some Lt | Some Eq => true | _ => false end.

Definition xeqb (a b : xnum) : bool :=
  match xcompare a b with Some Eq => true | _ => false end.

(** [a < b], [a <= b] and [a == b] on floats. *)
Definition ltb (a b : float) : bool := xltb (of_float a) (of_float b).
Definition leb (a b : float) : bool := xleb (of_float a) (of_float b).
Definition eqb (a b : float) : bool := xeqb (of_float a) (of_float b).

(** ** Correctly rounded conversions *)

(** The float nearest to [p / q] for positive [p] and [q] (ties to even).
    The quotient is computed with more bits than the format holds, and
    what is lost below them is kept as a sticky bit. *)
Definition of_ratio (neg : bool) (p q : Z) : float :=
  let s := Z.max 0 (56 + Z.log2_up q - Z.log2 p) in
  let n := p * 2 ^ s in
  let d := n / q in
  let sticky := if n mod q =? 0 then 0 else 1 in
  binary_normalize prec emax (signed neg (2 * d + sticky)) (- s - 1) neg.

(** The float nearest to [m * 10^e10], for [m >= 0]: what [float(str)]
    and the JSON scanner build from a decimal numeral. *)
Definition of_decimal (neg : bool) (m e10 : Z) : float :=
  if m =? 0 then S754_zero neg
  else if 0 <=? e10 then binary_normalize prec emax (signed neg (m * 10 ^ e10)) 0 neg
  else of_ratio neg m (10 ^ (- e10)).

(** [p / q] rounded to the nearest integer, ties to even ([q > 0]). *)
Definition round_half_even (p q : Z) : Z :=
  let d := p / q in
  let r := p mod q in
  match 2 * r ?= q with
  | Lt => d
  | Gt => d + 1
  | Eq => if Z.even d then d else d + 1
  end.

(** [round(x, 2)] on a float: the exact value is rounded to two decimal
    places (ties to even) and the decimal is converted back.  Infinities
    and not-a-number round to themselves. *)
Definition round2 (f : float) : float :=
  match f with
  | S754_finite s m e =>
      let n := if 0 <=? e then 100 * Zpos m * 2 ^ e
               else round_half_even (100 * Zpos m) (2 ^ (- e)) in
      if n =? 0 then S754_zero s else of_ratio s n 100
  | _ => f
  end.

(** ** [float(s)] *)

Definition is_digit (c : ascii) : bool :=
  let n := nat_of_ascii c in ((48 <=? n) && (n <=? 57))%nat.

Definition digit_val (c : ascii) : Z := Z.of_nat (nat_of_ascii c - 48).

(** A maximal run of decimal digits: its value continued from [acc], how
    many digits were read added to [n], and the rest of the text. *)
Fixpoint digits (acc : Z) (n : nat) (s : string) : Z * nat * string :=
  match s with
  | String c s' =>
      if is_digit c then digits (acc * 10 + digit_val c) (S n) s'
      else (acc, n, s)
  | "" => (acc, n, s)
  end.

(** The same with the single underscores that [float] admits between two
    digits. *)
Fixpoint digits_us (acc : Z) (n : nat) (s : string) : Z * nat * string :=
  match s with
  | String c s' =>
      if is_digit c then digits_us (acc * 10 + digit_val c) (S n) s'
      else if Ascii.eqb c "_" && (0 <? n)%nat then
        match s' with
        | String d _ => if is_digit d then digits_us acc n s' else (acc, n, s)
        | "" => (acc, n, s)
        end
      else (acc, n, s)
  | "" => (acc, n, s)
  end.

Definition lower_char (c : ascii) : ascii :=
  let n := nat_of_ascii c in
  if ((65 <=? n) && (n <=? 90))%nat then ascii_of_nat (n + 32) else c.

Fixpoint lower (s : string) : string :=
  match s with
  | "" => ""
  | String c s' => String (lower_char c) (lower s')
  end.

(** An optional sign. *)
Definition read_sign (s : string) : bool * string :=
  match s with
  | String "-" s' => (true, s')
  | String "+" s' => (false, s')
  | _ => (false, s)
  end.

(** The exponent part of a numeral, when there is a well-formed one. *)
Definition read_exponent (us : bool) (s : string) : option (Z * string) :=
  match s with
  | String c s' =>
      if Ascii.eqb c "e" || Ascii.eqb c "E" then
        let '(neg, s1) := read_sign s' in
        let '(v, n, rest) := if us then digits_us 0 0 s1 else digits 0 0 s1 in
        if (0 <? n)%nat then Some (signed neg v, rest) else None
      else None
  | "" => None
  end.

(** [float(s)] for a string: [None] stands for [ValueError]. *)
Definition of_string (s : string) : option float :=
  let '(neg, body) := read_sign (PyStr.strip s) in
  let low := lower body in
  if String.eqb low "inf" || String.eqb low "infinity" then Some (S754_infinity neg)
  else if String.eqb low "nan" then Some S754_nan
  else
    let '(ip, ni, s1) := digits_us 0 0 body in
    let '(m, nf, s2) :=
      match s1 with
      | String "." s1' => let '(m, nf, s2) := digits_us ip 0 s1' in (m, nf, s2)
      | _ => (ip, 0%nat, s1)
      end in
    if ((ni + nf) =? 0)%nat then None
    else
      match s2 with
      | "" => Some (of_decimal neg m (- Z.of_nat nf))
      | _ =>
          match read_exponent true s2 with
          | Some (e, "") => Some (of_decimal neg m (e - Z.of_nat nf))
          | _ => None
          end
      end.

End PyFloat.

(* ===================================================================== *)
(** * Python objects and exceptions *)
(* ===================================================================== *)

#[local] Set Warnings "-register-all".

(** The objects [json.loads] can return. *)
Inductive pyobj : Type :=
| PyNone
| PyBool (b : bool)
| PyInt (z : Z)
| PyFloat (f : PyFloat.float)
| PyStr (s : string)
| PyList (l : list pyobj)
| PyDict (items : list (string * pyobj)).

(** [type(o).__name__] *)
Definition type_name (o : pyobj) : string :=
  match o with
  | PyNone => "NoneType"
  | PyBool _ => "bool"
  | PyInt _ => "int"
  | PyFloat _ => "float"
  | PyStr _ => "str"
  | PyList _ => "list"
  | PyDict _ => "dict"
  end.

(** The exception classes the pipeline tells apart; any other class
    raised by a collaborator is [OtherException] with its name. *)
Inductive exn_class : Type :=
| JSONDecodeError
| ValueError
| TypeError
| AttributeError
| RecursionError
| OtherException (name : string).

(** A raised exception: its class and [str(e)]. *)
Record exn : Type := Raise { exn_class_of : exn_class; exn_str : string }.

Definition is_JSONDecodeError (e : exn) : bool :=
  match exn_class_of e with JSONDecodeError => true | _ => false end.

(** [d.get(key, default)] on the items of a dict. *)
Fixpoint dict_find (key : string) (items : list (string * pyobj)) : option pyobj :=
  match items with
  | [] => None
  | (k, v) :: rest => if String.eqb k key then Some v else dict_find key rest
  end.

(** [d[key] = v] on the items of a dict: an existing key keeps its place. *)
Fixpoint dict_set (key : string) (v : pyobj) (items : list (string * pyobj))
  : list (string * pyobj) :=
  match items with
  | [] => [(key, v)]
  | (k, w) :: rest =>
      if String.eqb k key then (k, v) :: rest else (k, w) :: dict_set key v rest
  end.

(** Numbers as Python orders them: [bool] is a subtype of [int]. *)
Definition as_number (o : pyobj) : option PyFloat.xnum :=
  match o with
  | PyBool b => Some (PyFloat.of_int (if b then 1 else 0))
  | PyInt z => Some (PyFloat.of_int z)
  | PyFloat f => Some (PyFloat.of_float f)
  | _ => None
  end.

Definition unsupported (op : string) (a b : pyobj) : exn :=
  Raise TypeError
    ("'" ++ op ++ "' not supported between instances of '" ++ type_name a
         ++ "' and '" ++ type_name b ++ "'").

(** [a < b] between a JSON-built object and a number. *)
Definition py_lt (a b : pyobj) : exn + bool :=
  match as_number a, as_number b with
  | Some x, Some y => inr (PyFloat.xltb x y)
  | _, _ => inl (unsupported "<" a b)
  end.

(** [a > b] *)
Definition py_gt (a b : pyobj) : exn + bool :=
  match as_number a, as_number b with
  | Some x, Some y => inr (PyFloat.xltb y x)
  | _, _ => inl (unsupported ">" a b)
  end.

(** [a == b] on numbers; [false] on anything else. *)
Definition py_num_eq (a b : pyobj) : bool :=
  match as_number a, as_number b with
  | Some x, Some y => PyFloat.xeqb x y
  | _, _ => false
  end.

(** [0.0 <= o <= 1.0] for a float object. *)
Definition in_unit_interval (o : pyobj) : bool :=
  match o with
  | PyFloat f => PyFloat.leb PyFloat.zero f && PyFloat.leb f PyFloat.one
  | _ => false
  end.

(* ===================================================================== *)
(** * [json.loads] *)
(* ===================================================================== *)

(** The decoder of CPython's [json] package (scanner, [scanstring],
    object and array readers), with the error messages of its releases up
    to 3.12.  Positions count characters from 0.  The messages reach the
    pipeline only as evidence text of the records built from exceptions. *)
Module Json.

Inductive sres (A : Type) : Type :=
| SOk (a : A) (rest : string) (pos : nat)
| SFail (msg : string) (pos : nat)
| SDeep.
Arguments SOk {A} a rest pos.
Arguments SFail {A} msg pos.
Arguments SDeep {A}.

(** The interpreter's bound on nested calls. *)
Definition recursion_limit : nat := 1000.

Definition is_ws (c : ascii) : bool :=
  Ascii.eqb c " " || Ascii.eqb c "009" || Ascii.eqb c "010" || Ascii.eqb c "013".

Fixpoint skip_ws (s : string) (pos : nat) : string * nat :=
  match s with
  | String c s' => if is_ws c then skip_ws s' (S pos) else (s, pos)
  | "" => (s, pos)
  end.

(** ** Strings *)

Definition hex_val (c : ascii) : option N :=
  let n := N_of_ascii c in
  (if (48 <=? n) && (n <=? 57) then Some (n - 48)
   else if (97 <=? n) && (n <=? 102) then Some (n - 87)
   else if (65 <=? n) && (n <=? 70) then Some (n - 55)
   else None)%N.

(** Four hexadecimal digits. *)
Definition hex4 (s : string) : option (N * string) :=
  match s with
  | String a (String b (String c (String d rest))) =>
      match hex_val a, hex_val b, hex_val c, hex_val d with
      | Some x, Some y, Some z, Some w =>
          Some (((x * 16 + y) * 16 + z) * 16 + w, rest)%N
      | _, _, _, _ => None
      end
  | _ => None
  end.

(** [chr(cp)]: one character up to U+00FF, the UTF-8 bytes beyond. *)
Definition chr (cp : N) : string :=
  let b (n : N) := ascii_of_N n in
  (if cp <? 256 then String (b cp) ""
   else if cp <? 2048 then
     String (b (192 + cp / 64)) (String (b (128 + cp mod 64)) "")
   else if cp <? 65536 then
     String (b (224 + cp / 4096))
       (String (b (128 + (cp / 64) mod 64)) (String (b (128 + cp mod 64)) ""))
   else
     String (b (240 + cp / 262144))
       (String (b (128 + (cp / 4096) mod 64))
          (String (b (128 + (cp / 64) mod 64)) (String (b (128 + cp mod 64)) ""))))%N.

Definition unescape (c : ascii) : option ascii :=
  if Ascii.eqb c dq then Some dq
  else if Ascii.eqb c "\" then Some "\"%char
  else if Ascii.eqb c "/" then Some "/"%char
  else if Ascii.eqb c "b" then Some "008"%char
  else if Ascii.eqb c "f" then Some "012"%char
  else if Ascii.eqb c "n" then Some "010"%char
  else if Ascii.eqb c "r" then Some "013"%char
  else if Ascii.eqb c "t" then Some "009"%char
  else None.

(** A [\uXXXX] escape, [s] starting at its first digit and [upos] being
    the position of the [u]; a high surrogate followed by an escaped low
    surrogate makes one character. *)
Definition unicode_escape (s : string) (upos : nat) : sres string :=
  match hex4 s with
  | Some (hi, String c rest) =>
      let single := SOk (chr hi) (String c rest) (upos + 5) in
      if ((55296 <=? hi) && (hi <=? 56319))%N then
        match String c rest with
        | String "\" (String "u" s2) =>
            match hex4 s2 with
            | Some (lo, String c2 rest2) =>
                if ((56320 <=? lo) && (lo <=? 57343))%N then
                  SOk (chr (65536 + (hi - 55296) * 1024 + (lo - 56320))%N)
                      (String c2 rest2) (upos + 11)
                else single
            | Some (_, "") => single
            | None =>
                match s2 with
                | String _ (String _ (String _ (String _ (String _ _)))) =>
                    SFail "Invalid \uXXXX escape" (upos + 6)
                | _ => single
                end
            end
        | _ => single
        end
      else single
  | _ => SFail "Invalid \uXXXX escape" upos
  end.

(** [scanstring]: [s] starts right after the opening quote, which sits at
    [begin]; [acc] holds the decoded text so far.  Every turn of the loop
    consumes a character, so a [fuel] above the length of [s] is never
    used up. *)
Fixpoint scanstring (fuel : nat) (begin : nat) (acc : string) (s : string)
  (pos : nat) : sres string :=
  match fuel with
  | O => SDeep
  | S fuel' =>
      match s with
      | "" => SFail "Unterminated string starting at" begin
      | String c s' =>
          if Ascii.eqb c dq then SOk acc s' (S pos)
          else if Ascii.eqb c "\" then
            match s' with
            | "" => SFail "Unterminated string starting at" begin
            | String e s'' =>
                if Ascii.eqb e "u" then
                  match unicode_escape s'' (S pos) with
                  | SOk ch rest p => scanstring fuel' begin (acc ++ ch) rest p
                  | SFail m p => SFail m p
                  | SDeep => SDeep
                  end
                else
                  match unescape e with
                  | Some ch =>
                      scanstring fuel' begin (acc ++ String ch "") s'' (pos + 2)
                  | None => SFail "Invalid \escape" pos
                  end
            end
          else if (nat_of_ascii c <=? 31)%nat then
            SFail "Invalid control character at" pos
          else scanstring fuel' begin (acc ++ String c "") s' (S pos)
      end
  end.

Definition parse_string (s : string) (pos : nat) : sres string :=
  scanstring (S (String.length s)) (pos - 1) "" s pos.

(** ** Numbers *)

(** The numeral at the head of [s], if any: an [int] when it has neither
    fraction nor exponent, a [float] otherwise. *)
Definition match_number (s : string) : option (pyobj * string) :=
  let '(neg, s0) :=
    match s with
    | String "-" s' => (true, s')
    | _ => (false, s)
    end in
  let int_part :=
    match s0 with
    | String "0" s1 => Some (0%Z, s1)
    | String c _ =>
        if PyFloat.is_digit c then
          let '(v, _, s1) := PyFloat.digits 0 0 s0 in Some (v, s1)
        else None
    | "" => None
    end in
  match int_part with
  | None => None
  | Some (ip, s1) =>
      let '(m, nf, s2) :=
        match s1 with
        | String "." (String d _ as s1') =>
            if PyFloat.is_digit d then PyFloat.digits ip 0 s1' else (ip, 0%nat, s1)
        | _ => (ip, 0%nat, s1)
        end in
      match PyFloat.read_exponent false s2 with
      | Some (e, s3) =>
          Some (PyFloat (PyFloat.of_decimal neg m (e - Z.of_nat nf)), s3)
      | None =>
          if (0 <? nf)%nat
          then Some (PyFloat (PyFloat.of_decimal neg m (- Z.of_nat nf)), s2)
          else Some (PyInt (PyFloat.signed neg ip), s2)
      end
  end.

(** ** Arrays and objects *)

Section Containers.

(** The scanner for the terms inside a container. *)
Variable scan_value : string -> nat -> sres pyobj.

(** The terms of an array after its first bracket; one turn per term. *)
Fixpoint array_items (fuel : nat) (acc : list pyobj) (s : string) (pos : nat)
  : sres pyobj :=
  match fuel with
  | O => SDeep
  | S fuel' =>
      match scan_value s pos with
      | SOk v rest p =>
          let '(r1, p1) := skip_ws rest p in
          match r1 with
          | String "]" r2 => SOk (PyList (acc ++ [v])) r2 (S p1)
          | String "," r2 =>
              let '(r3, p3) := skip_ws r2 (S p1) in
              array_items fuel' (acc ++ [v]) r3 p3
          | _ => SFail "Expecting ',' delimiter" p1
          end
      | SFail m p => SFail m p
      | SDeep => SDeep
      end
  end.

Definition parse_array (s : string) (pos : nat) : sres pyobj :=
  let '(r, p) := skip_ws s pos in
  match r with
  | String "]" r' => SOk (PyList []) r' (S p)
  | _ => array_items (S (String.length r)) [] r p
  end.

(** The members of an object; a repeated key takes the later value. *)
Fixpoint object_items (fuel : nat) (acc : list (string * pyobj)) (s : string)
  (pos : nat) : sres pyobj :=
  match fuel with
  | O => SDeep
  | S fuel' =>
      match s with
      | String c s1 =>
          if Ascii.eqb c dq then
            match parse_string s1 (S pos) with
            | SOk key r1 p1 =>
                let '(r2, p2) := skip_ws r1 p1 in
                match r2 with
                | String ":" r3 =>
                    let '(r4, p4) := skip_ws r3 (S p2) in
                    match scan_value r4 p4 with
                    | SOk v r5 p5 =>
                        let '(r6, p6) := skip_ws r5 p5 in
                        match r6 with
                        | String "}" r7 =>
                            SOk (PyDict (dict_set key v acc)) r7 (S p6)
                        | String "," r7 =>
                            let '(r8, p8) := skip_ws r7 (S p6) in
                            object_items fuel' (dict_set key v acc) r8 p8
                        | _ => SFail "Expecting ',' delimiter" p6
                        end
                    | SFail m p => SFail m p
                    | SDeep => SDeep
                    end
                | _ => SFail "Expecting ':' delimiter" p2
                end
            | SFail m p => SFail m p
            | SDeep => SDeep
            end
          else SFail "Expecting property name enclosed in double quotes" pos
      | "" => SFail "Expecting property name enclosed in double quotes" pos
      end
  end.

Definition parse_object (s : string) (pos : nat) : sres pyobj :=
  let '(r, p) := skip_ws s pos in
  match r with
  | String "}" r' => SOk (PyDict []) r' (S p)
  | _ => object_items (S (String.length r)) [] r p
  end.

End Containers.

(** ** The scanner *)

Definition keyword (kw : string) (v : pyobj) (s : string) (pos : nat)
  : option (sres pyobj) :=
  match strip_prefix kw s with
  | Some rest => Some (SOk v rest (pos + String.length kw))
  | None => None
  end.

Definition first_some {A} (a b : option A) : option A :=
  match a with Some _ => a | None => b end.

(** [scan_once]: the term that starts at the head of [s]; [depth] is what
    is left of the interpreter's recursion budget. *)
Fixpoint scan_once (depth : nat) (s : string) (pos : nat) : sres pyobj :=
  match s with
  | "" => SFail "Expecting value" pos
  | String c s' =>
      if Ascii.eqb c dq then
        match parse_string s' (S pos) with
        | SOk str rest p => SOk (PyStr str) rest p
        | SFail m p => SFail m p
        | SDeep => SDeep
        end
      else if Ascii.eqb c "{" then
        match depth with
        | O => SDeep
        | S d => parse_object (scan_once d) s' (S pos)
        end
      else if Ascii.eqb c "[" then
        match depth with
        | O => SDeep
        | S d => parse_array (scan_once d) s' (S pos)
        end
      else
        let constant :=
          first_some (keyword "null" PyNone s pos)
            (first_some (keyword "true" (PyBool true) s pos)
               (first_some (keyword "false" (PyBool false) s pos)
                  (first_some (keyword "NaN" (PyFloat S754_nan) s pos)
                     (first_some
                        (keyword "Infinity" (PyFloat (S754_infinity false)) s pos)
                        (keyword "-Infinity" (PyFloat (S754_infinity true)) s pos))))) in
        match constant with
        | Some r => r
        | None =>
            match match_number s with
            | Some (v, rest) =>
                SOk v rest (pos + (String.length s - String.length rest))
            | None => SFail "Expecting value" pos
            end
        end
  end.

(** ** [JSONDecodeError] and [loads] *)

Fixpoint count_newlines (n : nat) (s : string) : nat :=
  match n, s with
  | S n', String c s' =>
      (if Ascii.eqb c "010" then 1 else 0) + count_newlines n' s'
  | _, _ => 0
  end.

(** [pos - doc.rindex(newline, 0, pos)], or [pos + 1] when no line break
    comes before [pos]: the characters since the last line break. *)
Fixpoint column (n : nat) (col : nat) (s : string) : nat :=
  match n, s with
  | S n', String c s' => column n' (if Ascii.eqb c "010" then 1 else S col) s'
  | _, _ => col
  end.

Definition errmsg (msg doc : string) (pos : nat) : string :=
  msg ++ ": line " ++ str_of_nat (S (count_newlines pos doc))
      ++ " column " ++ str_of_nat (column pos 1 doc)
      ++ " (char " ++ str_of_nat pos ++ ")".

Definition decode_error (msg doc : string) (pos : nat) : exn :=
  Raise JSONDecodeError (errmsg msg doc pos).

(** The byte order mark, which [loads] refuses at the head of a text. *)
Definition bom : string := String "239" (String "187" (String "191" "")).

(** [json.loads(s)] *)
Definition loads (s : string) : exn + pyobj :=
  if prefix bom s then
    inl (decode_error "Unexpected UTF-8 BOM (decode using utf-8-sig)" s 0)
  else
    let '(r, p) := skip_ws s 0 in
    match scan_once recursion_limit r p with
    | SOk v rest p1 =>
        let '(rest', p2) := skip_ws rest p1 in
        match rest' with
        | "" => inr v
        | _ => inl (decode_error "Extra data" s p2)
        end
    | SFail msg p1 => inl (decode_error msg s p1)
    | SDeep =>
        inl (Raise RecursionError
               "maximum recursion depth exceeded while decoding a JSON object from a unicode string")
    end.

End Json.

(* ===================================================================== *)
(** * Effects: exceptions and calls to the outside world *)
(* ===================================================================== *)

(** What is passed to [client.chat.completions.create]. *)
Record request : Type := {
  req_model : string;
  req_system : option string;    (* content of the system message *)
  req_text : string;             (* text of the user message *)
  req_image_url : option string; (* [image_url] part of the user message *)
  req_max_tokens : Z;
  req_temperature : PyFloat.float;
  req_seed : option Z
}.

Inductive event : Type :=
| EvOpen (path : string)     (* [fitz.open(path)] returned a handle *)
| EvClose (path : string)    (* [doc.close()] on that handle *)
| EvInfer (r : request)      (* a call to the inference endpoint *)
| EvJsonLoads (s : string).  (* a call to [json.loads] *)

(** A computation returns or raises, and leaves the events it caused, in
    the order they happened. *)
Definition M (A : Type) : Type := ((exn + A) * list event)%type.

Definition ret {A} (a : A) : M A := (inr a, []).

Definition bind {A B} (m : M A) (k : A -> M B) : M B :=
  match m with
  | (inl e, l) => (inl e, l)
  | (inr a, l) => let '(r, l') := k a in (r, (l ++ l')%list)
  end.

(** A pure step that may raise. *)
Definition lift {A} (r : exn + A) : M A := (r, []).

Definition emit (ev : event) : M unit := (inr tt, [ev]).

(** [try: m except Exception as e: h e] *)
Definition try_except {A} (m : M A) (h : exn -> M A) : M A :=
  match m with
  | (inl e, l) => let '(r, l') := h e in (r, (l ++ l')%list)
  | (inr a, l) => (inr a, l)
  end.

Declare Scope py_scope.
Delimit Scope py_scope with py.
Notation "x <- m ;; k" := (bind m (fun x => k))
  (at level 61, m at next level, right associativity) : py_scope.
Notation "m ;;; k" := (bind m (fun _ => k))
  (at level 61, right associativity) : py_scope.

(** The same bind for pure steps. *)
Definition ebind {A B} (r : exn + A) (k : A -> exn + B) : exn + B :=
  match r with
  | inl e => inl e
  | inr a => k a
  end.
Notation "x <~ r ;; k" := (ebind r (fun x => k))
  (at level 61, r at next level, right associativity) : py_scope.

Open Scope py_scope.

(** The classification record: the dict with keys [categoria], [score]
    and [evidencia] that every path of the pipeline returns. *)
Record result : Type := {
  categoria : string;
  score : pyobj;
  evidencia : pyobj
}.

Definition no_attribute (o : pyobj) (attr : string) : exn :=
  Raise AttributeError
    ("'" ++ type_name o ++ "' object has no attribute '" ++ attr ++ "'").

(** [result.get(key, default)] *)
Definition py_get (o : pyobj) (key : string) (default : pyobj) : exn + pyobj :=
  match o with
  | PyDict items =>
      inr (match dict_find key items with Some v => v | None => default end)
  | _ => inl (no_attribute o "get")
  end.

(** [min(a, b)]: the second argument wins only when it is smaller. *)
Definition py_min (a b : pyobj) : exn + pyobj :=
  lt <~ py_lt b a ;; inr (if lt : bool then b else a).

(** [max(a, b)]: the second argument wins only when it is greater. *)
Definition py_max (a b : pyobj) : exn + pyobj :=
  gt <~ py_gt b a ;; inr (if gt : bool then b else a).

(** [round(o, 2)] *)
Definition py_round2 (o : pyobj) : exn + pyobj :=
  match o with
  | PyFloat f => inr (PyFloat (PyFloat.round2 f))
  | PyInt z => inr (PyInt z)
  | PyBool b => inr (PyInt (if b then 1 else 0))
  | _ => inl (Raise TypeError
                ("type " ++ type_name o ++ " doesn't define __round__ method"))
  end.

(** [content.strip()] on the message content, which may be [None]. *)
Definition content_strip (content : option string) : exn + string :=
  match content with
  | Some c => inr (strip c)
  | None => inl (no_attribute PyNone "strip")
  end.

(** [json.loads], as a recorded call. *)
Definition json_loads (s : string) : M pyobj :=
  emit (EvJsonLoads s) ;;; lift (Json.loads s).

(** Handles opened and not closed again, in a run of events. *)
Fixpoint remove_first (x : string) (l : list string) : list string :=
  match l with
  | [] => []
  | y :: l' => if String.eqb x y then l' else y :: remove_first x l'
  end.

Fixpoint open_handles_from (held : list string) (evs : list event) : list string :=
  match evs with
  | [] => held
  | EvOpen p :: evs' => open_handles_from (held ++ [p])%list evs'
  | EvClose p :: evs' => open_handles_from (remove_first p held) evs'
  | _ :: evs' => open_handles_from held evs'
  end.

Definition open_handles (evs : list event) : list string :=
  open_handles_from [] evs.

Definition is_infer (ev : event) : bool :=
  match ev with EvInfer _ => true | _ => false end.

(** The inference calls of a run. *)
Definition inference_calls (evs : list event) : list event := filter is_infer evs.

(** ** The PDF library *)

(** A raster image, as the JPEG bytes [image.save(..., format="JPEG")]
    writes for it. *)
Definition Image : Type := string.

(** A page: what [page.get_text("text")] gives, and the image that
    [Image.open(io.BytesIO(page.get_pixmap(dpi=DPI).tobytes()))] builds;
    either may raise. *)
Record page : Type := {
  get_text : exn + string;
  get_pixmap : exn + Image
}.

(** An open document: [len(doc)] is the number of [pages]. *)
Record document : Type := { pages : list page }.

(** [doc[i]] *)
Definition load_page (doc : document) (i : nat) : exn + page :=
  match nth_error (pages doc) i with
  | Some p => inr p
  | None => inl (Raise (OtherException "IndexError") "page not in document")
  end.

(** [s or ""] for a string [s]. *)
Definition or_empty (s : string) : string :=
  if String.eqb s "" then "" else s.

(** [base64.b64encode(bytes).decode('utf-8')] *)
Definition b64_alphabet : string :=
  "ABCDEFGHIJKLMNOPQRSTUVWXYZabcdefghijklmnopqrstuvwxyz0123456789+/".

Definition b64_char (n : nat) : ascii :=
  match String.get n b64_alphabet with Some c => c | None => "="%char end.

Fixpoint b64encode (s : string) : string :=
  let byte (c : ascii) := nat_of_ascii c in
  match s with
  | "" => ""
  | String a "" =>
      let x := byte a in
      String (b64_char (x / 4)) (String (b64_char ((x mod 4) * 16)) "==")
  | String a (String b "") =>
      let x := byte a in
      let y := byte b in
      String (b64_char (x / 4))
        (String (b64_char ((x mod 4) * 16 + y / 16))
           (String (b64_char ((y mod 16) * 4)) "="))
  | String a (String b (String c rest)) =>
      let x := byte a in
      let y := byte b in
      let z := byte c in
      String (b64_char (x / 4))
        (String (b64_char ((x mod 4) * 16 + y / 16))
           (String (b64_char ((y mod 16) * 4 + z / 64))
              (String (b64_char (z mod 64)) (b64encode rest))))
  end%nat.

Definition nl : string := String "010" "".

(** The category definitions sent to the model; both entry points carry
    the same text. *)
Definition DEFINICIONES_CATEGORIAS : string := lit "
1. QUEJA_RECLAMO: Documentos donde un ciudadano expresa inconformidad. Palabras clave: ^Petición^, ^Reclamo^, ^Solicito^, ^Inconformidad^, ^Derecho de petición^.
2. CONTRATO: Acuerdos legales entre partes. Palabras clave: ^Contratante^, ^Contratista^, ^Cláusulas^, ^Objeto del contrato^, ^Prestación de servicios^, ^Firma^.
3. RESOLUCION_ADMINISTRATIVA: Actos administrativos formales. Palabras clave: ^RESOLUCION No^, ^RESUELVE^, ^CONSIDERANDO^, ^ARTICULO PRIMERO^, ^COMUNIQUESE Y CUMPLASE^.
4. INFORME_TECNICO: Reportes de avance, diagnósticos o resultados. Palabras clave: ^Informe de gestión^, ^Resultados^, ^Diagnóstico^, ^Objetivo^, ^Alcance^, ^Conclusiones^.
5. COMUNICACION_INTERNA: Memorandos o circulares. Palabras clave: ^Memorando^, ^Circular^, ^Para:^, ^De:^, ^Asunto:^, ^Cordial saludo^.
".

(** The closed set of categories; both entry points carry the same list. *)
Definition CATEGORIAS_VALIDAS : list string :=
  ["QUEJA_RECLAMO"; "CONTRATO"; "RESOLUCION_ADMINISTRATIVA";
   "INFORME_TECNICO"; "COMUNICACION_INTERNA"].

(** ** Lines common to the two entry points *)

(** [result.get("categoria", "").upper().replace(" ", "_")]
    (line 160 of [main_clasificacion_1.py], 253 of
    [main_clasificacion_Text.py]). *)
Definition category_token (parsed : pyobj) : exn + string :=
  c <~ py_get parsed "categoria" (PyStr "") ;;
  match c with
  | PyStr s => inr (replace " " "_" (upper s))
  | _ => inl (no_attribute c "upper")
  end.

(** The plural repair and the check against the closed set (lines
    163-167, resp. 255-259). *)
Definition repair_category (cat : string) : string :=
  let cat := if endswith_char "S" cat && mem (init cat) CATEGORIAS_VALIDAS
             then init cat else cat in
  if mem cat CATEGORIAS_VALIDAS then cat else "REVISION_MANUAL".

(** [score = result.get("score", 0.5)], with a string score read as a
    float after the comma is made a point, and 0.5 when that fails (lines
    170-175, resp. 262-268).  [float] raises nothing but [ValueError], so
    [except ValueError] and the bare [except] catch the same. *)
Definition read_score (parsed : pyobj) : exn + pyobj :=
  sc <~ py_get parsed "score" (PyFloat PyFloat.half) ;;
  match sc with
  | PyStr s =>
      match PyFloat.of_string (replace "," "." s) with
      | Some f => inr (PyFloat f)
      | None => inr (PyFloat PyFloat.half)
      end
  | _ => inr sc
  end.

(** [max(0.0, min(1.0, score))] (line 176, resp. 272). *)
Definition clamp (sc : pyobj) : exn + pyobj :=
  m <~ py_min (PyFloat PyFloat.one) sc ;;
  py_max (PyFloat PyFloat.zero) m.

(* ===================================================================== *)
(** * [main_clasificacion_Text.py] *)
(* ===================================================================== *)

Module TextOnly.

Definition MODEL_NAME : string := "qwen2.5-coder:7b".

Definition system_message : string :=
  "Eres un asistente administrativo experto que SOLO habla en JSON. No incluyas explicaciones, markdown ni texto adicional.".

Definition prompt_sistema (text_content : string) : string :=
  lit "Eres un experto analista documental.
    
    OBJETIVO: Clasificar el texto proporcionado según las siguientes definiciones estrictas.
    
    DEFINICIONES:
    " ++ DEFINICIONES_CATEGORIAS ++ lit "

    CONTENIDO DEL DOCUMENTO:
    ^" ++ text_content ++ lit "^

    INSTRUCCIONES:
    1. Busca palabras clave específicas de las definiciones.
    2. Determina la categoría más probable.
    3. Asigna un score de confianza (0.0 a 1.0).
    
    RESPONDE ÚNICAMENTE CON ESTE FORMATO JSON RAW (Sin Markdown):
    {^categoria^: ^NOMBRE_CATEGORIA^, ^score^: <float>, ^evidencia^: ^palabras clave encontradas^}".

Definition build_request (text_content : string) : request :=
  {| req_model := MODEL_NAME;
     req_system := Some system_message;
     req_text := prompt_sistema text_content;
     req_image_url := None;
     req_max_tokens := 300;
     req_temperature := PyFloat.zero;
     req_seed := Some 42%Z |}.

(** Lines 242-246: fences out, then the text from the first opening
    brace to the last closing one. *)
Definition isolate_json (content : string) : string :=
  let cleaned := strip (remove_fences content) in
  let cleaned := drop_to_lbrace cleaned in
  upto_last_rbrace cleaned.

(** Lines 251-274: the record built from the parsed answer. *)
Definition build_result (parsed : pyobj) : exn + result :=
  cat <~ category_token parsed ;;
  let cat := repair_category cat in
  sc <~ read_score parsed ;;
  sc <~ clamp sc ;;
  ev <~ py_get parsed "evidencia" (PyStr "Sin evidencia") ;;
  inr {| categoria := cat; score := sc; evidencia := ev |}.

Definition illegible : result :=
  {| categoria := "REVISION_MANUAL"; score := PyFloat PyFloat.zero;
     evidencia := PyStr "JSON ilegible" |}.

(** Lines 238-277: what the [try] block does with the message content. *)
Definition interpret (content : option string) : M result :=
  content <- lift (content_strip content) ;;
  let cleaned := isolate_json content in
  if String.eqb cleaned "" then ret illegible
  else
    parsed <- json_loads cleaned ;;
    lift (build_result parsed).

(** Lines 279-281: [except Exception as e]. *)
Definition on_exception (e : exn) : result :=
  {| categoria := "ERROR"; score := PyFloat PyFloat.zero;
     evidencia := PyStr (take 100 (exn_str e)) |}.

(** The response normaliser: the classifier from the point where the
    endpoint has answered [raw]. *)
Definition normalize (raw : string) : M result :=
  try_except (interpret (Some raw)) (fun e => ret (on_exception e)).

Section Pipeline.

(** The inference endpoint: the content of the first choice of the
    completion, or the exception the client raises. *)
Variable chat_completions_create : request -> exn + option string.

(** The PDF library: the document behind a path, or the exception
    [fitz.open] raises. *)
Variable fitz_open : string -> exn + document.

Definition infer (r : request) : M (option string) :=
  emit (EvInfer r) ;;; lift (chat_completions_create r).

Definition classify_document_text_only (text_content : string) : M result :=
  try_except
    (content <- infer (build_request text_content) ;;
     interpret content)
    (fun e => ret (on_exception e)).

(** [doc[i].get_text("text")] *)
Definition page_text (doc : document) (i : nat) : exn + string :=
  p <~ load_page doc i ;; get_text p.

Definition extract_text_smart (doc : document) (max_chars : nat) : exn + string :=
  let full_text := "" in
  let total_pages := length (pages doc) in
  full_text <~ (if (0 <? total_pages)%nat
                then t <~ page_text doc 0 ;; inr (full_text ++ t ++ nl)
                else inr full_text) ;;
  full_text <~ (if (1 <? total_pages)%nat
                then t <~ page_text doc 1 ;; inr (full_text ++ take 500 t ++ nl)
                else inr full_text) ;;
  full_text <~ (if (2 <? total_pages)%nat
                then
                  let full_text := full_text ++ nl ++ "...[CONTENIDO OMITIDO]..." ++ nl in
                  t <~ page_text doc (total_pages - 1) ;; inr (full_text ++ t)
                else inr full_text) ;;
  let cleaned_text := strip (collapse_ws full_text) in
  inr (take max_chars cleaned_text).

Definition open_document (input_path : string) : M document :=
  doc <- lift (fitz_open input_path) ;;
  emit (EvOpen input_path) ;;;
  ret doc.

Definition close_document (input_path : string) : M unit :=
  emit (EvClose input_path).

Definition process_pdf (input_path : string) : M result :=
  try_except
    (doc <- open_document input_path ;;
     if (length (pages doc) =? 0)%nat then
       ret {| categoria := "VACIO"; score := PyFloat PyFloat.zero;
              evidencia := PyStr (lit "Sin páginas") |}
     else
       text_content <- lift (extract_text_smart doc 4000) ;;
       if (String.length text_content <? 50)%nat then
         close_document input_path ;;;
         ret {| categoria := "REVISION_MANUAL"; score := PyFloat PyFloat.zero;
                evidencia := PyStr "PDF es imagen (sin capa de texto)" |}
       else
         result <- classify_document_text_only text_content ;;
         close_document input_path ;;;
         ret result)
    (fun e =>
       ret {| categoria := "ARCHIVO_CORRUPTO"; score := PyFloat PyFloat.zero;
              evidencia := PyStr (exn_str e) |}).

(** The loop of [main]: one report row per file, in order. *)
Fixpoint main (pdf_files : list string) : M (list (string * result)) :=
  match pdf_files with
  | [] => ret []
  | pdf_path :: rest =>
      result <- process_pdf pdf_path ;;
      rows <- main rest ;;
      ret ((pdf_path, result) :: rows)
  end.

End Pipeline.

End TextOnly.

(* ===================================================================== *)
(** * [main_clasificacion_1.py] *)
(* ===================================================================== *)

Module Hybrid.

Definition MODEL_NAME : string := "llama3.2-vision".

Definition DPI : Z := 150.

(** Lines 40-52; saving as JPEG is taken to succeed. *)
Definition encode_image_to_base64 (image : Image) : string := b64encode image.

(** Line 107: white space collapsed, at most 2000 characters, double
    quotes made single. *)
Definition text_snippet (text_context : string) : string :=
  replace dq "'" (take 2000 (strip (collapse_ws text_context))).

Definition prompt_sistema (text_snippet : string) : string :=
  lit "Eres un clasificador documental experto para una entidad pública.
    
    TU OBJETIVO: Clasificar el documento basándote en la IMAGEN visual y el TEXTO extraído.
    
    DEFINICIONES DE CATEGORÍAS (Criterios estrictos):
    " ++ DEFINICIONES_CATEGORIAS ++ lit "

    TEXTO EXTRAÍDO DEL DOCUMENTO:
    ^" ++ text_snippet ++ lit "...^

    INSTRUCCIONES DE SALIDA:
    1. Analiza si el documento cumple con las palabras clave visuales o textuales definidas.
    2. Si no encaja claramente en ninguna, usa ^REVISION_MANUAL^.
    3. 'score' debe representar tu nivel de certeza (0.0 a 1.0).
    
    RESPONDE ÚNICAMENTE CON ESTE FORMATO JSON RAW (Sin Markdown, sin explicaciones previas):
    {^categoria^: ^NOMBRE_CATEGORIA^, ^score^: <float_entre_0_y_1>, ^evidencia^: ^breve justificación^}".

Definition build_request (base64_image text_snippet : string) : request :=
  {| req_model := MODEL_NAME;
     req_system := None;
     req_text := prompt_sistema text_snippet;
     req_image_url := Some ("data:image/jpeg;base64," ++ base64_image);
     req_max_tokens := 300;
     req_temperature := PyFloat.of_decimal false 1 (-1);
     req_seed := None |}.

(** Lines 151-154: fences out, then the text from the first opening
    brace to the last closing one. *)
Definition isolate_json (content : string) : string :=
  let cleaned := strip (remove_fences content) in
  let cleaned := drop_to_lbrace cleaned in
  upto_last_rbrace cleaned.

(** Lines 160-182: the record built from the parsed answer. *)
Definition build_result (parsed : pyobj) : exn + result :=
  cat <~ category_token parsed ;;
  let cat := repair_category cat in
  sc <~ read_score parsed ;;
  sc <~ clamp sc ;;
  sc <~ py_round2 sc ;;
  ev <~ py_get parsed "evidencia" (PyStr "Sin evidencia detallada") ;;
  inr {| categoria := cat; score := sc; evidencia := ev |}.

Definition no_json : result :=
  {| categoria := "REVISION_MANUAL"; score := PyFloat PyFloat.zero;
     evidencia := PyStr (lit "El modelo no retornó un JSON válido.") |}.

(** Lines 147-184: what the [try] block does with the message content. *)
Definition interpret (content : option string) : M result :=
  content <- lift (content_strip content) ;;
  let cleaned := isolate_json content in
  if String.eqb cleaned "" then ret no_json
  else
    parsed <- json_loads cleaned ;;
    lift (build_result parsed).

(** Lines 186-189: [except json.JSONDecodeError as je], then
    [except Exception as e]. *)
Definition on_exception (e : exn) : result :=
  if is_JSONDecodeError e then
    {| categoria := "REVISION_MANUAL"; score := PyFloat PyFloat.zero;
       evidencia := PyStr ("Error de sintaxis JSON: " ++ take 50 (exn_str e)) |}
  else
    {| categoria := "ERROR"; score := PyFloat PyFloat.zero;
       evidencia := PyStr ("Fallo en inferencia: " ++ take 100 (exn_str e)) |}.

(** The response normaliser: the classifier from the point where the
    endpoint has answered [raw]. *)
Definition normalize (raw : string) : M result :=
  try_except (interpret (Some raw)) (fun e => ret (on_exception e)).

Section Pipeline.

(** The inference endpoint: the content of the first choice of the
    completion, or the exception the client raises. *)
Variable chat_completions_create : request -> exn + option string.

(** The PDF library: the document behind a path, or the exception
    [fitz.open] raises. *)
Variable fitz_open : string -> exn + document.

Definition infer (r : request) : M (option string) :=
  emit (EvInfer r) ;;; lift (chat_completions_create r).

Definition classify_document_hybrid (image : Image) (text_context : string)
  : M result :=
  let base64_image := encode_image_to_base64 image in
  let snippet := text_snippet text_context in
  try_except
    (content <- infer (build_request base64_image snippet) ;;
     interpret content)
    (fun e => ret (on_exception e)).

Definition open_document (input_path : string) : M document :=
  doc <- lift (fitz_open input_path) ;;
  emit (EvOpen input_path) ;;;
  ret doc.

Definition close_document (input_path : string) : M unit :=
  emit (EvClose input_path).

Definition process_pdf (input_path : string) : M result :=
  try_except
    (doc <- open_document input_path ;;
     if (length (pages doc) =? 0)%nat then
       ret {| categoria := "VACIO"; score := PyFloat PyFloat.zero;
              evidencia := PyStr (lit "PDF sin páginas") |}
     else
       page <- lift (load_page doc 0) ;;
       text_content <- lift (t <~ get_text page ;; inr (or_empty t)) ;;
       img <- lift (get_pixmap page) ;;
       result <- classify_document_hybrid img text_content ;;
       close_document input_path ;;;
       ret result)
    (fun e =>
       ret {| categoria := "ARCHIVO_CORRUPTO"; score := PyFloat PyFloat.zero;
              evidencia := PyStr (exn_str e) |}).

(** The loop of [main]: one report row per file, in order. *)
Fixpoint main (pdf_files : list string) : M (list (string * result)) :=
  match pdf_files with
  | [] => ret []
  | pdf_path :: rest =>
      result <- process_pdf pdf_path ;;
      rows <- main rest ;;
      ret ((pdf_path, result) :: rows)
  end.

End Pipeline.

End Hybrid.

(* ===================================================================== *)
(** * Notions used in the statements *)
(* ===================================================================== *)

(** An opening brace with a closing brace somewhere after it. *)
Fixpoint has_brace_pair (s : string) : bool :=
  match s with
  | "" => false
  | String c s' =>
      if Ascii.eqb c "{" then contains "}" s' || has_brace_pair s'
      else has_brace_pair s'
  end.

(** [s] is obtained from [t] by deleting characters. *)
Inductive subseq : string -> string -> Prop :=
| subseq_nil : subseq "" ""
| subseq_skip c s t : subseq s t -> subseq s (String c t)
| subseq_keep c s t : subseq s t -> subseq (String c s) (String c t).

(** The object a classification record serialises to. *)
Definition to_dict (r : result) : pyobj :=
  PyDict [("categoria", PyStr (categoria r)); ("score", score r);
          ("evidencia", evidencia r)].

(** A JSON number: an [int] or a [float]. *)
Definition is_json_number (o : pyobj) : bool :=
  match o with
  | PyInt _ | PyFloat _ => true
  | _ => false
  end.

(** [0.0 <= o <= 1.0] for a number [o]. *)
Definition between_0_and_1 (o : pyobj) : bool :=
  match as_number o with
  | Some x =>
      PyFloat.xleb (PyFloat.of_float PyFloat.zero) x
      && PyFloat.xleb x (PyFloat.of_float PyFloat.one)
  | None => false
  end.

(** The score field is absent, a number, a boolean or a string: the
    shapes on which score normalisation does not raise. *)
Definition score_field_usable (parsed : pyobj) : bool :=
  match parsed with
  | PyDict items =>
      match dict_find "score" items with
      | Some PyNone | Some (PyList _) | Some (PyDict _) => false
      | _ => true
      end
  | _ => false
  end.


(** The two-decimal values between 0 and 1, as floats. *)
Definition hundredth (n : Z) : PyFloat.float :=
  if (n =? 0)%Z then S754_zero false else PyFloat.of_ratio false n 100.

Definition hundredths : list Z := map Z.of_nat (seq 0 101).

(** Two floats are the same object. *)
Definition same_float (a b : PyFloat.float) : bool :=
  match a, b with
  | S754_zero s, S754_zero t => Bool.eqb s t
  | S754_infinity s, S754_infinity t => Bool.eqb s t
  | S754_nan, S754_nan => true
  | S754_finite s m e, S754_finite t m' e' =>
      Bool.eqb s t && Pos.eqb m m' && Z.eqb e e'
  | _, _ => false
  end.

(** What holds of each of those values: it lies in the unit interval, and
    clamping and rounding leave it as it is. *)
Definition stable_hundredth (n : Z) : bool :=
  let f := hundredth n in
  in_unit_interval (PyFloat f)
  && match clamp (PyFloat f) with
     | inr (PyFloat g) => same_float g f
     | _ => false
     end
  && same_float (PyFloat.round2 f) f.

(** The two entry points. *)
Inductive variant : Type := TextVariant | VisionVariant.

Definition normalize_of (v : variant) : string -> M result :=
  match v with
  | TextVariant => TextOnly.normalize
  | VisionVariant => Hybrid.normalize
  end.

(** The [try] block of the variant on an answer [raw]. *)
Definition interpret_of (v : variant) (raw : string) : M result :=
  match v with
  | TextVariant => TextOnly.interpret (Some raw)
  | VisionVariant => Hybrid.interpret (Some raw)
  end.

(** The text the variant hands to [json.loads] for an answer [raw]. *)
Definition cleaned_of (v : variant) (raw : string) : string :=
  match v with
  | TextVariant => TextOnly.isolate_json (strip raw)
  | VisionVariant => Hybrid.isolate_json (strip raw)
  end.

(** The record of the variant for an answer without a JSON object. *)
Definition nothing_found (v : variant) : result :=
  match v with
  | TextVariant => TextOnly.illegible
  | VisionVariant => Hybrid.no_json
  end.

(** The record of the variant for an exception raised in its [try] block. *)
Definition on_exception_of (v : variant) : exn -> result :=
  match v with
  | TextVariant => TextOnly.on_exception
  | VisionVariant => Hybrid.on_exception
  end.

Definition build_result_of (v : variant) : pyobj -> exn + result :=
  match v with
  | TextVariant => TextOnly.build_result
  | VisionVariant => Hybrid.build_result
  end.

(** What the variant does to a clamped score: the vision variant rounds
    it to two decimals. *)
Definition finish_score (v : variant) (sc : pyobj) : exn + pyobj :=
  match v with
  | TextVariant => inr sc
  | VisionVariant => py_round2 sc
  end.


(** The request each variant builds from its arguments. *)
Definition request_of (v : variant) (image : Image) (text : string) : request :=
  match v with
  | TextVariant => TextOnly.build_request text
  | VisionVariant =>
      Hybrid.build_request (Hybrid.encode_image_to_base64 image)
        (Hybrid.text_snippet text)
  end.

(** The classifier of each variant, on an endpoint [chat]; the text-only
    one takes no image. *)
Definition classify_of (chat : request -> exn + option string) (v : variant)
  (image : Image) (text : string) : M result :=
  match v with
  | TextVariant => TextOnly.classify_document_text_only chat text
  | VisionVariant => Hybrid.classify_document_hybrid chat image text
  end.

(** The orchestrator of each variant. *)
Definition process_pdf_of (chat : request -> exn + option string)
  (fitz : string -> exn + document) (v : variant) : string -> M result :=
  match v with
  | TextVariant => TextOnly.process_pdf chat fitz
  | VisionVariant => Hybrid.process_pdf chat fitz
  end.

(** The record of the text-only orchestrator for a text below the
    threshold. *)
Definition short_text_record : result :=
  {| categoria := "REVISION_MANUAL"; score := PyFloat PyFloat.zero;
     evidencia := PyStr "PDF es imagen (sin capa de texto)" |}.

(* ===================================================================== *)
(** * Sample answers and documents *)
(* ===================================================================== *)

Module Samples.

(** An answer in prose, without any brace. *)
Definition apology : string := "Lo siento, no puedo procesar esto.".

(** A fenced answer with a plural label and a comma-decimal score. *)
Definition fenced_answer : string := lit "```json
{^categoria^: ^CONTRATOS^, ^score^: ^0,91^, ^evidencia^: ^Cláusulas, Contratante^}
```".

(** What [json.dumps] writes for the record returned on [fenced_answer]. *)
Definition fenced_dump : string :=
  lit "{^categoria^: ^CONTRATO^, ^score^: 0.91, ^evidencia^: ^Cl\u00e1usulas, Contratante^}".

(** A well-formed answer whose score has three decimals. *)
Definition three_decimals : string :=
  lit "{^categoria^: ^CONTRATO^, ^score^: 0.123, ^evidencia^: ^Contratante^}".

(** A well-formed answer whose score has two decimals. *)
Definition two_decimals : string :=
  lit "{^categoria^: ^CONTRATO^, ^score^: 0.87, ^evidencia^: ^Contratante^}".

(** Scores out of range. *)
Definition too_high : string := lit "{^categoria^: ^CONTRATO^, ^score^: 1.5}".
Definition too_low : string := lit "{^categoria^: ^CONTRATO^, ^score^: -0.3}".

(** A category that is a number. *)
Definition numeric_category : string := lit "{^categoria^: 5}".

(** What [json.dumps] writes for the records the two variants return on
    [numeric_category]. *)
Definition text_error_dump : string :=
  lit "{^categoria^: ^ERROR^, ^score^: 0.0, ^evidencia^: ^'int' object has no attribute 'upper'^}".
Definition vision_error_dump : string :=
  lit "{^categoria^: ^ERROR^, ^score^: 0.0, ^evidencia^: ^Fallo en inferencia: 'int' object has no attribute 'upper'^}".

(** An evidence that spells a fence with escapes, and what [json.dumps]
    writes for the record returned on it. *)
Definition escaped_fence : string :=
  lit "{^categoria^: ^CONTRATO^, ^score^: 0.5, ^evidencia^: ^a\u0060\u0060\u0060b^}".
Definition escaped_fence_dump : string :=
  lit "{^categoria^: ^CONTRATO^, ^score^: 0.5, ^evidencia^: ^a```b^}".

(** A plural label next to a null score. *)
Definition plural_null_score : string :=
  lit "{^categoria^: ^CONTRATOS^, ^score^: null}".

(** A plural label next to a usable score. *)
Definition plural_answer : string :=
  lit "{^categoria^: ^informe tecnicos^, ^score^: 0.75, ^evidencia^: ^Conclusiones^}".


(** An endpoint that always gives the same answer. *)
Definition constant_chat (answer : string) (_ : request) : exn + option string :=
  inr (Some answer).

(** The endpoint of the samples. *)
Definition chat : request -> exn + option string := constant_chat fenced_answer.

Definition one_page (text : string) : document :=
  {| pages := [ {| get_text := inr text; get_pixmap := inr "JFIF" |} ] |}.

(** A folder in which every file opens as the same document. *)
Definition every_file (doc : document) (_ : string) : exn + document := inr doc.

Definition text49 : string := "RESOLUCION No 12 de 2024. RESUELVE: ARTICULO UNO.".
Definition text50 : string := "RESOLUCION No 123 de 2024. RESUELVE: ARTICULO UNO.".

Definition no_pages : document := {| pages := [] |}.

(** A folder of PDFs without pages. *)
Definition empty_folder : string -> exn + document := every_file no_pages.

(** A page whose text cannot be read. *)
Definition unreadable : document :=
  {| pages := [ {| get_text := inl (Raise (OtherException "RuntimeError") "cannot read page");
                   get_pixmap := inr "JFIF" |} ] |}.

End Samples.

(* ===================================================================== *)
(** * The report of [main], and notions of the further properties *)
(* ===================================================================== *)

(** [os.path.basename(path)] on a POSIX path: what follows the last
    slash. *)
Fixpoint basename (path : string) : string :=
  match path with
  | "" => ""
  | String c rest =>
      if contains "/" rest then basename rest
      else if Ascii.eqb c "/" then rest else path
  end.

(** The cell values of a worksheet; [None] where no value is bound. *)
Definition sheet : Type := nat -> nat -> option pyobj.

(** The active sheet of a new [Workbook()]. *)
Definition blank_sheet : sheet := fun _ _ => None.

(** What stops [main]: an exception that comes out of [process_pdf], or
    one that [ws.cell] raises for a value it does not store. *)
Inductive report_exn : Type :=
| Uncaught (e : exn)
| CannotConvert (value : pyobj)      (* ValueError: Cannot convert ... to Excel *)
| IllegalCharacter (value : string). (* IllegalCharacterError *)

(** The characters a worksheet refuses in a string: the control
    characters other than tab, line feed and carriage return. *)
Definition illegal_character (c : ascii) : bool :=
  let n := nat_of_ascii c in
  ((n <? 32) && negb (n =? 9) && negb (n =? 10) && negb (n =? 13))%nat.

(** The longest string a cell holds. *)
Definition max_cell_length : nat := N.to_nat 32767.

Definition set_cell (ws : sheet) (row column : nat) (value : pyobj) : sheet :=
  fun r c => if ((r =? row) && (c =? column))%nat then Some value else ws r c.

(** [ws.cell(row=row, column=column, value=value)]: [None] binds
    nothing; a number or a boolean is bound as it is; a string is cut at
    32767 characters and refused when it holds an illegal character; a
    list or a dict is refused. *)
Definition ws_cell (ws : sheet) (row column : nat) (value : pyobj)
  : report_exn + sheet :=
  match value with
  | PyNone => inr ws
  | PyBool _ | PyInt _ | PyFloat _ => inr (set_cell ws row column value)
  | PyStr s =>
      let s := take max_cell_length s in
      if existsb illegal_character (list_ascii_of_string s)
      then inl (IllegalCharacter s)
      else inr (set_cell ws row column (PyStr s))
  | PyList _ | PyDict _ => inl (CannotConvert value)
  end.

(** [for col, value in enumerate(values, col): ws.cell(row, col, value)] *)
Fixpoint write_cells (ws : sheet) (row col : nat) (values : list pyobj)
  : report_exn + sheet :=
  match values with
  | [] => inr ws
  | value :: rest =>
      match ws_cell ws row col value with
      | inl e => inl e
      | inr ws => write_cells ws row (S col) rest
      end
  end.

(** The header rows of the two reports (line 403 of
    [main_clasificacion_Text.py], line 251 of [main_clasificacion_1.py]). *)
Definition headers_of (v : variant) : list pyobj :=
  match v with
  | TextVariant =>
      [PyStr "Nombre de Archivo"; PyStr (lit "Categoría"); PyStr "Score";
       PyStr "Evidencia"]
  | VisionVariant =>
      [PyStr "Nombre de Archivo"; PyStr (lit "Categoría Detectada"); PyStr "Score";
       PyStr (lit "Justificación")]
  end.

(** The row written for one file: its base name and the three fields of
    its record. *)
Definition row_data (pdf_path : string) (r : result) : list pyobj :=
  [PyStr (basename pdf_path); PyStr (categoria r); score r; evidencia r].

(** The processing loop of [main], with the cells it writes: one row per
    file from [row_num] on. *)
Fixpoint report_loop (process : string -> M result) (ws : sheet) (row_num : nat)
  (pdf_files : list string) : (report_exn + sheet) * list event :=
  match pdf_files with
  | [] => (inr ws, [])
  | pdf_path :: rest =>
      match process pdf_path with
      | (inl e, evs) => (inl (Uncaught e), evs)
      | (inr result, evs) =>
          match write_cells ws row_num 1 (row_data pdf_path result) with
          | inl e => (inl e, evs)
          | inr ws =>
              let '(out, evs') := report_loop process ws (S row_num) rest in
              (out, (evs ++ evs')%list)
          end
      end
  end.

(** [main] from the list that [glob] found to the sheet that [wb.save]
    writes at the end: no workbook is made when the list is empty.
    Fonts, fills, widths and heights are left out. *)
Definition main_report (chat : request -> exn + option string)
  (fitz : string -> exn + document) (v : variant) (pdf_files : list string)
  : (report_exn + option sheet) * list event :=
  match pdf_files with
  | [] => (inr None, [])
  | _ =>
      match write_cells blank_sheet 1 1 (headers_of v) with
      | inl e => (inl e, [])
      | inr ws =>
          match report_loop (process_pdf_of chat fitz v) ws 2 pdf_files with
          | (inl e, evs) => (inl e, evs)
          | (inr ws, evs) => (inr (Some ws), evs)
          end
      end
  end.

(** What a cell holds after [ws.cell] stored [value] in a blank cell. *)
Definition stored (value : pyobj) : option pyobj :=
  match value with
  | PyNone => None
  | PyStr s => Some (PyStr (take max_cell_length s))
  | _ => Some value
  end.

(** [ws.cell] takes the value. *)
Definition storable (value : pyobj) : bool :=
  match value with
  | PyList _ | PyDict _ => false
  | PyStr s => negb (existsb illegal_character (list_ascii_of_string (take max_cell_length s)))
  | _ => true
  end.

(** White space in [s] is made of single blanks; [after_blank] tells
    whether a blank comes right before [s]. *)
Fixpoint single_blanks_from (after_blank : bool) (s : string) : bool :=
  match s with
  | "" => true
  | String c s' =>
      if isspace c
      then Ascii.eqb c " " && negb after_blank && single_blanks_from true s'
      else single_blanks_from false s'
  end.

Definition single_blanks (s : string) : bool := single_blanks_from false s.

(** [s] does not begin with white space. *)
Definition starts_clean (s : string) : bool :=
  match s with
  | "" => true
  | String c _ => negb (isspace c)
  end.

(** The labels a record of the normaliser can carry, and those a record
    of [process_pdf] can carry. *)
Definition normaliser_labels : list string :=
  (CATEGORIAS_VALIDAS ++ ["REVISION_MANUAL"; "ERROR"])%list.

Definition pipeline_labels : list string :=
  (normaliser_labels ++ ["VACIO"; "ARCHIVO_CORRUPTO"])%list.

(** The evidence is a text of at most [n] characters. *)
Definition evidence_within (n : nat) (r : result) : bool :=
  match evidencia r with
  | PyStr t => (String.length t <=? n)%nat
  | _ => false
  end.

(** The length of the prompt text of each inference call of a run. *)
Definition prompt_lengths (evs : list event) : list nat :=
  flat_map (fun ev => match ev with
                      | EvInfer r => [String.length (req_text r)]
                      | _ => []
                      end) evs.

(** A score between 0 and 1 written with a decimal comma and two
    decimals: [n] hundredths. *)
Definition comma_decimal (n : nat) : string :=
  (str_of_nat (n / 100) ++ "," ++ str_of_nat ((n / 10) mod 10)
     ++ str_of_nat (n mod 10))%string.

(** The category field holds something that is not a string. *)
Definition not_a_string (o : pyobj) : bool :=
  match o with
  | PyStr _ => false
  | _ => true
  end.

(** No backtick in [s]. *)
Definition no_backtick (s : string) : bool := negb (contains "`" s).

(** [s] holds white space only. *)
Fixpoint is_blank (s : string) : bool :=
  match s with
  | "" => true
  | String c s' => isspace c && is_blank s'
  end.

(** A scanned document: every page is read, and gives white space
    only. *)
Definition no_text_layer (doc : document) : bool :=
  forallb (fun p => match get_text p with
                    | inr t => is_blank t
                    | inl _ => false
                    end) (pages doc).

(** The longest evidence of an [ERROR] record: the 100 characters kept
    of the exception text, after the fixed words of the vision variant. *)
Definition evidence_limit (v : variant) : nat :=
  match v with
  | TextVariant => 100
  | VisionVariant => 21 + 100
  end.

(** The longest prompt each variant can send: the fixed text of the
    prompt and the longest excerpt. *)
Definition prompt_limit (v : variant) : nat :=
  match v with
  | TextVariant => 1346 + 4000
  | VisionVariant => 1530 + 2000
  end.

(** The record [process_pdf] makes from an exception. *)
Definition corrupt_file (e : exn) : result :=
  {| categoria := "ARCHIVO_CORRUPTO"; score := PyFloat PyFloat.zero;
     evidencia := PyStr (exn_str e) |}.

(** The four ways a run of [process_pdf] ends: with the record of an
    exception, with that of a document without pages, with that of a text
    below the threshold, or with the record of the classifier. *)
Inductive run_of (chat : request -> exn + option string) (v : variant)
  (path : string) (r : result) (evs : list event) : Prop :=
| run_corrupt e :
    r = corrupt_file e ->
    evs = [] \/ evs = [EvOpen path] ->
    run_of chat v path r evs
| run_empty t :
    r = {| categoria := "VACIO"; score := PyFloat PyFloat.zero; evidencia := PyStr t |} ->
    evs = [EvOpen path] ->
    run_of chat v path r evs
| run_short :
    v = TextVariant -> r = short_text_record -> evs = [EvOpen path; EvClose path] ->
    run_of chat v path r evs
| run_classified image text cevs :
    classify_of chat v image text
    = (inr r, EvInfer (request_of v image text) :: cevs) ->
    (v = TextVariant -> (50 <= String.length text <= 4000)%nat) ->
    (cevs = [] \/ exists s, cevs = [EvJsonLoads s]) ->
    In (categoria r) normaliser_labels ->
    (exists sc clamped,
        clamp sc = inr clamped /\ finish_score v clamped = inr (score r)) ->
    evs = (EvOpen path :: EvInfer (request_of v image text) :: cevs
             ++ [EvClose path])%list ->
    run_of chat v path r evs.

Module MoreSamples.

(** A page that gives [text]. *)
Definition page_of (text : string) : page :=
  {| get_text := inr text; get_pixmap := inr "JFIF" |}.

(** An endpoint that is down. *)
Definition dead_chat (_ : request) : exn + option string :=
  inl (Raise (OtherException "APIConnectionError") "Connection error.").

(** A folder whose files cannot be opened. *)
Definition locked_folder (_ : string) : exn + document :=
  inl (Raise (OtherException "FileDataError") "Failed to open file").

Definition null_category : string := lit "{^categoria^: null, ^score^: 0.9}".


Definition nan_score : string := lit "{^categoria^: ^CONTRATO^, ^score^: NaN}".

Definition comma_score : string := lit "{^categoria^: ^CONTRATO^, ^score^: ^0,87^}".

Definition lower_case_label : string :=
  lit "{^categoria^: ^informe tecnico^, ^score^: 0.6}".

(** An answer wrapped in prose, in three parts: the words before the
    object, the object after its opening brace, the words after it. *)
Definition wordy_before : string := "Claro, la respuesta es: ".
Definition wordy_body : string := lit "^categoria^: ^contrato^, ^score^: 0.9}".
Definition wordy_after : string := " Espero que sirva.".

(** An answer whose evidence is a list of key words. *)
Definition listed_evidence : string :=
  lit "{^categoria^: ^CONTRATO^, ^score^: 0.9, ^evidencia^: [^Contratante^, ^Firma^]}".

(** An endpoint whose completions have no content. *)
Definition silent_chat (_ : request) : exn + option string := inr None.

(** Five scanned pages. *)
Definition scanned : document :=
  {| pages := [page_of ""; page_of nl; page_of "  "; page_of ""; page_of (nl ++ nl)] |}.

(** A page of text with white space at both ends and runs of it inside. *)
Definition two_words : document := {| pages := [page_of "  Hola    mundo  "] |}.

End MoreSamples.

(* ===================================================================== *)
(** * Numbers *)
(* ===================================================================== *)

Section Numbers.

Import PyFloat.
Local Open Scope Z_scope.

Lemma dy_compare_antisym m1 e1 m2 e2 :
  dy_compare m1 e1 m2 e2 = CompOpp (dy_compare m2 e2 m1 e1).
Proof.
  unfold dy_compare. rewrite (Z.min_comm e1 e2). apply Z.compare_antisym.
Qed.

Lemma dy_compare_refl m e : dy_compare m e m e = Eq.
Proof. unfold dy_compare. apply Z.compare_refl. Qed.

Lemma xltb_xleb a b : xltb a b = true -> xleb a b = true.
Proof. unfold xltb, xleb. destruct (xcompare a b) as [[]|]; congruence. Qed.

Lemma xleb_not_xltb a b :
  xleb a b = true -> xltb a b = false -> xcompare a b = Some Eq.
Proof. unfold xltb, xleb. destruct (xcompare a b) as [[]|]; congruence. Qed.

Lemma xcompare_Eq_sym a b : xcompare a b = Some Eq -> xcompare b a = Some Eq.
Proof.
  destruct a as [|s1|m1 e1], b as [|s2|m2 e2]; simpl; try congruence.
  - destruct s1, s2; congruence.
  - destruct s1; congruence.
  - destruct s2; congruence.
  - rewrite (dy_compare_antisym m2 e2 m1 e1). intros H.
    injection H as ->. reflexivity.
Qed.

Lemma xeqb_refl_dy m e : xeqb (XDy m e) (XDy m e) = true.
Proof. unfold xeqb. simpl. now rewrite dy_compare_refl. Qed.

(** An integer is below [1.0] when it is below 1, and above [0.0] when it
    is above 0. *)
Lemma int_lt_one z : xltb (of_int z) (of_float one) = (z <? 1).
Proof.
  unfold xltb, of_int, of_float, one, signed. simpl xcompare.
  unfold dy_compare.
  change (Z.min 0 (-52)) with (-52).
  change (0 - -52) with 52. change (-52 - -52) with 0.
  change (2 ^ 0) with 1. change (2 ^ 52) with 4503599627370496.
  unfold Z.ltb.
  destruct (Z.compare_spec (z * 4503599627370496) (4503599627370496 * 1)),
    (Z.compare_spec z 1); try reflexivity; lia.
Qed.

Lemma int_gt_zero z : xltb (of_float zero) (of_int z) = (0 <? z).
Proof.
  unfold xltb, of_int, of_float, zero. simpl xcompare.
  unfold dy_compare. change (Z.min 0 0) with 0. change (0 - 0) with 0.
  change (2 ^ 0) with 1. rewrite !Z.mul_1_r. reflexivity.
Qed.

Lemma same_float_eq a b : same_float a b = true -> a = b.
Proof.
  destruct a as [s|s| |s m e], b as [t|t| |t m' e']; simpl; try discriminate.
  - intros H. apply Bool.eqb_prop in H. now subst.
  - intros H. apply Bool.eqb_prop in H. now subst.
  - reflexivity.
  - intros H. apply andb_prop in H as [H He]. apply andb_prop in H as [Hs Hm].
    apply Bool.eqb_prop in Hs. apply Pos.eqb_eq in Hm. apply Z.eqb_eq in He.
    now subst.
Qed.

(** ** Clamping *)

Lemma clamp_number sc x :
  as_number sc = Some x ->
  clamp sc =
  inr (if xltb x (of_float one)
       then if xltb (of_float zero) x then sc else PyFloat zero
       else PyFloat one).
Proof.
  intros Hx. unfold clamp, py_min, py_max, py_lt, py_gt, ebind.
  rewrite Hx.
  change (as_number (PyFloat one)) with (Some (of_float one)).
  change (as_number (PyFloat zero)) with (Some (of_float zero)).
  cbv beta iota.
  destruct (xltb x (of_float one)); cbv beta iota.
  - now rewrite Hx.
  - reflexivity.
Qed.

Lemma clamp_not_number sc :
  as_number sc = None ->
  clamp sc = inl (unsupported "<" sc (PyFloat one)).
Proof.
  intros Hx. unfold clamp, py_min, py_lt, ebind. now rewrite Hx.
Qed.

(** A clamped score is [0.0], [1.0], or the float it was, strictly
    between the two. *)
Lemma clamp_cases sc v :
  clamp sc = inr v ->
  v = PyFloat zero \/ v = PyFloat one \/
  exists f, sc = PyFloat f /\ v = PyFloat f /\
            ltb zero f = true /\ ltb f one = true.
Proof.
  destruct (as_number sc) as [x|] eqn:Hx.
  - rewrite (clamp_number sc x Hx).
    destruct (xltb x (of_float one)) eqn:H1; [|intros [= <-]; auto].
    destruct (xltb (of_float zero) x) eqn:H0; [|intros [= <-]; auto].
    intros [= <-]. right; right.
    destruct sc as [|b|z|f|?|?|?]; simpl in Hx; try discriminate.
    + injection Hx as <-. rewrite int_lt_one in H1. rewrite int_gt_zero in H0.
      destruct b; simpl in *; discriminate.
    + injection Hx as <-. rewrite int_lt_one in H1. rewrite int_gt_zero in H0.
      apply Z.ltb_lt in H1, H0. lia.
    + injection Hx as <-. exists f. auto.
  - rewrite (clamp_not_number sc Hx). discriminate.
Qed.

Lemma clamp_in_unit_interval sc v :
  clamp sc = inr v -> in_unit_interval v = true.
Proof.
  intros H. destruct (clamp_cases sc v H) as [-> | [-> | (f & _ & -> & H0 & H1)]].
  - reflexivity.
  - reflexivity.
  - simpl. unfold leb. unfold ltb in H0, H1.
    now rewrite (xltb_xleb _ _ H0), (xltb_xleb _ _ H1).
Qed.

Lemma clamp_idempotent sc v : clamp sc = inr v -> clamp v = inr v.
Proof.
  intros H. destruct (clamp_cases sc v H) as [-> | [-> | (f & _ & -> & H0 & H1)]].
  - reflexivity.
  - reflexivity.
  - rewrite (clamp_number (PyFloat f) (of_float f) eq_refl).
    unfold ltb in H0, H1. now rewrite H0, H1.
Qed.

(** A number between 0 and 1 is numerically what clamping returns. *)
Lemma clamp_between_0_and_1 sc :
  between_0_and_1 sc = true ->
  exists v, clamp sc = inr v /\ py_num_eq v sc = true.
Proof.
  unfold between_0_and_1. destruct (as_number sc) as [x|] eqn:Hx; [|discriminate].
  intros H. apply andb_prop in H as [H0 H1].
  rewrite (clamp_number sc x Hx). eexists. split; [reflexivity|].
  destruct (xltb x (of_float one)) eqn:L1.
  - destruct (xltb (of_float zero) x) eqn:L0.
    + unfold py_num_eq. rewrite Hx. unfold xeqb.
      destruct x as [|s|m e]; [discriminate|destruct s; discriminate|].
      simpl. now rewrite dy_compare_refl.
    + unfold py_num_eq. rewrite Hx.
      change (as_number (PyFloat zero)) with (Some (of_float zero)). unfold xeqb.
      now rewrite (xleb_not_xltb _ _ H0 L0).
  - unfold py_num_eq. rewrite Hx.
    change (as_number (PyFloat one)) with (Some (of_float one)). unfold xeqb.
    now rewrite (xcompare_Eq_sym _ _ (xleb_not_xltb _ _ H1 L1)).
Qed.

(** ** Rounding to two decimals *)

Lemma finite_gt_zero s m e :
  ltb zero (S754_finite s m e) = true -> s = false.
Proof.
  unfold ltb, xltb. simpl. unfold dy_compare.
  destruct s; [|reflexivity]. simpl signed.
  assert (0 < 2 ^ (e - Z.min 0 e)) by (apply Z.pow_pos_nonneg; lia).
  match goal with
  | |- context [?a ?= ?b] => destruct (Z.compare_spec a b)
  end; try discriminate.
  intros _. exfalso. nia.
Qed.

Lemma finite_lt_one m e :
  ltb (S754_finite false m e) one = true -> e < 0 /\ Z.pos m < 2 ^ (- e).
Proof.
  unfold ltb, xltb. simpl. unfold dy_compare.
  destruct (Z.compare_spec (Z.pos m * 2 ^ (e - Z.min e (-52)))
              (4503599627370496 * 2 ^ (-52 - Z.min e (-52)))) as [| Hlt |];
    try discriminate.
  intros _.
  destruct (Z.le_gt_cases e (-52)) as [He | He].
  - rewrite Z.min_l in Hlt by lia. rewrite Z.sub_diag in Hlt.
    change (2 ^ 0) with 1 in Hlt.
    change 4503599627370496 with (2 ^ 52) in Hlt.
    rewrite <- Z.pow_add_r in Hlt by lia.
    replace (52 + (-52 - e)) with (- e) in Hlt by lia. lia.
  - rewrite Z.min_r in Hlt by lia. change (-52 - -52) with 0 in Hlt.
    change (2 ^ 0) with 1 in Hlt.
    replace (e - -52) with (e + 52) in Hlt by lia.
    assert (0 < 2 ^ (e + 52)) by (apply Z.pow_pos_nonneg; lia).
    destruct (Z.le_gt_cases 0 e) as [Hp | Hn].
    + exfalso.
      assert (2 ^ 52 <= 2 ^ (e + 52)) by (apply Z.pow_le_mono_r; lia).
      change (2 ^ 52) with 4503599627370496 in *. nia.
    + split; [lia|].
      assert (E : 4503599627370496 = 2 ^ (- e) * 2 ^ (e + 52)).
      { rewrite <- Z.pow_add_r by lia. now replace (- e + (e + 52)) with 52 by lia. }
      rewrite E in Hlt. nia.
Qed.

Lemma round_half_even_bounds p q :
  0 <= p -> 0 < q -> p < 100 * q -> 0 <= round_half_even p q <= 100.
Proof.
  intros Hp Hq Hlt. unfold round_half_even.
  assert (0 <= p / q) by (apply Z.div_pos; lia).
  assert (p / q < 100) by (apply Z.div_lt_upper_bound; lia).
  destruct (2 * (p mod q) ?= q); [destruct (Z.even (p / q))| |]; lia.
Qed.

Lemma round2_hundredth f :
  ltb zero f = true -> ltb f one = true ->
  exists n, 0 <= n <= 100 /\ round2 f = hundredth n.
Proof.
  destruct f as [s|s| |s m e]; try discriminate.
  - destruct s; discriminate.
  - intros H0 H1. pose proof (finite_gt_zero _ _ _ H0) as ->.
    destruct (finite_lt_one _ _ H1) as [He Hm].
    exists (round_half_even (100 * Z.pos m) (2 ^ (- e))). split.
    + apply round_half_even_bounds; lia.
    + unfold round2, hundredth.
      destruct (Z.leb_spec 0 e); [lia|]. reflexivity.
Qed.

Lemma hundredths_stable : forallb stable_hundredth hundredths = true.
Proof. vm_compute. reflexivity. Qed.

Lemma hundredth_stable n : 0 <= n <= 100 -> stable_hundredth n = true.
Proof.
  intros Hn. pose proof hundredths_stable as H.
  rewrite forallb_forall in H. apply H.
  unfold hundredths. apply in_map_iff. exists (Z.to_nat n). split; [lia|].
  apply in_seq. lia.
Qed.

Lemma hundredth_facts n :
  0 <= n <= 100 ->
  in_unit_interval (PyFloat (hundredth n)) = true /\
  clamp (PyFloat (hundredth n)) = inr (PyFloat (hundredth n)) /\
  round2 (hundredth n) = hundredth n.
Proof.
  intros Hn. pose proof (hundredth_stable n Hn) as H.
  unfold stable_hundredth in H.
  apply andb_prop in H as [H H3]. apply andb_prop in H as [H1 H2].
  repeat split.
  - exact H1.
  - destruct (clamp (PyFloat (hundredth n))) as [|[]]; try discriminate.
    now rewrite (same_float_eq _ _ H2).
  - now apply same_float_eq.
Qed.

(** Rounding a clamped score: the outcome is a two-decimal float of the
    unit interval, on which clamping and rounding do nothing more. *)
Lemma round_after_clamp sc v :
  clamp sc = inr v ->
  exists n, 0 <= n <= 100 /\ py_round2 v = inr (PyFloat (hundredth n)).
Proof.
  intros H. destruct (clamp_cases sc v H) as [-> | [-> | (f & _ & -> & H0 & H1)]].
  - exists 0. split; [lia|reflexivity].
  - exists 100. split; [lia|]. vm_compute. reflexivity.
  - destruct (round2_hundredth f H0 H1) as (n & Hn & E).
    exists n. split; [exact Hn|]. simpl. now rewrite E.
Qed.

End Numbers.

(* ===================================================================== *)
(** * Text cleaning *)
(* ===================================================================== *)

Section Cleaning.

Lemma subseq_empty t : subseq "" t.
Proof. induction t; constructor; assumption. Qed.

Lemma subseq_refl t : subseq t t.
Proof. induction t; constructor; assumption. Qed.

Lemma subseq_trans a b c : subseq a b -> subseq b c -> subseq a c.
Proof.
  intros Hab Hbc. revert a Hab.
  induction Hbc as [|x s t Hst IH|x s t Hst IH]; intros a Hab.
  - exact Hab.
  - constructor. now apply IH.
  - inversion Hab; subst.
    + apply subseq_skip. now apply IH.
    + apply subseq_keep. now apply IH.
Qed.

Lemma contains_subseq c s t :
  subseq s t -> contains c s = true -> contains c t = true.
Proof.
  induction 1 as [|x s t _ IH|x s t _ IH]; simpl; intros H.
  - discriminate.
  - rewrite (IH H). apply orb_true_r.
  - apply orb_true_iff in H as [H|H]; [now rewrite H|].
    rewrite (IH H). apply orb_true_r.
Qed.

Lemma has_brace_pair_subseq s t :
  subseq s t -> has_brace_pair s = true -> has_brace_pair t = true.
Proof.
  induction 1 as [|x s t Hst IH|x s t Hst IH]; simpl; intros H.
  - discriminate.
  - rewrite (IH H). destruct (Ascii.eqb x "{"); [apply orb_true_r|reflexivity].
  - destruct (Ascii.eqb x "{"); [|now apply IH].
    apply orb_true_iff in H as [H|H].
    + now rewrite (contains_subseq _ _ _ Hst H).
    + rewrite (IH H). apply orb_true_r.
Qed.

Lemma remove_fences_from_subseq s : forall k, subseq (remove_fences_from k s) s.
Proof.
  induction s as [|c s IH]; intros k; [constructor|].
  cbn [remove_fences_from]. destruct k as [|k].
  - destruct (prefix "```json" (String c s)); [constructor; apply IH|].
    destruct (prefix "```" (String c s)); constructor; apply IH.
  - constructor. apply IH.
Qed.

Lemma lstrip_subseq s : subseq (lstrip s) s.
Proof.
  induction s as [|c s IH]; [constructor|].
  cbn [lstrip]. destruct (isspace c); [now constructor|apply subseq_refl].
Qed.

Lemma rstrip_subseq s : subseq (rstrip s) s.
Proof.
  induction s as [|c s IH]; [constructor|].
  cbn [rstrip]. destruct (rstrip s) as [|d r].
  - destruct (isspace c); [apply subseq_empty|].
    apply subseq_keep, subseq_empty.
  - now apply subseq_keep.
Qed.

Lemma strip_subseq s : subseq (strip s) s.
Proof.
  unfold strip. eapply subseq_trans; [apply rstrip_subseq|apply lstrip_subseq].
Qed.

Lemma upto_last_rbrace_none s :
  contains "}" s = false -> upto_last_rbrace s = "".
Proof.
  induction s as [|c s IH]; [reflexivity|].
  cbn [contains upto_last_rbrace]. intros H.
  apply orb_false_iff in H as [Hc Hs]. now rewrite (IH Hs), Hc.
Qed.

Lemma no_pair_nothing_isolated s :
  has_brace_pair s = false -> upto_last_rbrace (drop_to_lbrace s) = "".
Proof.
  induction s as [|c s IH]; [reflexivity|].
  cbn [has_brace_pair drop_to_lbrace].
  destruct (Ascii.eqb c "{") eqn:E; [|exact IH].
  intros H. apply orb_false_iff in H as [H _].
  apply upto_last_rbrace_none. cbn [contains].
  rewrite H. apply Ascii.eqb_eq in E. subst c. reflexivity.
Qed.

(** Without a brace pair in the answer, the cleaning steps of either
    entry point leave nothing. *)
Lemma no_pair_cleaned_empty raw :
  has_brace_pair raw = false ->
  upto_last_rbrace (drop_to_lbrace (strip (remove_fences (strip raw)))) = "".
Proof.
  intros H. apply no_pair_nothing_isolated.
  destruct (has_brace_pair (strip (remove_fences (strip raw)))) eqn:E;
    [|reflexivity].
  rewrite <- H. symmetry.
  apply (has_brace_pair_subseq (strip (remove_fences (strip raw)))); [|exact E].
  eapply subseq_trans; [apply strip_subseq|].
  eapply subseq_trans; [apply remove_fences_from_subseq|apply strip_subseq].
Qed.

End Cleaning.

(* ===================================================================== *)
(** * Categories *)
(* ===================================================================== *)

Section Categories.

Lemma valid_category_cases c :
  mem c CATEGORIAS_VALIDAS = true -> In c CATEGORIAS_VALIDAS.
Proof.
  unfold mem. rewrite existsb_exists. intros (x & Hx & E).
  apply String.eqb_eq in E. now subst.
Qed.

Lemma valid_category_mem c :
  In c CATEGORIAS_VALIDAS -> mem c CATEGORIAS_VALIDAS = true.
Proof.
  intros H. unfold mem. rewrite existsb_exists. exists c. split; [exact H|].
  apply String.eqb_refl.
Qed.

(** A valid label is already in normal form and passes the check. *)
Lemma valid_category_fixed c :
  In c CATEGORIAS_VALIDAS ->
  replace " " "_" (upper c) = c /\ repair_category c = c.
Proof.
  simpl. intros [<-|[<-|[<-|[<-|[<-|[]]]]]]; split; reflexivity.
Qed.

(** A valid label with an [S] after it is repaired to the label. *)
Lemma plural_repaired v :
  In v CATEGORIAS_VALIDAS -> repair_category (v ++ "S") = v.
Proof.
  simpl. intros [<-|[<-|[<-|[<-|[<-|[]]]]]]; reflexivity.
Qed.

Lemma repair_category_range c :
  repair_category c = "REVISION_MANUAL" \/ In (repair_category c) CATEGORIAS_VALIDAS.
Proof.
  unfold repair_category.
  set (c' := if endswith_char "S" c && mem (init c) CATEGORIAS_VALIDAS
             then init c else c).
  destruct (mem c' CATEGORIAS_VALIDAS) eqn:E; [right|left; reflexivity].
  now apply valid_category_cases.
Qed.

(** What the normaliser returns as a category is returned again when it
    comes back as the category field. *)
Lemma repair_category_stable c :
  repair_category (replace " " "_" (upper (repair_category c))) = repair_category c.
Proof.
  destruct (repair_category_range c) as [-> | H]; [reflexivity|].
  destruct (valid_category_fixed _ H) as [-> ->]. reflexivity.
Qed.

Lemma missing_category_manual :
  repair_category (replace " " "_" (upper "")) = "REVISION_MANUAL".
Proof. reflexivity. Qed.

End Categories.

(* ===================================================================== *)
(** * The response normaliser *)
(* ===================================================================== *)

Section Normaliser.

(** The normaliser in one equation: an answer without a JSON object gives
    the fixed record and no call; any other answer is parsed once, and an
    exception on the way is turned into a record. *)
Lemma interpret_of_eq v raw :
  interpret_of v raw =
  if String.eqb (cleaned_of v raw) "" then (inr (nothing_found v), [])
  else (parsed <~ Json.loads (cleaned_of v raw) ;; build_result_of v parsed,
        [EvJsonLoads (cleaned_of v raw)]).
Proof.
  destruct v; simpl;
    unfold TextOnly.interpret, Hybrid.interpret, content_strip, lift, bind.
  - destruct (String.eqb (TextOnly.isolate_json (strip raw)) ""); [reflexivity|].
    unfold json_loads, emit, bind, lift, ebind.
    destruct (Json.loads (TextOnly.isolate_json (strip raw))); reflexivity.
  - destruct (String.eqb (Hybrid.isolate_json (strip raw)) ""); [reflexivity|].
    unfold json_loads, emit, bind, lift, ebind.
    destruct (Json.loads (Hybrid.isolate_json (strip raw))); reflexivity.
Qed.

Lemma normalize_of_eq v raw :
  normalize_of v raw =
  match interpret_of v raw with
  | (inr r, evs) => (inr r, evs)
  | (inl e, evs) => (inr (on_exception_of v e), evs)
  end.
Proof.
  destruct v; simpl; unfold TextOnly.normalize, Hybrid.normalize, try_except, ret;
    match goal with |- context [match ?m with _ => _ end] => destruct m as [[e|r] evs] end;
    try reflexivity; now rewrite app_nil_r.
Qed.

(** The normaliser always returns a record. *)
Lemma normalize_of_returns v raw :
  exists r evs, normalize_of v raw = (inr r, evs).
Proof.
  rewrite normalize_of_eq. destruct (interpret_of v raw) as [[e|r] evs]; eauto.
Qed.

Lemma cleaned_nonempty_of_loads v raw o :
  Json.loads (cleaned_of v raw) = inr o -> String.eqb (cleaned_of v raw) "" = false.
Proof.
  destruct (String.eqb_spec (cleaned_of v raw) "") as [E|]; [|reflexivity].
  rewrite E. discriminate.
Qed.

(** On an answer that parses, the record is the one built from the
    parsed object. *)
Lemma normalize_of_parsed v raw parsed r :
  Json.loads (cleaned_of v raw) = inr parsed ->
  build_result_of v parsed = inr r ->
  normalize_of v raw = (inr r, [EvJsonLoads (cleaned_of v raw)]).
Proof.
  intros HL HB. rewrite normalize_of_eq, interpret_of_eq.
  rewrite (cleaned_nonempty_of_loads _ _ _ HL), HL. simpl. now rewrite HB.
Qed.

Lemma normalize_of_parsed_raises v raw parsed e :
  Json.loads (cleaned_of v raw) = inr parsed ->
  build_result_of v parsed = inl e ->
  normalize_of v raw = (inr (on_exception_of v e), [EvJsonLoads (cleaned_of v raw)]).
Proof.
  intros HL HB. rewrite normalize_of_eq, interpret_of_eq.
  rewrite (cleaned_nonempty_of_loads _ _ _ HL), HL. simpl. now rewrite HB.
Qed.

(** The record built from a parsed object, field by field. *)
Lemma build_result_of_eq v parsed :
  build_result_of v parsed =
  (cat <~ category_token parsed ;;
   sc <~ read_score parsed ;;
   sc <~ clamp sc ;;
   sc <~ finish_score v sc ;;
   ev <~ py_get parsed "evidencia"
           (PyStr (match v with
                   | TextVariant => "Sin evidencia"
                   | VisionVariant => "Sin evidencia detallada"
                   end)) ;;
   inr {| categoria := repair_category cat; score := sc; evidencia := ev |}).
Proof. destruct v; reflexivity. Qed.

Lemma score_of_exception v e : score (on_exception_of v e) = PyFloat PyFloat.zero.
Proof.
  destruct v; simpl; [reflexivity|].
  unfold Hybrid.on_exception. now destruct (is_JSONDecodeError e).
Qed.

Lemma score_of_nothing_found v : score (nothing_found v) = PyFloat PyFloat.zero.
Proof. now destruct v. Qed.

Lemma finish_score_in_unit_interval v sc c w :
  clamp sc = inr c -> finish_score v c = inr w -> in_unit_interval w = true.
Proof.
  intros Hc Hf. destruct v; simpl in Hf.
  - injection Hf as <-. eapply clamp_in_unit_interval; eauto.
  - destruct (round_after_clamp _ _ Hc) as (n & Hn & E).
    rewrite E in Hf. injection Hf as <-.
    now destruct (hundredth_facts n Hn).
Qed.

Lemma build_result_in_unit_interval v parsed r :
  build_result_of v parsed = inr r -> in_unit_interval (score r) = true.
Proof.
  rewrite build_result_of_eq. unfold ebind.
  destruct (category_token parsed); [discriminate|].
  destruct (read_score parsed) as [|sc]; [discriminate|].
  destruct (clamp sc) as [|c] eqn:Hc; [discriminate|].
  destruct (finish_score v c) as [|w] eqn:Hw; [discriminate|].
  destruct (py_get parsed "evidencia" _); [discriminate|].
  intros [= <-]. simpl. eapply finish_score_in_unit_interval; eauto.
Qed.

Lemma normalize_of_in_unit_interval v raw r evs :
  normalize_of v raw = (inr r, evs) -> in_unit_interval (score r) = true.
Proof.
  rewrite normalize_of_eq, interpret_of_eq.
  destruct (String.eqb (cleaned_of v raw) "").
  - intros [= <- _]. now rewrite score_of_nothing_found.
  - unfold ebind. destruct (Json.loads (cleaned_of v raw)) as [e|parsed].
    + intros [= <- _]. now rewrite score_of_exception.
    + destruct (build_result_of v parsed) as [e|r'] eqn:HB.
      * intros [= <- _]. now rewrite score_of_exception.
      * intros [= <- _]. eapply build_result_in_unit_interval; eauto.
Qed.

End Normaliser.

(* ===================================================================== *)
(** * The classifiers and the orchestrators *)
(* ===================================================================== *)

Section Orchestrator.

Variable chat : request -> exn + option string.
Variable fitz : string -> exn + document.

(** The only call the normaliser makes is the one to the parser. *)
Lemma normalize_of_events v raw out evs :
  normalize_of v raw = (out, evs) ->
  evs = [] \/ evs = [EvJsonLoads (cleaned_of v raw)].
Proof.
  rewrite normalize_of_eq, interpret_of_eq.
  destruct (String.eqb (cleaned_of v raw) ""); [intros [= _ <-]; auto|].
  destruct (_ <~ Json.loads _ ;; _); intros [= _ <-]; auto.
Qed.

(** The classifier calls the endpoint once, with the request built from
    its arguments, and then is the normaliser on the answer. *)
Lemma classify_of_eq v image text :
  classify_of chat v image text =
  let req := request_of v image text in
  match chat req with
  | inr (Some raw) =>
      let '(out, evs) := normalize_of v raw in (out, EvInfer req :: evs)
  | inr None =>
      (inr (on_exception_of v (no_attribute PyNone "strip")), [EvInfer req])
  | inl e => (inr (on_exception_of v e), [EvInfer req])
  end.
Proof.
  destruct v; simpl;
    unfold TextOnly.classify_document_text_only, Hybrid.classify_document_hybrid,
      TextOnly.infer, Hybrid.infer, TextOnly.normalize, Hybrid.normalize,
      try_except, emit, lift, bind, ret;
    match goal with |- context [chat ?r] => destruct (chat r) as [e|[raw|]] end;
    try reflexivity.
  - destruct (TextOnly.interpret (Some raw)) as [[e|r] evs]; simpl;
      now rewrite ?app_nil_r.
  - destruct (Hybrid.interpret (Some raw)) as [[e|r] evs]; simpl;
      now rewrite ?app_nil_r.
Qed.

(** It always returns a record, scored in the unit interval, after
    exactly one inference call. *)
Lemma classify_of_returns v image text :
  exists r evs,
    classify_of chat v image text = (inr r, EvInfer (request_of v image text) :: evs)
    /\ in_unit_interval (score r) = true
    /\ inference_calls evs = []
    /\ open_handles evs = [].
Proof.
  rewrite classify_of_eq. cbv zeta.
  destruct (chat (request_of v image text)) as [e|[raw|]].
  - exists (on_exception_of v e), []. rewrite score_of_exception. auto.
  - destruct (normalize_of_returns v raw) as (r & evs & E). rewrite E.
    exists r, evs. split; [reflexivity|]. split.
    + eapply normalize_of_in_unit_interval; eauto.
    + destruct (normalize_of_events _ _ _ _ E) as [-> | ->]; auto.
  - eexists _, []. rewrite score_of_exception. auto.
Qed.

(** ** Text-only orchestrator *)

Lemma text_process_pdf_eq path :
  TextOnly.process_pdf chat fitz path =
  match fitz path with
  | inl e =>
      (inr {| categoria := "ARCHIVO_CORRUPTO"; score := PyFloat PyFloat.zero;
              evidencia := PyStr (exn_str e) |}, [])
  | inr doc =>
      if (length (pages doc) =? 0)%nat then
        (inr {| categoria := "VACIO"; score := PyFloat PyFloat.zero;
                evidencia := PyStr (lit "Sin páginas") |}, [EvOpen path])
      else
        match TextOnly.extract_text_smart doc 4000 with
        | inl e =>
            (inr {| categoria := "ARCHIVO_CORRUPTO"; score := PyFloat PyFloat.zero;
                    evidencia := PyStr (exn_str e) |}, [EvOpen path])
        | inr text =>
            if (String.length text <? 50)%nat then
              (inr short_text_record, [EvOpen path; EvClose path])
            else
              let '(out, evs) := classify_of chat TextVariant "" text in
              match out with
              | inr r => (inr r, EvOpen path :: evs ++ [EvClose path])
              | inl e =>
                  (inr {| categoria := "ARCHIVO_CORRUPTO";
                          score := PyFloat PyFloat.zero;
                          evidencia := PyStr (exn_str e) |}, EvOpen path :: evs)
              end
        end
  end.
Proof.
  unfold TextOnly.process_pdf, TextOnly.open_document, TextOnly.close_document,
    try_except, emit, lift, bind, ret.
  destruct (fitz path) as [e|doc]; [reflexivity|].
  destruct (length (pages doc) =? 0)%nat; [reflexivity|].
  destruct (TextOnly.extract_text_smart doc 4000) as [e|text]; [reflexivity|].
  destruct (String.length text <? 50)%nat; [reflexivity|].
  simpl classify_of.
  destruct (TextOnly.classify_document_text_only chat text) as [[e|r] evs];
    simpl; now rewrite ?app_nil_r.
Qed.

(** ** Vision orchestrator *)

Lemma vision_process_pdf_eq path :
  Hybrid.process_pdf chat fitz path =
  let corrupt e evs :=
    (inr {| categoria := "ARCHIVO_CORRUPTO"; score := PyFloat PyFloat.zero;
            evidencia := PyStr (exn_str e) |}, evs) in
  match fitz path with
  | inl e => corrupt e []
  | inr doc =>
      match pages doc with
      | [] =>
          (inr {| categoria := "VACIO"; score := PyFloat PyFloat.zero;
                  evidencia := PyStr (lit "PDF sin páginas") |}, [EvOpen path])
      | pg :: _ =>
          match get_text pg, get_pixmap pg with
          | inl e, _ => corrupt e [EvOpen path]
          | inr _, inl e => corrupt e [EvOpen path]
          | inr text, inr img =>
              let '(out, evs) := classify_of chat VisionVariant img text in
              match out with
              | inr r => (inr r, EvOpen path :: evs ++ [EvClose path])
              | inl e => corrupt e (EvOpen path :: evs)
              end
          end
      end
  end.
Proof.
  unfold Hybrid.process_pdf, Hybrid.open_document, Hybrid.close_document,
    try_except, emit, lift, bind, ret, load_page.
  destruct (fitz path) as [e|[[|pg rest]]]; try reflexivity.
  simpl. unfold ebind.
  destruct (get_text pg) as [e|text]; [reflexivity|].
  destruct (get_pixmap pg) as [e|img]; [reflexivity|].
  assert (E : or_empty text = text).
  { unfold or_empty. destruct (String.eqb_spec text ""); congruence. }
  rewrite E.
  destruct (Hybrid.classify_document_hybrid chat img text) as [[e|r] evs];
    simpl; now rewrite ?app_nil_r.
Qed.

(** Every document gets a record, scored in the unit interval. *)
Lemma process_pdf_of_returns v path :
  exists r evs, process_pdf_of chat fitz v path = (inr r, evs)
                /\ in_unit_interval (score r) = true.
Proof.
  destruct v; simpl.
  - rewrite text_process_pdf_eq.
    destruct (fitz path) as [e|doc]; [eauto|].
    destruct (length (pages doc) =? 0)%nat; [eauto|].
    destruct (TextOnly.extract_text_smart doc 4000) as [e|text]; [eauto|].
    destruct (String.length text <? 50)%nat; [eauto|].
    destruct (classify_of_returns TextVariant "" text) as (r & evs & -> & H & _).
    eauto.
  - rewrite vision_process_pdf_eq. cbv beta zeta.
    destruct (fitz path) as [e|[[|pg rest]]]; cbn [pages]; [eauto|eauto|].
    destruct (get_text pg) as [e|text]; [eauto|].
    destruct (get_pixmap pg) as [e|img]; [eauto|].
    destruct (classify_of_returns VisionVariant img text) as (r & evs & -> & H & _).
    eauto.
Qed.

End Orchestrator.

(* ===================================================================== *)
(** * Properties of the normaliser *)
(* ===================================================================== *)

Section NormaliserProperties.

Lemma categoria_of_nothing_found v : categoria (nothing_found v) = "REVISION_MANUAL".
Proof. now destruct v. Qed.

Lemma categoria_of_exception v e :
  categoria (on_exception_of v e) = "REVISION_MANUAL"
  \/ categoria (on_exception_of v e) = "ERROR".
Proof.
  destruct v; simpl; [now right|].
  unfold Hybrid.on_exception. destruct (is_JSONDecodeError e); auto.
Qed.

(** A score field of a usable shape is read and clamped without an
    exception. *)
Lemma usable_score_clamps items :
  score_field_usable (PyDict items) = true ->
  exists sc clamped,
    read_score (PyDict items) = inr sc /\ clamp sc = inr clamped
    /\ (dict_find "score" items = None -> sc = PyFloat PyFloat.half)
    /\ (forall s, dict_find "score" items = Some s -> is_json_number s = true -> sc = s).
Proof.
  intros Hu.
  assert (H : exists sc x,
             read_score (PyDict items) = inr sc /\ as_number sc = Some x
             /\ (dict_find "score" items = None -> sc = PyFloat PyFloat.half)
             /\ (forall s, dict_find "score" items = Some s ->
                           is_json_number s = true -> sc = s)).
  { revert Hu. unfold score_field_usable, read_score, py_get, ebind.
    destruct (dict_find "score" items) as [s|] eqn:E.
    - destruct s as [|b|z|f|t|?|?]; try discriminate; intros _.
      + eexists _, _. repeat split; try discriminate. now intros s [= <-].
      + eexists _, _. repeat split; try discriminate. now intros s [= <-].
      + eexists _, _. repeat split; try discriminate. now intros s [= <-].
      + destruct (PyFloat.of_string (replace "," "." t)) as [f|];
          eexists _, _; repeat split; try discriminate;
          intros s [= <-]; discriminate.
    - intros _. eexists _, _. repeat split; discriminate. }
  destruct H as (sc & x & Hr & Hx & Hn & Hs).
  exists sc. eexists. split; [exact Hr|]. split; [apply (clamp_number _ _ Hx)|].
  split; assumption.
Qed.

Lemma finish_score_returns v sc clamped :
  clamp sc = inr clamped -> exists w, finish_score v clamped = inr w.
Proof.
  intros H. destruct v; simpl; [eauto|].
  destruct (round_after_clamp _ _ H) as (n & _ & E). eauto.
Qed.

(** With a string category and a usable score the record is built, and
    its fields are those of the answer after normalisation. *)
Lemma build_result_usable v items c :
  category_token (PyDict items) = inr c ->
  score_field_usable (PyDict items) = true ->
  exists sc clamped w ev,
    read_score (PyDict items) = inr sc /\ clamp sc = inr clamped
    /\ finish_score v clamped = inr w
    /\ build_result_of v (PyDict items) =
         inr {| categoria := repair_category c; score := w; evidencia := ev |}.
Proof.
  intros Hc Hu.
  destruct (usable_score_clamps items Hu) as (sc & clamped & Hr & Hcl & _).
  destruct (finish_score_returns v _ _ Hcl) as (w & Hw).
  exists sc, clamped, w. eexists. repeat (split; [eassumption|]).
  rewrite build_result_of_eq. unfold ebind. rewrite Hc, Hr, Hcl, Hw.
  unfold py_get. reflexivity.
Qed.

Lemma category_token_string items c :
  dict_find "categoria" items = Some (PyStr c) ->
  category_token (PyDict items) = inr (replace " " "_" (upper c)).
Proof. intros H. unfold category_token, py_get, ebind. now rewrite H. Qed.


(** A returned score is a float on which clamping, and the rounding of
    the vision variant, do nothing more. *)
Lemma finished_score_fixed v sc clamped w :
  clamp sc = inr clamped -> finish_score v clamped = inr w ->
  (exists f, w = PyFloat f) /\ clamp w = inr w /\ finish_score v w = inr w.
Proof.
  intros Hc Hf. destruct v; simpl in *.
  - injection Hf as <-. split; [|split; [eapply clamp_idempotent; eauto|reflexivity]].
    destruct (clamp_cases _ _ Hc) as [-> | [-> | (f & _ & -> & _)]]; eauto.
  - destruct (round_after_clamp _ _ Hc) as (n & Hn & E).
    rewrite E in Hf. injection Hf as <-.
    destruct (hundredth_facts n Hn) as (_ & H1 & H2).
    split; [eauto|]. split; [exact H1|]. simpl. now rewrite H2.
Qed.

(** What a record of the normaliser is made of. *)
Lemma normalize_of_shape v raw r evs :
  normalize_of v raw = (inr r, evs) ->
  (categoria r = "ERROR"
   \/ repair_category (replace " " "_" (upper (categoria r))) = categoria r)
  /\ exists sc clamped, clamp sc = inr clamped /\ finish_score v clamped = inr (score r).
Proof.
  assert (Z0 : exists sc clamped,
             clamp sc = inr clamped
             /\ finish_score v clamped = inr (PyFloat PyFloat.zero)).
  { exists (PyFloat PyFloat.zero), (PyFloat PyFloat.zero).
    split; [reflexivity|]. now destruct v. }
  assert (EX : forall e,
             (categoria (on_exception_of v e) = "ERROR"
              \/ repair_category
                   (replace " " "_" (upper (categoria (on_exception_of v e))))
                 = categoria (on_exception_of v e))
             /\ exists sc clamped,
                 clamp sc = inr clamped
                 /\ finish_score v clamped = inr (score (on_exception_of v e))).
  { intros e. rewrite score_of_exception. split; [|exact Z0].
    destruct (categoria_of_exception v e) as [-> | ->]; auto. }
  rewrite normalize_of_eq, interpret_of_eq.
  destruct (String.eqb (cleaned_of v raw) "").
  - intros [= <- _]. rewrite score_of_nothing_found, categoria_of_nothing_found.
    split; [now right|exact Z0].
  - unfold ebind. destruct (Json.loads (cleaned_of v raw)) as [e|parsed].
    + intros [= <- _]. apply EX.
    + destruct (build_result_of v parsed) as [e|r'] eqn:HB.
      * intros [= <- _]. apply EX.
      * intros [= <- _]. revert HB. rewrite build_result_of_eq. unfold ebind.
        destruct (category_token parsed) as [|c]; [discriminate|].
        destruct (read_score parsed) as [|sc]; [discriminate|].
        destruct (clamp sc) as [|clamped] eqn:Hc; [discriminate|].
        destruct (finish_score v clamped) as [|w] eqn:Hw; [discriminate|].
        destruct (py_get parsed "evidencia" _); [discriminate|].
        intros [= <-]. simpl. split; [right; apply repair_category_stable|eauto].
Qed.

End NormaliserProperties.

(* ===================================================================== *)
(** * The claims *)
(* ===================================================================== *)



(** Claim C2, as the code has it.  For an answer that parses to an object
    whose category is in the closed set and whose score is a number
    between 0 and 1, either variant returns that category.  The clamped
    score equals the answer's score; the text-only variant returns it,
    the vision variant returns it rounded to two decimals, which leaves a
    two-decimal score as it is. *)
Theorem valid_answer_kept (v : variant) (raw : string)
  (items : list (string * pyobj)) (c : string) (s : pyobj) :
  In c CATEGORIAS_VALIDAS ->
  between_0_and_1 s = true ->
  Json.loads (cleaned_of v raw) = inr (PyDict items) ->
  dict_find "categoria" items = Some (PyStr c) ->
  dict_find "score" items = Some s ->
  exists r evs clamped,
    normalize_of v raw = (inr r, evs)
    /\ categoria r = c
    /\ clamp s = inr clamped
    /\ py_num_eq clamped s = true
    /\ finish_score v clamped = inr (score r)
    /\ (forall n, (0 <= n <= 100)%Z -> s = PyFloat (hundredth n) -> score r = s).
Proof.
  intros Hc Hs HL Hcat Hscore.
  destruct (clamp_between_0_and_1 s Hs) as (clamped & Hcl & Heq).
  destruct (finish_score_returns v _ _ Hcl) as (w & Hw).
  assert (Hread : read_score (PyDict items) = inr s).
  { unfold read_score, py_get, ebind. rewrite Hscore.
    destruct s; try reflexivity. discriminate. }
  pose (ev := match dict_find "evidencia" items with
              | Some x => x
              | None => PyStr (match v with
                               | TextVariant => "Sin evidencia"
                               | VisionVariant => "Sin evidencia detallada"
                               end)
              end).
  assert (HB : build_result_of v (PyDict items)
               = inr {| categoria := c; score := w; evidencia := ev |}).
  { rewrite build_result_of_eq. unfold ebind.
    rewrite (category_token_string _ _ Hcat), Hread, Hcl, Hw.
    destruct (valid_category_fixed c Hc) as [-> ->]. reflexivity. }
  eexists _, _, clamped. split; [exact (normalize_of_parsed _ _ _ _ HL HB)|].
  simpl. repeat (split; [assumption || reflexivity|]).
  intros n Hn ->. destruct (hundredth_facts n Hn) as (_ & H1 & H2).
  rewrite H1 in Hcl. injection Hcl as <-.
  destruct v; simpl in Hw.
  - now injection Hw as <-.
  - rewrite H2 in Hw. now injection Hw as <-.
Qed.

(** Claim C2 fails as stated: the vision variant returns 0.12 for the
    well-formed answer whose score is 0.123. *)
Lemma vision_rounds_score :
  exists items s r evs,
    Json.loads (cleaned_of VisionVariant Samples.three_decimals) = inr (PyDict items)
    /\ dict_find "categoria" items = Some (PyStr "CONTRATO")
    /\ In "CONTRATO" CATEGORIAS_VALIDAS
    /\ dict_find "score" items = Some s
    /\ s = PyFloat (PyFloat.of_decimal false 123 (-3))
    /\ between_0_and_1 s = true
    /\ normalize_of VisionVariant Samples.three_decimals = (inr r, evs)
    /\ score r = PyFloat (PyFloat.of_decimal false 12 (-2))
    /\ py_num_eq (score r) s = false.
Proof.
  eexists _, _, _, _.
  split; [vm_compute; reflexivity|].
  split; [reflexivity|]. split; [simpl; tauto|].
  split; [reflexivity|]. split; [vm_compute; reflexivity|].
  split; [vm_compute; reflexivity|].
  split; [vm_compute; reflexivity|].
  split; vm_compute; reflexivity.
Qed.

(** Claim C3.  Every record the pipeline produces has its score in the
    closed interval from 0.0 to 1.0: the records of the normaliser on any
    answer, those of the classifiers on any endpoint, and those of the
    orchestrators on any file. *)
Theorem score_in_unit_interval :
  (forall v raw, exists r evs,
      normalize_of v raw = (inr r, evs) /\ in_unit_interval (score r) = true)
  /\ (forall chat v image text, exists r evs,
         classify_of chat v image text = (inr r, evs)
         /\ in_unit_interval (score r) = true)
  /\ (forall chat fitz v path, exists r evs,
         process_pdf_of chat fitz v path = (inr r, evs)
         /\ in_unit_interval (score r) = true).
Proof.
  split; [|split].
  - intros v raw. destruct (normalize_of_returns v raw) as (r & evs & E).
    exists r, evs. split; [exact E|]. eapply normalize_of_in_unit_interval; eauto.
  - intros chat v image text.
    destruct (classify_of_returns chat v image text) as (r & evs & E & H & _).
    eauto.
  - intros chat fitz v path. apply process_pdf_of_returns.
Qed.

(** Scores out of range are clamped, in both variants. *)
Example out_of_range_scores :
  map (fun raw => option_map score
                    (match fst (normalize_of TextVariant raw) with
                     | inr r => Some r | inl _ => None end))
      [Samples.too_high; Samples.too_low]
  = [Some (PyFloat PyFloat.one); Some (PyFloat PyFloat.zero)]
  /\ map (fun raw => option_map score
                       (match fst (normalize_of VisionVariant raw) with
                        | inr r => Some r | inl _ => None end))
         [Samples.too_high; Samples.too_low]
     = [Some (PyFloat PyFloat.one); Some (PyFloat PyFloat.zero)].
Proof. split; vm_compute; reflexivity. Qed.

(** Claim C4, as the code has it.  Let an answer be normalised to a
    record other than the [ERROR] sentinel, and let a text be a JSON
    serialisation of that record that the cleaning step leaves as it is
    (no fence token inside).  Normalising that text gives the same record
    again. *)
Theorem renormalising_is_stable (v : variant) (raw : string) (r : result)
  (evs : list event) (again : string) :
  normalize_of v raw = (inr r, evs) ->
  categoria r <> "ERROR" ->
  Json.loads again = inr (to_dict r) ->
  cleaned_of v again = again ->
  normalize_of v again = (inr r, [EvJsonLoads again]).
Proof.
  intros Hn Hcat HL Hclean.
  destruct (normalize_of_shape _ _ _ _ Hn) as ([Habs | Hfix] & sc & clamped & Hcl & Hf);
    [contradiction|].
  destruct (finished_score_fixed _ _ _ _ Hcl Hf) as ((f & Ef) & Hcl' & Hf').
  rewrite <- Hclean at 2. apply (normalize_of_parsed v again (to_dict r)).
  - now rewrite Hclean.
  - rewrite build_result_of_eq. unfold ebind, to_dict.
    rewrite (category_token_string _ (categoria r)) by reflexivity.
    assert (Hread : read_score
                      (PyDict [("categoria", PyStr (categoria r));
                               ("score", score r); ("evidencia", evidencia r)])
                    = inr (score r)).
    { unfold read_score, py_get, ebind. simpl dict_find. now rewrite Ef. }
    rewrite Hread, Hcl', Hf', Hfix. simpl. now destruct r.
Qed.

(** Claim C4 fails as stated.  The [ERROR] record either variant returns
    for a numeric category comes back as [REVISION_MANUAL] when its
    serialisation is normalised; and a record whose evidence holds a
    fence token loses the token. *)
Lemma error_record_not_stable :
  (exists r evs r' evs',
      normalize_of TextVariant Samples.numeric_category = (inr r, evs)
      /\ Json.loads Samples.text_error_dump = inr (to_dict r)
      /\ normalize_of TextVariant Samples.text_error_dump = (inr r', evs')
      /\ categoria r = "ERROR" /\ categoria r' = "REVISION_MANUAL")
  /\ (exists r evs r' evs',
         normalize_of VisionVariant Samples.numeric_category = (inr r, evs)
         /\ Json.loads Samples.vision_error_dump = inr (to_dict r)
         /\ normalize_of VisionVariant Samples.vision_error_dump = (inr r', evs')
         /\ categoria r = "ERROR" /\ categoria r' = "REVISION_MANUAL")
  /\ (exists r evs r' evs',
         normalize_of TextVariant Samples.escaped_fence = (inr r, evs)
         /\ Json.loads Samples.escaped_fence_dump = inr (to_dict r)
         /\ normalize_of TextVariant Samples.escaped_fence_dump = (inr r', evs')
         /\ evidencia r = PyStr "a```b" /\ evidencia r' = PyStr "ab").
Proof.
  split; [|split]; eexists _, _, _, _;
    (split; [vm_compute; reflexivity|]);
    (split; [vm_compute; reflexivity|]);
    (split; [vm_compute; reflexivity|]);
    split; reflexivity.
Qed.

(** Claim C6.  For an answer in which no opening brace is followed by a
    closing brace, either variant returns its fixed record, category
    [REVISION_MANUAL] and score [0.0], and makes no call at all: the JSON
    parser is not tried. *)
Theorem no_brace_pair_no_parse (v : variant) (raw : string) :
  has_brace_pair raw = false ->
  normalize_of v raw = (inr (nothing_found v), [])
  /\ categoria (nothing_found v) = "REVISION_MANUAL"
  /\ score (nothing_found v) = PyFloat PyFloat.zero.
Proof.
  intros H. split; [|split; [apply categoria_of_nothing_found
                            |apply score_of_nothing_found]].
  rewrite normalize_of_eq, interpret_of_eq.
  assert (E : cleaned_of v raw = "").
  { destruct v; apply (no_pair_cleaned_empty raw H). }
  now rewrite E.
Qed.

Lemma no_brace_pair_no_parse_witness :
  normalize_of TextVariant Samples.apology = (inr TextOnly.illegible, [])
  /\ normalize_of VisionVariant Samples.apology = (inr Hybrid.no_json, []).
Proof.
  split.
  - apply (no_brace_pair_no_parse TextVariant Samples.apology). reflexivity.
  - apply (no_brace_pair_no_parse VisionVariant Samples.apology). reflexivity.
Defined.

(** Claim C7, as the code has it.  For an answer that parses to an object
    whose category, upper-cased and with blanks made underscores, is a
    valid category followed by [S], and whose score field is absent, a
    number, a boolean or a string, either variant returns the valid
    category. *)
Theorem plural_category_repaired (v : variant) (raw : string)
  (items : list (string * pyobj)) (c cat : string) :
  In cat CATEGORIAS_VALIDAS ->
  Json.loads (cleaned_of v raw) = inr (PyDict items) ->
  dict_find "categoria" items = Some (PyStr c) ->
  replace " " "_" (upper c) = cat ++ "S" ->
  score_field_usable (PyDict items) = true ->
  exists r evs, normalize_of v raw = (inr r, evs) /\ categoria r = cat.
Proof.
  intros Hcat HL Hc Hplural Hu.
  destruct (build_result_usable v items _ (category_token_string _ _ Hc) Hu)
    as (sc & clamped & w & ev & _ & _ & _ & HB).
  eexists _, _. split; [exact (normalize_of_parsed _ _ _ _ HL HB)|].
  simpl. rewrite Hplural. now apply plural_repaired.
Qed.

Lemma plural_category_repaired_witness :
  (exists r evs, normalize_of TextVariant Samples.plural_answer = (inr r, evs)
                 /\ categoria r = "INFORME_TECNICO")
  /\ (exists r evs, normalize_of VisionVariant Samples.fenced_answer = (inr r, evs)
                    /\ categoria r = "CONTRATO").
Proof.
  split.
  - eapply (plural_category_repaired TextVariant Samples.plural_answer _
              "informe tecnicos" "INFORME_TECNICO").
    + simpl; tauto.
    + vm_compute; reflexivity.
    + reflexivity.
    + reflexivity.
    + reflexivity.
  - eapply (plural_category_repaired VisionVariant Samples.fenced_answer _
              "CONTRATOS" "CONTRATO").
    + simpl; tauto.
    + vm_compute; reflexivity.
    + reflexivity.
    + reflexivity.
    + reflexivity.
Defined.

(** Claim C7 fails as stated: with a null score next to the plural label
    both variants return the [ERROR] sentinel. *)
Lemma plural_with_null_score :
  (exists items,
      Json.loads (cleaned_of TextVariant Samples.plural_null_score) = inr (PyDict items)
      /\ dict_find "categoria" items = Some (PyStr "CONTRATOS")
      /\ replace " " "_" (upper "CONTRATOS") = "CONTRATO" ++ "S")
  /\ (exists r evs,
         normalize_of TextVariant Samples.plural_null_score = (inr r, evs)
         /\ categoria r = "ERROR")
  /\ (exists r evs,
         normalize_of VisionVariant Samples.plural_null_score = (inr r, evs)
         /\ categoria r = "ERROR").
Proof.
  split; [|split].
  - eexists. split; [vm_compute; reflexivity|]. split; reflexivity.
  - eexists _, _. split; [vm_compute; reflexivity|reflexivity].
  - eexists _, _. split; [vm_compute; reflexivity|reflexivity].
Qed.




Lemma valid_answer_kept_witness :
  (exists r evs, normalize_of VisionVariant Samples.two_decimals = (inr r, evs)
                 /\ categoria r = "CONTRATO"
                 /\ score r = PyFloat (hundredth 87))
  /\ (exists r evs, normalize_of TextVariant Samples.three_decimals = (inr r, evs)
                    /\ categoria r = "CONTRATO"
                    /\ score r = PyFloat (PyFloat.of_decimal false 123 (-3))).
Proof.
  split.
  - destruct (valid_answer_kept VisionVariant Samples.two_decimals
                [("categoria", PyStr "CONTRATO"); ("score", PyFloat (hundredth 87));
                 ("evidencia", PyStr "Contratante")]
                "CONTRATO" (PyFloat (hundredth 87)))
      as (r & evs & clamped & Hn & Hc & _ & _ & _ & Hkeep).
    + simpl; tauto.
    + vm_compute; reflexivity.
    + vm_compute; reflexivity.
    + reflexivity.
    + reflexivity.
    + exists r, evs. split; [exact Hn|]. split; [exact Hc|].
      apply (Hkeep 87%Z); [lia|reflexivity].
  - destruct (valid_answer_kept TextVariant Samples.three_decimals
                [("categoria", PyStr "CONTRATO");
                 ("score", PyFloat (PyFloat.of_decimal false 123 (-3)));
                 ("evidencia", PyStr "Contratante")]
                "CONTRATO" (PyFloat (PyFloat.of_decimal false 123 (-3))))
      as (r & evs & clamped & Hn & Hc & Hcl & _ & Hf & _).
    + simpl; tauto.
    + vm_compute; reflexivity.
    + vm_compute; reflexivity.
    + reflexivity.
    + reflexivity.
    + exists r, evs. split; [exact Hn|]. split; [exact Hc|].
      vm_compute in Hcl. injection Hcl as <-.
      simpl in Hf. injection Hf as <-. vm_compute. reflexivity.
Defined.

Lemma renormalising_is_stable_witness :
  normalize_of TextVariant Samples.fenced_dump
  = (inr {| categoria := "CONTRATO";
            score := PyFloat (PyFloat.of_decimal false 91 (-2));
            evidencia := PyStr (lit "Cláusulas, Contratante") |},
     [EvJsonLoads Samples.fenced_dump])
  /\ normalize_of VisionVariant Samples.fenced_dump
     = (inr {| categoria := "CONTRATO";
               score := PyFloat (PyFloat.of_decimal false 91 (-2));
               evidencia := PyStr (lit "Cláusulas, Contratante") |},
        [EvJsonLoads Samples.fenced_dump]).
Proof.
  split.
  - eapply (renormalising_is_stable TextVariant Samples.fenced_answer).
    + vm_compute; reflexivity.
    + discriminate.
    + vm_compute; reflexivity.
    + vm_compute; reflexivity.
  - eapply (renormalising_is_stable VisionVariant Samples.fenced_answer).
    + vm_compute; reflexivity.
    + discriminate.
    + vm_compute; reflexivity.
    + vm_compute; reflexivity.
Defined.

(* ===================================================================== *)
(** * Properties of the orchestrators *)
(* ===================================================================== *)



(** Claim C8 fails on the code.  A PDF without pages is opened and
    answered [VACIO] by both variants without a call to [close], so its
    handle is still open when [main] opens the next file; the same holds
    when reading the page raises.  The sibling path for a short text does
    close the handle. *)
Lemma zero_pages_leaks_handle :
  (exists r, TextOnly.process_pdf Samples.chat Samples.empty_folder "vacio.pdf"
             = (inr r, [EvOpen "vacio.pdf"])
             /\ categoria r = "VACIO")
  /\ (exists r, Hybrid.process_pdf Samples.chat Samples.empty_folder "vacio.pdf"
                = (inr r, [EvOpen "vacio.pdf"])
                /\ categoria r = "VACIO")
  /\ open_handles [EvOpen "vacio.pdf"] = ["vacio.pdf"]
  /\ open_handles (snd (TextOnly.main Samples.chat Samples.empty_folder ["a.pdf"; "b.pdf"]))
     = ["a.pdf"; "b.pdf"]
  /\ open_handles (snd (Hybrid.main Samples.chat Samples.empty_folder ["a.pdf"; "b.pdf"]))
     = ["a.pdf"; "b.pdf"]
  /\ open_handles
       (snd (TextOnly.process_pdf Samples.chat
               (Samples.every_file Samples.unreadable) "x.pdf"))
     = ["x.pdf"]
  /\ open_handles
       (snd (Hybrid.process_pdf Samples.chat
               (Samples.every_file Samples.unreadable) "x.pdf"))
     = ["x.pdf"]
  /\ open_handles
       (snd (TextOnly.process_pdf Samples.chat
               (Samples.every_file (Samples.one_page Samples.text49)) "s.pdf"))
     = [].
Proof.
  split; [eexists; split; reflexivity|].
  split; [eexists; split; reflexivity|].
  repeat split; vm_compute; reflexivity.
Qed.



(* ===================================================================== *)
(** * Further properties: text excerpts *)
(* ===================================================================== *)

Section Excerpts.

Lemma take_length n s : (String.length (take n s) <= n)%nat.
Proof.
  unfold take. revert s. induction n as [|n IH]; intros [|c s]; simpl; try lia.
  specialize (IH s). lia.
Qed.

Lemma take_cons n c s : take (S n) (String c s) = String c (take n s).
Proof. reflexivity. Qed.

Lemma take_take n s : take n (take n s) = take n s.
Proof.
  unfold take. revert s. induction n as [|n IH]; intros [|c s]; simpl; try reflexivity.
  now rewrite IH.
Qed.

Lemma single_blanks_from_weaken b s :
  single_blanks_from b s = true -> single_blanks_from false s = true.
Proof.
  destruct s as [|c s]; [reflexivity|]. simpl.
  destruct (isspace c); [|auto]. intros H.
  apply andb_prop in H as [H Hs]. apply andb_prop in H as [Hc _].
  now rewrite Hc, Hs.
Qed.

Lemma collapse_ws_single_blanks s :
  forall b, single_blanks_from b (collapse_ws_from b s) = true.
Proof.
  induction s as [|c s IH]; intros b; [reflexivity|].
  cbn [collapse_ws_from]. destruct (isspace c) eqn:E.
  - destruct b; [apply IH|]. cbn [single_blanks_from].
    change (isspace " ") with true. cbv iota. now rewrite IH.
  - cbn [single_blanks_from]. rewrite E. apply IH.
Qed.

Lemma lstrip_single_blanks b s :
  single_blanks_from b s = true -> single_blanks_from false (lstrip s) = true.
Proof.
  revert b. induction s as [|c s IH]; intros b H; [reflexivity|].
  cbn [lstrip]. destruct (isspace c) eqn:E.
  - simpl in H. rewrite E in H. apply andb_prop in H as [_ H]. eapply IH; eauto.
  - eapply single_blanks_from_weaken; eauto.
Qed.

Lemma rstrip_single_blanks s :
  forall b, single_blanks_from b s = true -> single_blanks_from b (rstrip s) = true.
Proof.
  induction s as [|c s IH]; intros b H; [reflexivity|].
  cbn [rstrip]. simpl in H. destruct (isspace c) eqn:E.
  - apply andb_prop in H as [H Hs]. specialize (IH _ Hs).
    destruct (rstrip s) as [|d r]; [reflexivity|].
    cbn [single_blanks_from]. rewrite E.
    cbn [single_blanks_from] in IH. now rewrite H, IH.
  - specialize (IH _ H).
    destruct (rstrip s) as [|d r]; cbn [single_blanks_from]; rewrite E; auto.
Qed.

Lemma take_single_blanks n :
  forall b s, single_blanks_from b s = true -> single_blanks_from b (take n s) = true.
Proof.
  induction n as [|n IH]; intros b [|c s] H; try reflexivity.
  rewrite take_cons. cbn [single_blanks_from] in *. destruct (isspace c).
  - apply andb_prop in H as [H Hs]. now rewrite H, (IH _ _ Hs).
  - now apply IH.
Qed.

Lemma lstrip_starts_clean s : starts_clean (lstrip s) = true.
Proof.
  induction s as [|c s IH]; [reflexivity|].
  cbn [lstrip]. destruct (isspace c) eqn:E; [exact IH|]. simpl. now rewrite E.
Qed.

Lemma rstrip_starts_clean s : starts_clean s = true -> starts_clean (rstrip s) = true.
Proof.
  destruct s as [|c s]; [reflexivity|]. cbn [rstrip starts_clean].
  destruct (rstrip s); [|auto]. intros H.
  apply negb_true_iff in H. rewrite H. simpl. now rewrite H.
Qed.

Lemma take_starts_clean n s : starts_clean s = true -> starts_clean (take n s) = true.
Proof. destruct n, s; auto. Qed.

(** What every excerpt cut out of a text is like: at most [n]
    characters, no white space at its head, and no white space but single
    blanks. *)
Lemma excerpt_shape n s :
  let t := take n (strip (collapse_ws s)) in
  (String.length t <= n)%nat /\ starts_clean t = true /\ single_blanks t = true.
Proof.
  cbv zeta. split; [apply take_length|]. split.
  - apply take_starts_clean. unfold strip.
    apply rstrip_starts_clean, lstrip_starts_clean.
  - unfold single_blanks, strip, collapse_ws.
    apply take_single_blanks, rstrip_single_blanks.
    eapply lstrip_single_blanks, collapse_ws_single_blanks.
Qed.

(** The shape of the computation of [extract_text_smart]. *)
Lemma extract_text_smart_cut doc max_chars text :
  TextOnly.extract_text_smart doc max_chars = inr text ->
  exists full, text = take max_chars (strip (collapse_ws full)).
Proof.
  unfold TextOnly.extract_text_smart, ebind.
  repeat match goal with
         | |- context [if ?b then _ else _] => destruct b
         | |- context [match TextOnly.page_text ?d ?i with _ => _ end] =>
             destruct (TextOnly.page_text d i); try discriminate
         end;
    intros [= <-]; eauto.
Qed.

(** Property X1.  The text [extract_text_smart] returns has at most [max_chars]
    characters, does not begin with white space, and holds no white space
    other than single blanks. *)
Theorem extract_text_smart_shape (doc : document) (max_chars : nat) (text : string) :
  TextOnly.extract_text_smart doc max_chars = inr text ->
  (String.length text <= max_chars)%nat
  /\ starts_clean text = true
  /\ single_blanks text = true.
Proof.
  intros H. destruct (extract_text_smart_cut _ _ _ H) as (full & ->).
  apply excerpt_shape.
Qed.


Lemma last_page_read (p0 p1 : page) (mid : list page) (plast : page) :
  load_page {| pages := p0 :: p1 :: mid ++ [plast] |}
            (length (p0 :: p1 :: mid ++ [plast]) - 1) = inr plast
  /\ (2 <? length (p0 :: p1 :: mid ++ [plast]))%nat = true.
Proof.
  split.
  - unfold load_page. cbn [pages].
    change (p0 :: p1 :: mid ++ [plast])%list with ((p0 :: p1 :: mid) ++ [plast])%list.
    rewrite length_app. cbn [length].
    replace (S (S (length mid)) + 1 - 1)%nat with (length (p0 :: p1 :: mid)) by (simpl; lia).
    rewrite nth_error_app2 by lia. now rewrite Nat.sub_diag.
  - apply Nat.ltb_lt. cbn [length]. rewrite length_app. simpl. lia.
Qed.

(** What [extract_text_smart] reads of a document of three pages or
    more: the first page, the second, and the last. *)
Lemma extract_text_smart_long p0 p1 mid plast max_chars :
  TextOnly.extract_text_smart {| pages := p0 :: p1 :: mid ++ [plast] |} max_chars =
  (t0 <~ get_text p0 ;;
   t1 <~ get_text p1 ;;
   tl <~ get_text plast ;;
   inr (take max_chars
          (strip (collapse_ws
                    (((("" ++ t0 ++ nl) ++ take 500 t1 ++ nl)
                       ++ nl ++ "...[CONTENIDO OMITIDO]..." ++ nl) ++ tl))))).
Proof.
  destruct (last_page_read p0 p1 mid plast) as [HL H2].
  unfold TextOnly.extract_text_smart, TextOnly.page_text.
  cbn [pages] in *. rewrite H2, HL.
  unfold load_page, ebind. cbn [pages length Nat.ltb Nat.leb nth_error].
  destruct (get_text p0) as [e|t0]; [reflexivity|].
  destruct (get_text p1) as [e|t1]; [reflexivity|].
  destruct (get_text plast); reflexivity.
Qed.

(** Property X2.  [extract_text_smart] samples the document: the pages between
    the second and the last are not read at all, and of the second page
    only the first 500 characters count. *)
Theorem extract_text_smart_sampling :
  (forall p0 p1 mid mid' plast max_chars,
      TextOnly.extract_text_smart {| pages := p0 :: p1 :: mid ++ [plast] |} max_chars
      = TextOnly.extract_text_smart {| pages := p0 :: p1 :: mid' ++ [plast] |} max_chars)
  /\ (forall p0 t img rest max_chars,
         TextOnly.extract_text_smart
           {| pages := p0 :: {| get_text := inr t; get_pixmap := img |} :: rest |}
           max_chars
         = TextOnly.extract_text_smart
             {| pages := p0 :: {| get_text := inr (take 500 t); get_pixmap := img |}
                            :: rest |}
             max_chars).
Proof.
  split.
  - intros. now rewrite !extract_text_smart_long.
  - intros p0 t img rest max_chars.
    unfold TextOnly.extract_text_smart, TextOnly.page_text, load_page, ebind.
    cbn [pages length Nat.ltb Nat.leb nth_error Nat.sub get_text].
    rewrite take_take.
    destruct (get_text p0) as [e|t0]; [reflexivity|].
    destruct rest as [|r rest]; [reflexivity|].
    cbn [length Nat.leb nth_error Nat.sub]. reflexivity.
Qed.

(** A line break after a text does not change what is left of it once
    white space is collapsed and trimmed. *)
Lemma rstrip_blank s : rstrip (s ++ " ") = rstrip s.
Proof.
  induction s as [|c s IH]; [reflexivity|].
  cbn [append rstrip]. now rewrite IH.
Qed.

Lemma strip_blank s : strip (s ++ " ") = strip s.
Proof.
  unfold strip. induction s as [|c s IH]; [reflexivity|].
  cbn [append lstrip]. destruct (isspace c); [exact IH|].
  apply (rstrip_blank (String c s)).
Qed.

Lemma collapse_ws_newline s :
  forall b, collapse_ws_from b (s ++ nl) = collapse_ws_from b s
            \/ collapse_ws_from b (s ++ nl) = collapse_ws_from b s ++ " ".
Proof.
  induction s as [|c s IH]; intros b.
  - destruct b; [left|right]; reflexivity.
  - cbn [append collapse_ws_from]. destruct (isspace c).
    + destruct b.
      * apply IH.
      * destruct (IH true) as [-> | ->]; [left|right]; reflexivity.
    + destruct (IH false) as [-> | ->]; [left|right]; reflexivity.
Qed.

Lemma strip_collapse_newline s :
  strip (collapse_ws (s ++ nl)) = strip (collapse_ws s).
Proof.
  unfold collapse_ws. destruct (collapse_ws_newline s false) as [-> | ->];
    [reflexivity|apply strip_blank].
Qed.

(** Property X3.  For a document of one page, what [extract_text_smart] returns
    is the text of the page with white space collapsed to single blanks,
    trimmed at both ends and cut at [max_chars]; when the page cannot be
    read, its exception comes out. *)
Theorem extract_text_smart_one_page (p : page) (max_chars : nat) :
  TextOnly.extract_text_smart {| pages := [p] |} max_chars =
  match get_text p with
  | inr t => inr (take max_chars (strip (collapse_ws t)))
  | inl e => inl e
  end.
Proof.
  unfold TextOnly.extract_text_smart, TextOnly.page_text, load_page, ebind.
  cbn [pages length Nat.ltb Nat.leb nth_error].
  destruct (get_text p) as [e|t]; [reflexivity|].
  change ("" ++ t ++ nl) with (t ++ nl). now rewrite strip_collapse_newline.
Qed.

(** ** The snippet of the vision variant *)

Lemma replace_length a b s : String.length (replace a b s) = String.length s.
Proof. induction s as [|c s IH]; simpl; congruence. Qed.

Lemma replace_removes a b s : a <> b -> contains a (replace a b s) = false.
Proof.
  intros Hab. induction s as [|c s IH]; [reflexivity|].
  cbn [replace contains]. rewrite IH, orb_false_r.
  destruct (Ascii.eqb_spec c a) as [->|Hc].
  - apply Ascii.eqb_neq. congruence.
  - now apply Ascii.eqb_neq.
Qed.

Lemma replace_quote_single_blanks s :
  forall b, single_blanks_from b s = true ->
            single_blanks_from b (replace dq "'" s) = true.
Proof.
  induction s as [|c s IH]; intros b H; [reflexivity|].
  cbn [replace]. destruct (Ascii.eqb_spec c dq) as [->|Hc].
  - cbn [single_blanks_from] in *.
    change (isspace dq) with false in H. change (isspace "'") with false.
    cbv iota in *. now apply IH.
  - cbn [single_blanks_from] in *. destruct (isspace c).
    + apply andb_prop in H as [H Hs]. now rewrite H, (IH _ Hs).
    + now apply IH.
Qed.

Lemma replace_quote_starts_clean s :
  starts_clean s = true -> starts_clean (replace dq "'" s) = true.
Proof.
  destruct s as [|c s]; [reflexivity|]. cbn [replace starts_clean].
  destruct (Ascii.eqb_spec c dq) as [->|Hc]; auto.
Qed.

(** Property X4.  The snippet of page text that the vision variant puts between
    double quotes in its prompt has at most 2000 characters and no double
    quote; it does not begin with white space and holds no white space
    other than single blanks. *)
Theorem text_snippet_shape (text_context : string) :
  (String.length (Hybrid.text_snippet text_context) <= 2000)%nat
  /\ contains dq (Hybrid.text_snippet text_context) = false
  /\ starts_clean (Hybrid.text_snippet text_context) = true
  /\ single_blanks (Hybrid.text_snippet text_context) = true.
Proof.
  unfold Hybrid.text_snippet.
  destruct (excerpt_shape 2000 text_context) as (HL & HC & HS). cbv zeta in *.
  split; [now rewrite replace_length|].
  split; [apply replace_removes; discriminate|].
  split; [now apply replace_quote_starts_clean|].
  now apply replace_quote_single_blanks.
Qed.

End Excerpts.

(* ===================================================================== *)
(** * Further properties: the runs of the orchestrators *)
(* ===================================================================== *)

Section Runs.

Variable chat : request -> exn + option string.
Variable fitz : string -> exn + document.

Lemma length_append (a b : string) :
  String.length (a ++ b) = (String.length a + String.length b)%nat.
Proof. induction a as [|c a IH]; simpl; congruence. Qed.

Lemma text_prompt_length t :
  String.length (TextOnly.prompt_sistema t) = (1346 + String.length t)%nat.
Proof.
  assert (E : String.length (TextOnly.prompt_sistema "") = 1346%nat)
    by (vm_compute; reflexivity).
  revert E. unfold TextOnly.prompt_sistema. rewrite !length_append.
  simpl (String.length ""). lia.
Qed.

Lemma vision_prompt_length t :
  String.length (Hybrid.prompt_sistema t) = (1530 + String.length t)%nat.
Proof.
  assert (E : String.length (Hybrid.prompt_sistema "") = 1530%nat)
    by (vm_compute; reflexivity).
  revert E. unfold Hybrid.prompt_sistema. rewrite !length_append.
  simpl (String.length ""). lia.
Qed.

Lemma normalize_of_label v raw r evs :
  normalize_of v raw = (inr r, evs) -> In (categoria r) normaliser_labels.
Proof.
  intros H. destruct (normalize_of_shape _ _ _ _ H) as ([E|E] & _).
  - rewrite E. apply in_or_app. right. simpl. auto.
  - rewrite <- E.
    destruct (repair_category_range (replace " " "_" (upper (categoria r))))
      as [-> | HIn]; apply in_or_app; [right; simpl; auto|now left].
Qed.

Lemma exception_label v e : In (categoria (on_exception_of v e)) normaliser_labels.
Proof.
  apply in_or_app. right.
  destruct (categoria_of_exception v e) as [-> | ->]; simpl; auto.
Qed.

Lemma exception_score_shape v e :
  exists sc clamped,
    clamp sc = inr clamped /\ finish_score v clamped = inr (score (on_exception_of v e)).
Proof.
  rewrite score_of_exception.
  exists (PyFloat PyFloat.zero), (PyFloat PyFloat.zero).
  split; [reflexivity|]. now destruct v.
Qed.

(** A run of the classifier: one inference call, then at most the call
    to the parser; the record carries a label of the normaliser and a
    clamped score. *)
Lemma classify_of_run v image text :
  exists r cevs,
    classify_of chat v image text = (inr r, EvInfer (request_of v image text) :: cevs)
    /\ (cevs = [] \/ exists s, cevs = [EvJsonLoads s])
    /\ In (categoria r) normaliser_labels
    /\ exists sc clamped, clamp sc = inr clamped /\ finish_score v clamped = inr (score r).
Proof.
  rewrite classify_of_eq. cbv zeta.
  destruct (chat (request_of v image text)) as [e|[raw|]].
  - exists (on_exception_of v e), []. split; [reflexivity|]. split; [now left|].
    split; [apply exception_label|apply exception_score_shape].
  - destruct (normalize_of_returns v raw) as (r & evs & E). rewrite E.
    exists r, evs. split; [reflexivity|]. split.
    + destruct (normalize_of_events _ _ _ _ E) as [-> | ->]; eauto.
    + split; [eapply normalize_of_label; eauto|].
      now destruct (normalize_of_shape _ _ _ _ E).
  - eexists _, []. split; [reflexivity|]. split; [now left|].
    split; [apply exception_label|apply exception_score_shape].
Qed.

Lemma process_pdf_of_run v path :
  exists r evs,
    process_pdf_of chat fitz v path = (inr r, evs) /\ run_of chat v path r evs.
Proof.
  destruct v; simpl.
  - rewrite text_process_pdf_eq.
    destruct (fitz path) as [e|doc].
    { eexists _, _. split; [reflexivity|]. apply (run_corrupt _ _ _ _ _ e); [reflexivity|auto]. }
    destruct (length (pages doc) =? 0)%nat.
    { eexists _, _. split; [reflexivity|]. eapply run_empty; [reflexivity|reflexivity]. }
    destruct (TextOnly.extract_text_smart doc 4000) as [e|text] eqn:HX.
    { eexists _, _. split; [reflexivity|]. apply (run_corrupt _ _ _ _ _ e); [reflexivity|auto]. }
    destruct (String.length text <? 50)%nat eqn:HL.
    { eexists _, _. split; [reflexivity|]. now apply run_short. }
    destruct (classify_of_run TextVariant "" text) as (r & cevs & E & H1 & H2 & H3).
    rewrite E. eexists _, _. split; [reflexivity|].
    eapply run_classified; eauto. intros _.
    apply Nat.ltb_ge in HL. split; [exact HL|].
    destruct (extract_text_smart_cut _ _ _ HX) as (full & ->). apply take_length.
  - rewrite vision_process_pdf_eq. cbv beta zeta.
    destruct (fitz path) as [e|[[|pg rest]]]; cbn [pages].
    { eexists _, _. split; [reflexivity|]. apply (run_corrupt _ _ _ _ _ e); [reflexivity|auto]. }
    { eexists _, _. split; [reflexivity|]. eapply run_empty; [reflexivity|reflexivity]. }
    destruct (get_text pg) as [e|text].
    { eexists _, _. split; [reflexivity|]. apply (run_corrupt _ _ _ _ _ e); [reflexivity|auto]. }
    destruct (get_pixmap pg) as [e|img].
    { eexists _, _. split; [reflexivity|]. apply (run_corrupt _ _ _ _ _ e); [reflexivity|auto]. }
    destruct (classify_of_run VisionVariant img text) as (r & cevs & E & H1 & H2 & H3).
    rewrite E. eexists _, _. split; [reflexivity|].
    eapply run_classified; eauto. discriminate.
Qed.

(** Property X5.  The category of a record is always one of a closed list: the
    five valid categories, [REVISION_MANUAL] and [ERROR] for the
    normaliser; those and [VACIO] and [ARCHIVO_CORRUPTO] for
    [process_pdf]. *)
Theorem category_in_closed_vocabulary (v : variant) :
  (forall raw, exists r evs,
      normalize_of v raw = (inr r, evs) /\ In (categoria r) normaliser_labels)
  /\ (forall path, exists r evs,
         process_pdf_of chat fitz v path = (inr r, evs)
         /\ In (categoria r) pipeline_labels).
Proof.
  split.
  - intros raw. destruct (normalize_of_returns v raw) as (r & evs & E).
    exists r, evs. split; [exact E|]. eapply normalize_of_label; eauto.
  - intros path. destruct (process_pdf_of_run v path) as (r & evs & E & R).
    exists r, evs. split; [exact E|]. unfold pipeline_labels.
    destruct R as [e -> _ | t -> _ | _ -> _ | image text cevs _ _ _ HL _ _].
    + apply in_or_app. right. simpl. auto.
    + apply in_or_app. right. simpl. auto.
    + apply in_or_app. left. apply in_or_app. right. simpl. auto.
    + apply in_or_app. now left.
Qed.

(** Property X6.  The score of every record of the vision variant is a
    two-decimal value: one of the 101 floats nearest to n/100 for n from
    0 to 100. *)
Theorem vision_score_two_decimals :
  (forall raw, exists r evs n,
      normalize_of VisionVariant raw = (inr r, evs)
      /\ (0 <= n <= 100)%Z /\ score r = PyFloat (hundredth n))
  /\ (forall path, exists r evs n,
         process_pdf_of chat fitz VisionVariant path = (inr r, evs)
         /\ (0 <= n <= 100)%Z /\ score r = PyFloat (hundredth n)).
Proof.
  assert (R : forall r, (exists sc clamped,
                 clamp sc = inr clamped
                 /\ finish_score VisionVariant clamped = inr (score r)) ->
             exists n, (0 <= n <= 100)%Z /\ score r = PyFloat (hundredth n)).
  { intros r (sc & clamped & Hc & Hf). simpl in Hf.
    destruct (round_after_clamp _ _ Hc) as (n & Hn & E).
    rewrite E in Hf. injection Hf as <-. eauto. }
  split.
  - intros raw. destruct (normalize_of_returns VisionVariant raw) as (r & evs & E).
    destruct (normalize_of_shape _ _ _ _ E) as (_ & H).
    destruct (R r H) as (n & Hn & Hs). exists r, evs, n. auto.
  - intros path. destruct (process_pdf_of_run VisionVariant path) as (r & evs & E & H).
    destruct H as [e -> _ | t -> _ | _ -> _ | image text cevs _ _ _ _ HS _].
    + exists (corrupt_file e), evs, 0%Z. split; [exact E|split; [lia|reflexivity]].
    + eexists _, evs, 0%Z. split; [exact E|split; [lia|reflexivity]].
    + exists short_text_record, evs, 0%Z. split; [exact E|split; [lia|reflexivity]].
    + destruct (R r HS) as (n & Hn & Hs). exists r, evs, n. auto.
Qed.

Lemma classified_handles path req cevs :
  cevs = [] \/ (exists s, cevs = [EvJsonLoads s]) ->
  open_handles (EvOpen path :: EvInfer req :: cevs ++ [EvClose path]) = []
  /\ inference_calls (EvOpen path :: EvInfer req :: cevs ++ [EvClose path]) = [EvInfer req]
  /\ prompt_lengths (EvOpen path :: EvInfer req :: cevs ++ [EvClose path])
     = [String.length (req_text req)].
Proof.
  intros [-> | (s & ->)]; unfold open_handles; simpl; rewrite String.eqb_refl; auto.
Qed.

(** Property X7.  After [process_pdf] the document is closed again, except on
    two paths: a document without pages and an exception raised after the
    document was opened; there the one handle stays open, and the record
    is [VACIO] or [ARCHIVO_CORRUPTO]. *)
Theorem handle_closed_unless_empty_or_corrupt (v : variant) (path : string) :
  exists r evs,
    process_pdf_of chat fitz v path = (inr r, evs)
    /\ (open_handles evs = []
        \/ (open_handles evs = [path]
            /\ (categoria r = "VACIO" \/ categoria r = "ARCHIVO_CORRUPTO"))).
Proof.
  destruct (process_pdf_of_run v path) as (r & evs & E & H).
  exists r, evs. split; [exact E|].
  destruct H as [e -> [-> | ->] | t -> -> | _ -> -> | image text cevs _ _ HC _ _ ->].
  - now left.
  - right. split; [reflexivity|now right].
  - right. split; [reflexivity|now left].
  - left. unfold open_handles. simpl. now rewrite String.eqb_refl.
  - left. now destruct (classified_handles path (request_of v image text) cevs HC).
Qed.

Lemma prompt_within v image text :
  (v = TextVariant -> (50 <= String.length text <= 4000)%nat) ->
  (String.length (req_text (request_of v image text)) <= prompt_limit v)%nat.
Proof.
  destruct v; intros H;
    unfold request_of, TextOnly.build_request, Hybrid.build_request, prompt_limit;
    cbn [req_text].
  - rewrite text_prompt_length. specialize (H eq_refl). lia.
  - rewrite vision_prompt_length.
    pose proof (excerpt_shape 2000 text) as (HL & _). cbv zeta in HL.
    unfold Hybrid.text_snippet. rewrite replace_length. lia.
Qed.

(** Property X8.  [process_pdf] calls the inference endpoint at most once for a
    file, and the prompt of that call is bounded: at most 5346 characters
    for the text-only variant, 3530 for the vision variant. *)
Theorem one_bounded_inference_call (v : variant) (path : string) :
  exists r evs,
    process_pdf_of chat fitz v path = (inr r, evs)
    /\ (length (inference_calls evs) <= 1)%nat
    /\ Forall (fun n => (n <= prompt_limit v)%nat) (prompt_lengths evs).
Proof.
  destruct (process_pdf_of_run v path) as (r & evs & E & H).
  exists r, evs. split; [exact E|].
  destruct H as [e -> [-> | ->] | t -> -> | _ -> -> | image text cevs _ HT HC _ _ ->];
    try (simpl; split; [lia|constructor]).
  destruct (classified_handles path (request_of v image text) cevs HC) as (_ & -> & ->).
  split; [simpl; lia|]. constructor; [|constructor]. now apply prompt_within.
Qed.

(** Property X9.  A file that cannot be opened gets the record
    [ARCHIVO_CORRUPTO] with score 0.0 and the whole text of the exception
    as evidence; nothing else is done for it. *)
Theorem open_failure_is_corrupt (v : variant) (path : string) (e : exn) :
  fitz path = inl e ->
  process_pdf_of chat fitz v path = (inr (corrupt_file e), []).
Proof.
  intros H. destruct v; simpl.
  - rewrite text_process_pdf_eq. now rewrite H.
  - rewrite vision_process_pdf_eq. cbv beta zeta. now rewrite H.
Qed.

(** Property X10.  When the text of the first page cannot be read, either
    variant returns [ARCHIVO_CORRUPTO] with the whole text of the
    exception; the endpoint is not called, and the document stays open. *)
Theorem page_failure_is_corrupt (v : variant) (path : string) (doc : document)
  (pg : page) (rest : list page) (e : exn) :
  fitz path = inr doc ->
  pages doc = pg :: rest ->
  get_text pg = inl e ->
  exists evs,
    process_pdf_of chat fitz v path = (inr (corrupt_file e), evs)
    /\ inference_calls evs = []
    /\ open_handles evs = [path].
Proof.
  intros HF HP HT. exists [EvOpen path]. split; [|split; reflexivity].
  destruct v; simpl.
  - rewrite text_process_pdf_eq, HF, HP. cbn [length Nat.eqb].
    unfold TextOnly.extract_text_smart, TextOnly.page_text, load_page, ebind.
    rewrite HP. cbn [length Nat.ltb Nat.leb nth_error]. now rewrite HT.
  - rewrite vision_process_pdf_eq. cbv beta zeta. rewrite HF, HP. now rewrite HT.
Qed.

(** Property X11.  When the call to the endpoint raises, the classifier returns
    a record made from the exception, with score 0.0 and at most 100
    characters of its text, after that one call; the parser is not
    called.  The category is [ERROR], except for a [JSONDecodeError] in
    the vision variant. *)
Theorem endpoint_failure_is_error (v : variant) (image : Image) (text : string)
  (e : exn) :
  chat (request_of v image text) = inl e ->
  is_JSONDecodeError e = false ->
  classify_of chat v image text =
  (inr {| categoria := "ERROR"; score := PyFloat PyFloat.zero;
          evidencia := PyStr (match v with
                              | TextVariant => take 100 (exn_str e)
                              | VisionVariant =>
                                  "Fallo en inferencia: " ++ take 100 (exn_str e)
                              end) |},
   [EvInfer (request_of v image text)]).
Proof.
  intros H HJ. rewrite classify_of_eq. cbv zeta. rewrite H.
  destruct v; simpl; [reflexivity|].
  unfold Hybrid.on_exception. now rewrite HJ.
Qed.

(** Property X12.  When the completion has no content, either classifier
    returns [ERROR] with score 0.0; the evidence is the text of the
    [AttributeError] that [None.strip()] raises. *)
Theorem missing_content_is_error (v : variant) (image : Image) (text : string) :
  chat (request_of v image text) = inr None ->
  classify_of chat v image text =
  (inr {| categoria := "ERROR"; score := PyFloat PyFloat.zero;
          evidencia := PyStr (match v with
                              | TextVariant => ""
                              | VisionVariant => "Fallo en inferencia: "
                              end ++ "'NoneType' object has no attribute 'strip'") |},
   [EvInfer (request_of v image text)]).
Proof.
  intros H. rewrite classify_of_eq. cbv zeta. rewrite H.
  destruct v; reflexivity.
Qed.

End Runs.

(* ===================================================================== *)
(** * Further properties: the report *)
(* ===================================================================== *)

Section Report.

Variable chat : request -> exn + option string.
Variable fitz : string -> exn + document.

Lemma contains_append c a b : contains c (a ++ b) = contains c a || contains c b.
Proof.
  induction a as [|x a IH]; [reflexivity|].
  cbn [append contains]. now rewrite IH, orb_assoc.
Qed.

Lemma basename_no_slash name : contains "/" name = false -> basename name = name.
Proof.
  destruct name as [|c name]; [reflexivity|].
  cbn [contains basename]. intros H. apply orb_false_iff in H as [Hc Hn].
  now rewrite Hn, Hc.
Qed.

(** Property X13.  The file name written in the report is what follows the last
    slash of the path: for a path made of a folder, a slash and a name
    without slash, it is the name. *)
Theorem basename_of_joined_path (folder name : string) :
  contains "/" name = false ->
  basename (folder ++ "/" ++ name) = name.
Proof.
  intros H. induction folder as [|c folder IH].
  - cbn [append basename]. now rewrite H.
  - cbn [append basename].
    rewrite contains_append. cbn [append contains].
    change (Ascii.eqb "/" "/") with true. cbn [orb]. rewrite orb_true_r. exact IH.
Qed.

Lemma set_cell_same ws row col v : set_cell ws row col v row col = Some v.
Proof. unfold set_cell. now rewrite !Nat.eqb_refl. Qed.

Lemma set_cell_other ws row col v r c :
  r <> row \/ c <> col -> set_cell ws row col v r c = ws r c.
Proof.
  unfold set_cell. intros [H|H]; apply Nat.eqb_neq in H; rewrite H;
    [reflexivity|now rewrite andb_false_r].
Qed.

Lemma ws_cell_stored ws row col value :
  storable value = true ->
  exists ws',
    ws_cell ws row col value = inr ws'
    /\ (forall r c, r <> row \/ c <> col -> ws' r c = ws r c)
    /\ ws' row col = match stored value with Some x => Some x | None => ws row col end.
Proof.
  destruct value as [|b|z|f|s|l|d]; cbn [storable ws_cell stored]; intros H;
    try discriminate.
  - exists ws. auto.
  - eexists. split; [reflexivity|]. split; [apply set_cell_other|apply set_cell_same].
  - eexists. split; [reflexivity|]. split; [apply set_cell_other|apply set_cell_same].
  - eexists. split; [reflexivity|]. split; [apply set_cell_other|apply set_cell_same].
  - apply negb_true_iff in H. rewrite H. eexists. split; [reflexivity|].
    split; [apply set_cell_other|apply set_cell_same].
Qed.

Lemma ws_cell_refused ws row col value :
  storable value = false ->
  exists e, ws_cell ws row col value = inl e /\ forall x, e <> Uncaught x.
Proof.
  destruct value as [|b|z|f|s|l|d]; cbn [storable ws_cell]; intros H;
    try discriminate.
  - apply negb_false_iff in H. rewrite H. eexists. split; [reflexivity|discriminate].
  - eexists. split; [reflexivity|discriminate].
  - eexists. split; [reflexivity|discriminate].
Qed.

Lemma write_cells_stored values :
  forall ws row col,
    forallb storable values = true ->
    exists ws',
      write_cells ws row col values = inr ws'
      /\ (forall r c, r <> row \/ (c < col)%nat -> ws' r c = ws r c)
      /\ (forall i value, nth_error values i = Some value ->
            ws' row (col + i)%nat
            = match stored value with Some x => Some x | None => ws row (col + i)%nat end).
Proof.
  induction values as [|value rest IH]; intros ws row col H.
  - exists ws. split; [reflexivity|]. split; [reflexivity|]. intros [|i]; discriminate.
  - cbn [forallb] in H. apply andb_prop in H as [Hv Hr].
    destruct (ws_cell_stored ws row col value Hv) as (ws1 & E1 & O1 & S1).
    destruct (IH ws1 row (S col) Hr) as (ws2 & E2 & O2 & S2).
    exists ws2. cbn [write_cells]. rewrite E1. split; [exact E2|]. split.
    + intros r c Hrc. rewrite O2 by (destruct Hrc; [now left|right; lia]).
      apply O1. destruct Hrc; [now left|right; lia].
    + intros [|i] x Hx.
      * injection Hx as <-. rewrite Nat.add_0_r, O2 by (right; lia). exact S1.
      * cbn [nth_error] in Hx. replace (col + S i)%nat with (S col + i)%nat by lia.
        rewrite (S2 _ _ Hx). destruct (stored x); [reflexivity|].
        apply O1. right. lia.
Qed.

Lemma write_cells_refused values :
  forall ws row col,
    forallb storable values = false ->
    exists e, write_cells ws row col values = inl e /\ forall x, e <> Uncaught x.
Proof.
  induction values as [|value rest IH]; intros ws row col H; [discriminate|].
  cbn [forallb] in H. cbn [write_cells].
  destruct (storable value) eqn:Hv.
  - destruct (ws_cell_stored ws row col value Hv) as (ws1 & -> & _).
    apply IH. exact H.
  - destruct (ws_cell_refused ws row col value Hv) as (e & -> & He). eauto.
Qed.

(** The fields of a record that [process_pdf] fills by itself are always
    taken by the worksheet. *)
Lemma label_stored c :
  In c pipeline_labels -> storable (PyStr c) = true /\ stored (PyStr c) = Some (PyStr c).
Proof.
  intros H. repeat (destruct H as [<-|H]; [split; vm_compute; reflexivity|]).
  destruct H.
Qed.

Lemma run_of_label v path r evs :
  run_of chat v path r evs -> In (categoria r) pipeline_labels.
Proof.
  unfold pipeline_labels.
  intros [e -> _ | t -> _ | _ -> _ | image text cevs _ _ _ HL _ _].
  - apply in_or_app. right. simpl. auto.
  - apply in_or_app. right. simpl. auto.
  - apply in_or_app. left. apply in_or_app. right. simpl. auto.
  - apply in_or_app. now left.
Qed.

Lemma run_of_score v path r evs :
  run_of chat v path r evs -> exists f, score r = PyFloat f.
Proof.
  intros [e -> _ | t -> _ | _ -> _ | image text cevs _ _ _ _ (sc & cl & Hc & Hf) _];
    try (eexists; reflexivity).
  now destruct (finished_score_fixed _ _ _ _ Hc Hf) as (H & _).
Qed.

Lemma process_pdf_of_row v p :
  exists r evs,
    process_pdf_of chat fitz v p = (inr r, evs)
    /\ storable (PyStr (categoria r)) = true
    /\ stored (PyStr (categoria r)) = Some (PyStr (categoria r))
    /\ storable (score r) = true
    /\ stored (score r) = Some (score r).
Proof.
  destruct (process_pdf_of_run chat fitz v p) as (r & evs & E & R).
  exists r, evs. split; [exact E|].
  destruct (label_stored _ (run_of_label _ _ _ _ R)) as [H1 H2].
  destruct (run_of_score _ _ _ _ R) as (f & ->). auto.
Qed.

Lemma report_loop_layout v files :
  forall ws row_num,
    (forall p r, In p files -> fst (process_pdf_of chat fitz v p) = inr r ->
                 storable (PyStr (basename p)) && storable (evidencia r) = true) ->
    exists ws' evs,
      report_loop (process_pdf_of chat fitz v) ws row_num files = (inr ws', evs)
      /\ (forall r c, (r < row_num)%nat \/ (row_num + length files <= r)%nat ->
                      ws' r c = ws r c)
      /\ (forall i p r, nth_error files i = Some p ->
            fst (process_pdf_of chat fitz v p) = inr r ->
            forall j value, nth_error (row_data p r) j = Some value ->
              ws' (row_num + i)%nat (1 + j)%nat
              = match stored value with
                | Some x => Some x
                | None => ws (row_num + i)%nat (1 + j)%nat
                end).
Proof.
  induction files as [|p rest IH]; intros ws row_num Hok.
  - exists ws, []. split; [reflexivity|]. split; [reflexivity|].
    intros [|i]; discriminate.
  - destruct (process_pdf_of_row v p) as (r & evs & E & C1 & _ & S1 & _).
    assert (Hrow : forallb storable (row_data p r) = true).
    { specialize (Hok p r (or_introl eq_refl)). rewrite E in Hok.
      specialize (Hok eq_refl). apply andb_prop in Hok as [Hb He].
      unfold row_data. cbn [forallb]. now rewrite Hb, C1, S1, He. }
    destruct (write_cells_stored _ ws row_num 1%nat Hrow) as (ws1 & E1 & O1 & W1).
    destruct (IH ws1 (S row_num)) as (ws2 & evs2 & E2 & O2 & W2).
    { intros q rq Hq. apply Hok. now right. }
    exists ws2, (evs ++ evs2)%list. cbn [report_loop]. rewrite E, E1, E2.
    split; [reflexivity|]. split.
    + intros r0 c H. cbn [length] in H. rewrite O2 by lia. apply O1. left. lia.
    + intros [|i] q rq Hq Hrq j value Hj.
      * injection Hq as <-. rewrite E in Hrq. injection Hrq as <-.
        rewrite Nat.add_0_r, O2 by lia. exact (W1 _ _ Hj).
      * cbn [nth_error] in Hq.
        replace (row_num + S i)%nat with (S row_num + i)%nat by lia.
        rewrite (W2 _ _ _ Hq Hrq _ _ Hj). destruct (stored value); [reflexivity|].
        apply O1. left. lia.
Qed.

Lemma headers_stored v :
  forallb storable (headers_of v) = true
  /\ forall j h, nth_error (headers_of v) j = Some h -> stored h = Some h.
Proof.
  split; [destruct v; vm_compute; reflexivity|].
  intros j h H.
  destruct v; do 4 (destruct j as [|j]; [injection H as <-; vm_compute; reflexivity|]);
    destruct j; discriminate.
Qed.

(** Property X14.  When the file names and the evidence of the records are
    values a worksheet takes, [main] writes the header in row 1 and the
    record of the i-th file in row i + 2: base name, category, score,
    evidence; the rows below stay empty. *)
Theorem report_layout (v : variant) (p0 : string) (more : list string) :
  (forall p r, In p (p0 :: more) -> fst (process_pdf_of chat fitz v p) = inr r ->
               storable (PyStr (basename p)) && storable (evidencia r) = true) ->
  exists ws evs,
    main_report chat fitz v (p0 :: more) = (inr (Some ws), evs)
    /\ (forall j h, nth_error (headers_of v) j = Some h -> ws 1%nat (1 + j)%nat = Some h)
    /\ (forall i p r, nth_error (p0 :: more) i = Some p ->
          fst (process_pdf_of chat fitz v p) = inr r ->
          ws (2 + i)%nat 1%nat = Some (PyStr (take max_cell_length (basename p)))
          /\ ws (2 + i)%nat 2%nat = Some (PyStr (categoria r))
          /\ ws (2 + i)%nat 3%nat = Some (score r)
          /\ ws (2 + i)%nat 4%nat = stored (evidencia r))
    /\ (forall r c, (2 + length (p0 :: more) <= r)%nat -> ws r c = None).
Proof.
  intros Hok. unfold main_report.
  destruct (headers_stored v) as [HS HH].
  destruct (write_cells_stored _ blank_sheet 1%nat 1%nat HS) as (ws0 & E0 & O0 & W0).
  destruct (report_loop_layout v (p0 :: more) ws0 2%nat Hok) as (ws & evs & E & O & W).
  rewrite E0, E. exists ws, evs. split; [reflexivity|]. split; [|split].
  - intros j h Hj. rewrite O by (left; lia). rewrite (W0 _ _ Hj). now rewrite (HH _ _ Hj).
  - intros i p r Hp Hr.
    assert (B : forall c, ws0 (2 + i)%nat c = None).
    { intros c. rewrite O0 by (left; lia). reflexivity. }
    destruct (process_pdf_of_row v p) as (r' & evs' & E' & _ & C2 & _ & S2).
    rewrite E' in Hr. injection Hr as <-.
    pose proof (W i p r' Hp) as Wi. rewrite E' in Wi. specialize (Wi eq_refl).
    split; [exact (Wi 0%nat _ eq_refl)|].
    pose proof (Wi 1%nat (PyStr (categoria r')) eq_refl) as W1. rewrite C2 in W1.
    pose proof (Wi 2%nat (score r') eq_refl) as W2. rewrite S2 in W2.
    pose proof (Wi 3%nat (evidencia r') eq_refl) as W3. rewrite B in W3.
    split; [exact W1|]. split; [exact W2|].
    etransitivity; [exact W3|]. now destruct (stored (evidencia r')).
  - intros r c H. rewrite O by (right; lia). rewrite O0 by (left; cbn [length] in H; lia).
    reflexivity.
Qed.

Lemma report_loop_refused v files :
  forall ws row_num p r,
    In p files -> fst (process_pdf_of chat fitz v p) = inr r ->
    storable (evidencia r) = false ->
    exists e evs,
      report_loop (process_pdf_of chat fitz v) ws row_num files = (inl e, evs)
      /\ forall x, e <> Uncaught x.
Proof.
  induction files as [|q rest IH]; intros ws row_num p r Hp Hr Hs; [destruct Hp|].
  destruct (process_pdf_of_row v q) as (rq & evs & E & _).
  cbn [report_loop]. rewrite E.
  destruct (forallb storable (row_data q rq)) eqn:Hrow.
  - destruct (write_cells_stored _ ws row_num 1%nat Hrow) as (ws1 & -> & _).
    destruct Hp as [-> | Hp].
    + rewrite E in Hr. injection Hr as <-.
      unfold row_data in Hrow. cbn [forallb] in Hrow. rewrite Hs in Hrow.
      now rewrite !andb_false_r in Hrow.
    + destruct (IH ws1 (S row_num) p r Hp Hr Hs) as (e & evs' & -> & He). eauto.
  - destruct (write_cells_refused _ ws row_num 1%nat Hrow) as (e & -> & He). eauto.
Qed.

(** Property X15.  One record whose evidence is a list or an object, as the
    model may well answer, or holds a control character, stops [main]
    with the exception of the worksheet: the report is not saved, for any
    of the files. *)
Theorem unstorable_evidence_stops_main (v : variant) (files : list string)
  (p : string) (r : result) :
  In p files ->
  fst (process_pdf_of chat fitz v p) = inr r ->
  storable (evidencia r) = false ->
  exists e evs,
    main_report chat fitz v files = (inl e, evs) /\ forall x, e <> Uncaught x.
Proof.
  intros Hp Hr Hs. unfold main_report.
  destruct files as [|p0 more]; [destruct Hp|].
  destruct (headers_stored v) as [HS _].
  destruct (write_cells_stored _ blank_sheet 1%nat 1%nat HS) as (ws0 & -> & _).
  destruct (report_loop_refused v (p0 :: more) ws0 2%nat p r Hp Hr Hs)
    as (e & evs & -> & He).
  eauto.
Qed.

End Report.

(* ===================================================================== *)
(** * Further properties: scanned documents *)
(* ===================================================================== *)

Section Scanned.

Variable chat : request -> exn + option string.
Variable fitz : string -> exn + document.

Lemma string_app_assoc (a b c : string) : (a ++ b) ++ c = a ++ b ++ c.
Proof. induction a as [|x a IH]; simpl; congruence. Qed.

Lemma string_app_nil_r (a : string) : a ++ "" = a.
Proof. induction a as [|x a IH]; simpl; congruence. Qed.

Lemma is_blank_app a b : is_blank (a ++ b) = is_blank a && is_blank b.
Proof.
  induction a as [|x a IH]; [reflexivity|].
  cbn [append is_blank]. now rewrite IH, andb_assoc.
Qed.

Lemma is_blank_take n s : is_blank s = true -> is_blank (take n s) = true.
Proof.
  unfold take. revert s. induction n as [|n IH]; intros [|c s]; try reflexivity.
  cbn [is_blank substring]. intros H. apply andb_prop in H as [Hc Hs].
  now rewrite Hc, (IH s Hs).
Qed.

(** What is left of collapsed text once it is trimmed on the left does
    not depend on blanks before it. *)
Lemma lstrip_collapse_flag s b b' :
  lstrip (collapse_ws_from b s) = lstrip (collapse_ws_from b' s).
Proof.
  destruct s as [|c s]; [reflexivity|]. cbn [collapse_ws_from].
  destruct (isspace c) eqn:E.
  - destruct b, b'; reflexivity.
  - reflexivity.
Qed.

Lemma lstrip_collapse_blank w s :
  is_blank w = true ->
  forall b, lstrip (collapse_ws_from b (w ++ s)) = lstrip (collapse_ws_from b s).
Proof.
  induction w as [|c w IH]; intros H b; [reflexivity|].
  cbn [is_blank] in H. apply andb_prop in H as [Hc Hw].
  cbn [append collapse_ws_from]. rewrite Hc.
  transitivity (lstrip (collapse_ws_from true (w ++ s))).
  - destruct b; reflexivity.
  - rewrite (IH Hw). apply lstrip_collapse_flag.
Qed.

Lemma collapse_ws_blank_run w :
  is_blank w = true -> collapse_ws_from true w = "".
Proof.
  induction w as [|c w IH]; [reflexivity|].
  cbn [is_blank collapse_ws_from]. intros H. apply andb_prop in H as [-> Hw]. auto.
Qed.

Lemma collapse_ws_blank_after s w :
  is_blank w = true ->
  forall b, collapse_ws_from b (s ++ w) = collapse_ws_from b s
            \/ collapse_ws_from b (s ++ w) = collapse_ws_from b s ++ " ".
Proof.
  intros Hw. induction s as [|c s IH]; intros b.
  - cbn [append]. destruct b; [left; now apply collapse_ws_blank_run|].
    destruct w as [|c w]; [now left|]. right.
    cbn [is_blank] in Hw. apply andb_prop in Hw as [Hc Hw].
    cbn [collapse_ws_from]. now rewrite Hc, (collapse_ws_blank_run _ Hw).
  - cbn [append collapse_ws_from]. destruct (isspace c).
    + destruct b.
      * apply IH.
      * destruct (IH true) as [-> | ->]; [left|right]; reflexivity.
    + destruct (IH false) as [-> | ->]; [left|right]; reflexivity.
Qed.

Lemma strip_collapse_between w1 s w2 :
  is_blank w1 = true -> is_blank w2 = true ->
  strip (collapse_ws (w1 ++ s ++ w2)) = strip (collapse_ws s).
Proof.
  intros H1 H2. unfold strip, collapse_ws.
  rewrite (lstrip_collapse_blank w1 _ H1).
  destruct (collapse_ws_blank_after s w2 H2 false) as [-> | ->]; [reflexivity|].
  apply (strip_blank (collapse_ws_from false s)).
Qed.

Lemma blank_excerpt w : is_blank w = true -> strip (collapse_ws w) = "".
Proof.
  intros H. rewrite <- (string_app_nil_r w).
  change (w ++ "") with (w ++ "" ++ "").
  now rewrite (strip_collapse_between w "" "" H eq_refl).
Qed.

Lemma no_text_layer_page doc p :
  no_text_layer doc = true -> In p (pages doc) ->
  exists t, get_text p = inr t /\ is_blank t = true.
Proof.
  unfold no_text_layer. rewrite forallb_forall. intros H Hp.
  specialize (H p Hp). destruct (get_text p) as [e|t]; [discriminate|eauto].
Qed.

(** The excerpt of a scanned document is empty, or is the mark of
    omitted content alone. *)
Lemma scanned_excerpt doc :
  no_text_layer doc = true ->
  exists text,
    TextOnly.extract_text_smart doc 4000 = inr text
    /\ (text = "" \/ text = "...[CONTENIDO OMITIDO]...").
Proof.
  intros H. destruct doc as [ps]. destruct ps as [|p0 [|p1 rest]].
  - exists "". split; [reflexivity|now left].
  - destruct (no_text_layer_page _ p0 H) as (t0 & E0 & B0); [now left|].
    exists "". split; [|now left].
    unfold TextOnly.extract_text_smart, TextOnly.page_text, load_page, ebind.
    cbn [pages length Nat.ltb Nat.leb nth_error]. rewrite E0.
    rewrite blank_excerpt; [reflexivity|].
    rewrite !is_blank_app, B0. reflexivity.
  - destruct (no_text_layer_page _ p0 H) as (t0 & E0 & B0); [now left|].
    destruct (no_text_layer_page _ p1 H) as (t1 & E1 & B1); [right; now left|].
    destruct rest as [|p2 rest].
    + exists "". split; [|now left].
      unfold TextOnly.extract_text_smart, TextOnly.page_text, load_page, ebind.
      cbn [pages length Nat.ltb Nat.leb nth_error]. rewrite E0, E1.
      rewrite blank_excerpt; [reflexivity|].
      rewrite !is_blank_app, B0, (is_blank_take 500 _ B1). reflexivity.
    + destruct (exists_last (l := p2 :: rest)) as (mid & plast & EL); [discriminate|].
      rewrite EL in *.
      destruct (no_text_layer_page _ plast H) as (tl & El & Bl).
      { right. right. apply in_or_app. right. now left. }
      rewrite extract_text_smart_long, E0, E1, El. unfold ebind.
      exists "...[CONTENIDO OMITIDO]...". split; [|now right].
      assert (EQ : (((("" ++ t0 ++ nl) ++ take 500 t1 ++ nl)
                       ++ nl ++ "...[CONTENIDO OMITIDO]..." ++ nl) ++ tl)
                   = (t0 ++ nl ++ take 500 t1 ++ nl ++ nl)
                       ++ "...[CONTENIDO OMITIDO]..." ++ (nl ++ tl)).
      { change ("" ++ t0 ++ nl) with (t0 ++ nl). now rewrite !string_app_assoc. }
      rewrite EQ.
      rewrite strip_collapse_between; [reflexivity| |].
      * rewrite !is_blank_app, B0, (is_blank_take 500 _ B1). reflexivity.
      * rewrite is_blank_app, Bl. reflexivity.
Qed.

(** Property X16.  A scanned document, whose pages give white space only, never
    reaches the endpoint in the text-only variant, however many pages it
    has: the mark of omitted content does not make up for the missing
    text.  The record is [REVISION_MANUAL] and the document is closed. *)
Theorem scanned_document_skips_inference (path : string) (doc : document) :
  fitz path = inr doc ->
  pages doc <> [] ->
  no_text_layer doc = true ->
  TextOnly.process_pdf chat fitz path
  = (inr short_text_record, [EvOpen path; EvClose path]).
Proof.
  intros HF HP HS. rewrite text_process_pdf_eq, HF.
  destruct (pages doc) as [|pg rest] eqn:EP; [contradiction|].
  cbn [length Nat.eqb].
  destruct (scanned_excerpt doc HS) as (text & -> & [-> | ->]); reflexivity.
Qed.

End Scanned.

(* ===================================================================== *)
(** * Further properties: the answers of the model *)
(* ===================================================================== *)

Section Answers.

Lemma drop_to_lbrace_head s :
  drop_to_lbrace s = "" \/ exists body, drop_to_lbrace s = String "{" body.
Proof.
  induction s as [|c s IH]; [now left|].
  cbn [drop_to_lbrace]. destruct (Ascii.eqb_spec c "{") as [->|]; [right; eauto|exact IH].
Qed.

Lemma upto_last_rbrace_head c s :
  upto_last_rbrace (String c s) = ""
  \/ exists body, upto_last_rbrace (String c s) = String c body.
Proof.
  cbn [upto_last_rbrace]. destruct (upto_last_rbrace s); [|right; eauto].
  destruct (Ascii.eqb c "}"); [right; eauto|now left].
Qed.

Lemma upto_last_rbrace_end s :
  upto_last_rbrace s = "" \/ endswith_char "}" (upto_last_rbrace s) = true.
Proof.
  induction s as [|c s IH]; [now left|].
  cbn [upto_last_rbrace]. destruct (upto_last_rbrace s) as [|d r].
  - destruct (Ascii.eqb c "}") eqn:E; [right|now left]. cbn [endswith_char]. exact E.
  - right. destruct IH as [IH|IH]; [discriminate|]. exact IH.
Qed.

(** What is handed to the parser is empty, or runs from an opening
    brace to a closing one. *)
Lemma cleaned_shape v raw :
  cleaned_of v raw = ""
  \/ exists body, cleaned_of v raw = String "{" body
                  /\ endswith_char "}" (String "{" body) = true.
Proof.
  assert (H : forall s, upto_last_rbrace (drop_to_lbrace s) = ""
                        \/ exists body,
                            upto_last_rbrace (drop_to_lbrace s) = String "{" body
                            /\ endswith_char "}" (String "{" body) = true).
  { intros s. destruct (drop_to_lbrace_head s) as [-> | (body & ->)]; [now left|].
    destruct (upto_last_rbrace_head "{" body) as [E | (b & E)]; [now left|].
    right. exists b. split; [exact E|]. rewrite <- E.
    destruct (upto_last_rbrace_end (String "{" body)) as [E' | E']; [congruence|exact E']. }
  destruct v; apply H.
Qed.

(** Property X17.  The parser is called at most once for an answer, and only on
    a text that begins with an opening brace and ends with a closing
    one. *)
Theorem parser_sees_only_braced_text (v : variant) (raw : string) :
  exists r evs,
    normalize_of v raw = (inr r, evs)
    /\ (evs = []
        \/ exists body, evs = [EvJsonLoads (String "{" body)]
                        /\ endswith_char "}" (String "{" body) = true).
Proof.
  destruct (normalize_of_returns v raw) as (r & evs & E).
  exists r, evs. split; [exact E|].
  destruct (normalize_of_events _ _ _ _ E) as [-> | ->]; [now left|].
  destruct (cleaned_shape v raw) as [E0 | (body & E1 & H)].
  - revert E. rewrite normalize_of_eq, interpret_of_eq, E0. cbn [String.eqb].
    discriminate.
  - right. exists body. now rewrite E1.
Qed.

(** ** What the parser returns for a text that begins with a brace *)

Lemma object_items_dict (sv : string -> nat -> Json.sres pyobj) (fuel : nat) :
  forall acc s pos,
    match Json.object_items sv fuel acc s pos with
    | Json.SOk v _ _ => exists items, v = PyDict items
    | _ => True
    end.
Proof.
  induction fuel as [|fuel IH]; intros acc s pos; [exact I|].
  cbn [Json.object_items]. destruct s as [|c s1]; [exact I|].
  destruct (Ascii.eqb c dq); [|exact I].
  destruct (Json.parse_string s1 (S pos)) as [key r1 p1| |]; try exact I.
  destruct (Json.skip_ws r1 p1) as [r2 p2].
  destruct r2 as [|[[|] [|] [|] [|] [|] [|] [|] [|]] r3]; try exact I.
  destruct (Json.skip_ws r3 (S p2)) as [r4 p4].
  destruct (sv r4 p4) as [val r5 p5| |]; try exact I.
  destruct (Json.skip_ws r5 p5) as [r6 p6].
  destruct r6 as [|[[|] [|] [|] [|] [|] [|] [|] [|]] r7]; try exact I;
    first [solve [eauto] | destruct (Json.skip_ws r7 (S p6)) as [r8 p8]; apply IH].
Qed.

Lemma parse_object_dict (sv : string -> nat -> Json.sres pyobj) s pos :
  match Json.parse_object sv s pos with
  | Json.SOk v _ _ => exists items, v = PyDict items
  | _ => True
  end.
Proof.
  unfold Json.parse_object. destruct (Json.skip_ws s pos) as [r p].
  destruct r as [|[[|] [|] [|] [|] [|] [|] [|] [|]] r'];
    try apply object_items_dict.
  eauto.
Qed.

Lemma scan_once_brace d body pos :
  Json.scan_once (S d) (String "{" body) pos
  = Json.parse_object (Json.scan_once d) body (S pos).
Proof. reflexivity. Qed.

Lemma loads_object body o :
  Json.loads (String "{" body) = inr o -> exists items, o = PyDict items.
Proof.
  unfold Json.loads.
  change (prefix Json.bom (String "{" body)) with false. cbv iota.
  change (Json.skip_ws (String "{" body) 0) with (String "{" body, 0%nat). cbv iota beta.
  change Json.recursion_limit with (S 999). rewrite scan_once_brace.
  pose proof (parse_object_dict (Json.scan_once 999) body 1) as H.
  destruct (Json.parse_object (Json.scan_once 999) body 1) as [v rest p1| |];
    try discriminate.
  destruct (Json.skip_ws rest p1) as [rest' p2].
  destruct rest'; [|discriminate]. intros [= <-]. exact H.
Qed.


(** Property X18.  Whatever the parser accepts from an answer is an object: the
    [get] calls on it cannot fail for want of a dict. *)
Theorem parsed_answer_is_object (v : variant) (raw : string) (o : pyobj) :
  Json.loads (cleaned_of v raw) = inr o ->
  exists items,
    o = PyDict items
    /\ (forall key default, exists x, py_get o key default = inr x).
Proof.
  intros H.
  destruct (cleaned_shape v raw) as [E | (body & E & _)]; rewrite E in H.
  - discriminate.
  - destruct (loads_object _ _ H) as (items & ->). exists items.
    split; [reflexivity|]. intros key default. cbn [py_get]. eauto.
Qed.


(** Property X20.  A category that is not a string (a [null], a number, a list)
    gives [ERROR] with the text of the [AttributeError] raised by
    [upper], not [REVISION_MANUAL]. *)
Theorem non_string_category_is_error (v : variant) (raw : string)
  (items : list (string * pyobj)) (c : pyobj) :
  Json.loads (cleaned_of v raw) = inr (PyDict items) ->
  dict_find "categoria" items = Some c ->
  not_a_string c = true ->
  normalize_of v raw
  = (inr {| categoria := "ERROR"; score := PyFloat PyFloat.zero;
            evidencia :=
              PyStr (match v with
                     | TextVariant => ""
                     | VisionVariant => "Fallo en inferencia: "
                     end ++ "'" ++ type_name c
                       ++ "' object has no attribute 'upper'") |},
     [EvJsonLoads (cleaned_of v raw)]).
Proof.
  intros HL HC HS.
  assert (HB : build_result_of v (PyDict items) = inl (no_attribute c "upper")).
  { rewrite build_result_of_eq. unfold ebind, category_token, py_get. rewrite HC.
    destruct c; try reflexivity. discriminate. }
  rewrite (normalize_of_parsed_raises _ _ _ _ HL HB). f_equal. f_equal.
  destruct v, c; try discriminate; reflexivity.
Qed.

End Answers.

Section Fields.

Variable chat : request -> exn + option string.

(** Property X21.  A label is matched without regard to case and with blanks for
    underscores: when the category of the answer, in upper case and with
    its blanks made underscores, is a valid category, the record carries
    that category. *)
Theorem label_matched_without_case (v : variant) (raw : string)
  (items : list (string * pyobj)) (c : string) :
  Json.loads (cleaned_of v raw) = inr (PyDict items) ->
  dict_find "categoria" items = Some (PyStr c) ->
  score_field_usable (PyDict items) = true ->
  In (replace " " "_" (upper c)) CATEGORIAS_VALIDAS ->
  exists r,
    normalize_of v raw = (inr r, [EvJsonLoads (cleaned_of v raw)])
    /\ categoria r = replace " " "_" (upper c).
Proof.
  intros HL HC HS HV.
  destruct (build_result_usable v items _ (category_token_string _ _ HC) HS)
    as (sc & clamped & w & ev & _ & _ & _ & HB).
  eexists. split; [exact (normalize_of_parsed _ _ _ _ HL HB)|].
  cbn [categoria]. now destruct (valid_category_fixed _ HV) as [_ ->].
Qed.

Lemma comma_decimal_read n :
  (n <= 100)%nat ->
  PyFloat.of_string (replace "," "." (comma_decimal n))
  = Some (hundredth (Z.of_nat n)).
Proof.
  intros Hn.
  assert (H : forallb
                (fun n => match PyFloat.of_string (replace "," "." (comma_decimal n)) with
                          | Some f => same_float f (hundredth (Z.of_nat n))
                          | None => false
                          end) (seq 0 101) = true) by (vm_compute; reflexivity).
  rewrite forallb_forall in H. specialize (H n).
  destruct (PyFloat.of_string (replace "," "." (comma_decimal n))) as [f|].
  - f_equal. apply same_float_eq. apply H. apply in_seq. lia.
  - discriminate H. apply in_seq. lia.
Qed.

(** Property X22.  A score written as a string with a decimal comma and two
    decimals, from [0,00] to [1,00], is read as the two-decimal float of
    the same value, in both variants. *)
Theorem comma_decimal_score (v : variant) (raw : string)
  (items : list (string * pyobj)) (c : string) (n : nat) :
  Json.loads (cleaned_of v raw) = inr (PyDict items) ->
  dict_find "categoria" items = Some (PyStr c) ->
  dict_find "score" items = Some (PyStr (comma_decimal n)) ->
  (n <= 100)%nat ->
  exists r,
    normalize_of v raw = (inr r, [EvJsonLoads (cleaned_of v raw)])
    /\ score r = PyFloat (hundredth (Z.of_nat n)).
Proof.
  intros HL HC HS Hn.
  destruct (hundredth_facts (Z.of_nat n)) as (_ & Hcl & Hr); [lia|].
  assert (HB : exists ev,
             build_result_of v (PyDict items)
             = inr {| categoria := repair_category (replace " " "_" (upper c));
                      score := PyFloat (hundredth (Z.of_nat n));
                      evidencia := ev |}).
  { rewrite build_result_of_eq. unfold ebind.
    rewrite (category_token_string _ _ HC).
    unfold read_score, py_get, ebind. rewrite HS, (comma_decimal_read n Hn), Hcl.
    destruct v; cbn [finish_score py_round2]; rewrite ?Hr; eauto. }
  destruct HB as (ev & HB).
  eexists. split; [exact (normalize_of_parsed _ _ _ _ HL HB)|reflexivity].
Qed.

Lemma xltb_asym a b : PyFloat.xltb a b = true -> PyFloat.xltb b a = false.
Proof.
  unfold PyFloat.xltb.
  destruct a as [|s1|m1 e1], b as [|s2|m2 e2]; cbn [PyFloat.xcompare]; try congruence.
  - destruct s1, s2; congruence.
  - destruct s1; congruence.
  - destruct s2; congruence.
  - rewrite (dy_compare_antisym m2 e2 m1 e1).
    destruct (PyFloat.dy_compare m1 e1 m2 e2); cbn [CompOpp]; congruence.
Qed.

Lemma below_zero_below_one x :
  PyFloat.xltb x (PyFloat.of_float PyFloat.zero) = true ->
  PyFloat.xltb x (PyFloat.of_float PyFloat.one) = true.
Proof.
  unfold PyFloat.xltb. destruct x as [|s|m e]; cbn; try congruence.
  unfold PyFloat.dy_compare.
  destruct (Z.compare_spec (m * 2 ^ (e - Z.min e 0)) (0 * 2 ^ (0 - Z.min e 0)))
    as [|H|]; try discriminate.
  intros _.
  assert (0 < 2 ^ (e - Z.min e 0))%Z by (apply Z.pow_pos_nonneg; lia).
  assert (0 < 2 ^ (e - Z.min e (-52)))%Z by (apply Z.pow_pos_nonneg; lia).
  assert (0 < 2 ^ (-52 - Z.min e (-52)))%Z by (apply Z.pow_pos_nonneg; lia).
  match goal with |- context [(?a ?= ?b)%Z] => destruct (Z.compare_spec a b) end;
    try reflexivity; nia.
Qed.

(** Property X23.  A numeric score outside the unit interval is saturated: above
    1 it becomes 1.0, below 0 it becomes 0.0; the [NaN] that the parser
    accepts as a number becomes 1.0. *)
Theorem out_of_range_score_saturates (v : variant) (raw : string)
  (items : list (string * pyobj)) (c : string) (s : pyobj) :
  Json.loads (cleaned_of v raw) = inr (PyDict items) ->
  dict_find "categoria" items = Some (PyStr c) ->
  dict_find "score" items = Some s ->
  is_json_number s = true ->
  exists r,
    normalize_of v raw = (inr r, [EvJsonLoads (cleaned_of v raw)])
    /\ (py_gt s (PyFloat PyFloat.one) = inr true -> score r = PyFloat PyFloat.one)
    /\ (py_lt s (PyFloat PyFloat.zero) = inr true -> score r = PyFloat PyFloat.zero)
    /\ (s = PyFloat S754_nan -> score r = PyFloat PyFloat.one).
Proof.
  intros HL HC HS HN.
  assert (HX : exists x, as_number s = Some x).
  { destruct s; try discriminate; cbn [as_number]; eauto. }
  destruct HX as (x & HX).
  assert (HR : read_score (PyDict items) = inr s).
  { unfold read_score, py_get, ebind. rewrite HS. destruct s; try reflexivity.
    discriminate. }
  pose proof (clamp_number s x HX) as HCl.
  destruct (finish_score_returns v _ _ HCl) as (w & HW).
  assert (HB : exists ev,
             build_result_of v (PyDict items)
             = inr {| categoria := repair_category (replace " " "_" (upper c));
                      score := w; evidencia := ev |}).
  { rewrite build_result_of_eq. unfold ebind.
    rewrite (category_token_string _ _ HC), HR, HCl, HW. unfold py_get. eauto. }
  destruct HB as (ev & HB).
  eexists. split; [exact (normalize_of_parsed _ _ _ _ HL HB)|].
  cbn [score].
  assert (One : finish_score v (PyFloat PyFloat.one) = inr (PyFloat PyFloat.one))
    by (destruct v; vm_compute; reflexivity).
  assert (Zero : finish_score v (PyFloat PyFloat.zero) = inr (PyFloat PyFloat.zero))
    by (destruct v; vm_compute; reflexivity).
  split; [|split].
  - unfold py_gt. rewrite HX. cbn [as_number]. intros [= H].
    assert (H1 : PyFloat.xltb x (PyFloat.of_float PyFloat.one) = false)
      by exact (xltb_asym _ _ H).
    rewrite H1, One in HW. now injection HW as <-.
  - unfold py_lt. rewrite HX. cbn [as_number]. intros [= H].
    assert (H1 : PyFloat.xltb x (PyFloat.of_float PyFloat.one) = true)
      by exact (below_zero_below_one _ H).
    assert (H0 : PyFloat.xltb (PyFloat.of_float PyFloat.zero) x = false)
      by exact (xltb_asym _ _ H).
    rewrite H1, H0, Zero in HW. now injection HW as <-.
  - intros ->. cbn [as_number] in HX. injection HX as <-.
    change (PyFloat.xltb PyFloat.XNaN (PyFloat.of_float PyFloat.one))
      with false in HW.
    cbv iota in HW. rewrite One in HW. now injection HW as <-.
Qed.

Lemma exception_evidence_within v e :
  evidence_within (evidence_limit v) (on_exception_of v e) = true.
Proof.
  unfold evidence_within.
  destruct v; cbn [on_exception_of evidence_limit].
  - cbn [TextOnly.on_exception evidencia]. apply Nat.leb_le, take_length.
  - unfold Hybrid.on_exception. destruct (is_JSONDecodeError e); cbn [evidencia];
      apply Nat.leb_le; rewrite length_append.
    + pose proof (take_length 50 (exn_str e)). cbn [String.length]. lia.
    + pose proof (take_length 100 (exn_str e)). cbn [String.length]. lia.
Qed.

Lemma repaired_is_not_error c : repair_category c <> "ERROR".
Proof.
  destruct (repair_category_range c) as [-> | H]; [discriminate|].
  simpl in H. intros E. rewrite E in H.
  repeat (destruct H as [H|H]; [discriminate|]). exact H.
Qed.

Lemma normalize_error_evidence v raw r evs :
  normalize_of v raw = (inr r, evs) ->
  categoria r = "ERROR" -> evidence_within (evidence_limit v) r = true.
Proof.
  rewrite normalize_of_eq, interpret_of_eq.
  destruct (String.eqb (cleaned_of v raw) "").
  - intros [= <- _]. rewrite categoria_of_nothing_found. discriminate.
  - unfold ebind. destruct (Json.loads (cleaned_of v raw)) as [e|parsed].
    + intros [= <- _] _. apply exception_evidence_within.
    + destruct (build_result_of v parsed) as [e|r'] eqn:HB.
      * intros [= <- _] _. apply exception_evidence_within.
      * intros [= <- _] HE. exfalso. revert HB. rewrite build_result_of_eq.
        unfold ebind.
        destruct (category_token parsed); [discriminate|].
        destruct (read_score parsed); [discriminate|].
        destruct (clamp _); [discriminate|].
        destruct (finish_score v _); [discriminate|].
        destruct (py_get parsed "evidencia" _); [discriminate|].
        intros [= <-]. cbn [categoria] in HE. now apply repaired_is_not_error in HE.
Qed.

(** Property X24.  An [ERROR] record of a classifier never carries more than the
    first 100 characters of an exception text: its evidence has at most
    100 characters in the text-only variant and 121 in the vision
    variant. *)
Theorem error_evidence_is_short (v : variant) (image : Image) (text : string) :
  exists r evs,
    classify_of chat v image text = (inr r, evs)
    /\ (categoria r = "ERROR" -> evidence_within (evidence_limit v) r = true).
Proof.
  rewrite classify_of_eq. cbv zeta.
  destruct (chat (request_of v image text)) as [e|[raw|]].
  - eexists _, _. split; [reflexivity|]. intros _. apply exception_evidence_within.
  - destruct (normalize_of_returns v raw) as (r & evs & E). rewrite E.
    eexists _, _. split; [reflexivity|]. now apply (normalize_error_evidence v raw r evs).
  - eexists _, _. split; [reflexivity|]. intros _. apply exception_evidence_within.
Qed.

End Fields.

Section Prose.

Lemma no_fence_to_remove s :
  contains "`" s = false -> remove_fences s = s.
Proof.
  unfold remove_fences. induction s as [|c s IH]; [reflexivity|].
  cbn [contains]. intros H. apply orb_false_iff in H as [Hc Hs].
  cbn [remove_fences_from prefix].
  destruct (ascii_dec "`" c) as [<-|_]; [discriminate Hc|].
  now rewrite (IH Hs).
Qed.

Lemma drop_to_lbrace_after pre s :
  contains "{" pre = false -> drop_to_lbrace (pre ++ s) = drop_to_lbrace s.
Proof.
  induction pre as [|c pre IH]; [reflexivity|].
  cbn [contains append drop_to_lbrace]. intros H.
  apply orb_false_iff in H as [-> Hp]. auto.
Qed.

Lemma upto_last_rbrace_before s post :
  contains "}" post = false -> upto_last_rbrace (s ++ post) = upto_last_rbrace s.
Proof.
  intros H. induction s as [|c s IH].
  - now apply upto_last_rbrace_none.
  - cbn [append upto_last_rbrace]. now rewrite IH.
Qed.

Lemma upto_last_rbrace_whole s :
  endswith_char "}" s = true -> upto_last_rbrace s = s.
Proof.
  induction s as [|c s IH]; [discriminate|].
  cbn [upto_last_rbrace]. destruct s as [|d s].
  - cbn [endswith_char upto_last_rbrace]. now intros ->.
  - intros H. now rewrite (IH H).
Qed.

Lemma lstrip_before pre c rest :
  isspace c = false -> lstrip (pre ++ String c rest) = lstrip pre ++ String c rest.
Proof.
  intros Hc. induction pre as [|x pre IH].
  - cbn [append lstrip]. now rewrite Hc.
  - cbn [append lstrip]. destruct (isspace x); [exact IH|reflexivity].
Qed.

Lemma rstrip_after obj post c :
  isspace c = false -> endswith_char c obj = true ->
  rstrip (obj ++ post) = obj ++ rstrip post.
Proof.
  intros Hc. induction obj as [|d obj IH]; [discriminate|].
  destruct obj as [|d' obj].
  - cbn [endswith_char append rstrip]. intros E. apply Ascii.eqb_eq in E. subst d.
    rewrite Hc. now destruct (rstrip post).
  - intros H. specialize (IH H).
    change (String d (String d' obj) ++ post) with (String d (String d' obj ++ post)).
    cbn [rstrip] in *. rewrite IH. reflexivity.
Qed.

Lemma rstrip_behind pre s :
  rstrip s <> "" -> rstrip (pre ++ s) = pre ++ rstrip s.
Proof.
  intros H. induction pre as [|x pre IH]; [reflexivity|].
  cbn [append rstrip]. rewrite IH.
  destruct (pre ++ rstrip s) eqn:E; [|reflexivity].
  destruct pre; [contradiction|discriminate].
Qed.

Lemma strip_around pre body post :
  endswith_char "}" (String "{" body) = true ->
  strip (pre ++ String "{" body ++ post)
  = lstrip pre ++ String "{" body ++ rstrip post.
Proof.
  intros H. unfold strip.
  change (String "{" body ++ post) with (String "{" (body ++ post)).
  rewrite lstrip_before by reflexivity.
  change (String "{" (body ++ post)) with (String "{" body ++ post).
  assert (E : rstrip (String "{" body ++ post) = String "{" body ++ rstrip post)
    by (apply (rstrip_after _ _ "}"); [reflexivity|exact H]).
  rewrite rstrip_behind; rewrite E; [reflexivity|discriminate].
Qed.

Lemma contains_lstrip c s : contains c s = false -> contains c (lstrip s) = false.
Proof.
  induction s as [|x s IH]; [reflexivity|].
  cbn [lstrip]. destruct (isspace x); [|auto].
  cbn [contains]. intros H. apply orb_false_iff in H as [_ H]. auto.
Qed.

Lemma contains_rstrip c s : contains c s = false -> contains c (rstrip s) = false.
Proof.
  induction s as [|x s IH]; [reflexivity|].
  cbn [contains rstrip]. intros H. apply orb_false_iff in H as [Hx Hs].
  specialize (IH Hs). destruct (rstrip s).
  - destruct (isspace x); [reflexivity|]. cbn [contains]. now rewrite Hx.
  - cbn [contains] in *. now rewrite Hx, IH.
Qed.

(** The object of an answer, found between words. *)
Lemma cleaned_of_prose v pre body post :
  contains "{" pre = false ->
  contains "}" post = false ->
  endswith_char "}" (String "{" body) = true ->
  no_backtick (pre ++ String "{" body ++ post) = true ->
  cleaned_of v (pre ++ String "{" body ++ post) = String "{" body.
Proof.
  intros Hpre Hpost Hend Hno.
  unfold no_backtick in Hno. apply negb_true_iff in Hno.
  rewrite !contains_append in Hno.
  apply orb_false_iff in Hno as [B1 Hno]. apply orb_false_iff in Hno as [B2 B3].
  assert (E : upto_last_rbrace
                (drop_to_lbrace
                   (strip (remove_fences (strip (pre ++ String "{" body ++ post)))))
              = String "{" body).
  { rewrite (strip_around _ _ _ Hend).
    rewrite no_fence_to_remove.
    2:{ rewrite !contains_append, (contains_lstrip _ _ B1), B2, (contains_rstrip _ _ B3).
        reflexivity. }
    rewrite (strip_around _ _ _ Hend).
    rewrite drop_to_lbrace_after by (now apply contains_lstrip, contains_lstrip).
    change (String "{" body ++ rstrip (rstrip post))
      with (String "{" (body ++ rstrip (rstrip post))).
    cbn [drop_to_lbrace]. change (Ascii.eqb "{" "{") with true. cbv iota.
    change (String "{" (body ++ rstrip (rstrip post)))
      with (String "{" body ++ rstrip (rstrip post)).
    rewrite upto_last_rbrace_before by (now apply contains_rstrip, contains_rstrip).
    now apply upto_last_rbrace_whole. }
  destruct v; exact E.
Qed.

(** Property X25.  Words around the object of an answer change nothing: when an
    answer without backticks is made of a text free of opening braces, an
    object from its opening brace to its closing one, and a text free of
    closing braces, the parser gets the object alone, and the record is
    that of the object alone. *)
Theorem prose_around_object_is_dropped (v : variant) (pre body post : string) :
  contains "{" pre = false ->
  contains "}" post = false ->
  endswith_char "}" (String "{" body) = true ->
  no_backtick (pre ++ String "{" body ++ post) = true ->
  cleaned_of v (pre ++ String "{" body ++ post) = String "{" body
  /\ normalize_of v (pre ++ String "{" body ++ post)
     = normalize_of v (String "{" body).
Proof.
  intros Hpre Hpost Hend Hno.
  assert (E1 := cleaned_of_prose v pre body post Hpre Hpost Hend Hno).
  assert (E2 : cleaned_of v (String "{" body) = String "{" body).
  { pose proof (cleaned_of_prose v "" body "" eq_refl eq_refl Hend) as H.
    cbn [append] in H. rewrite string_app_nil_r in H. apply H.
    unfold no_backtick in *. apply negb_true_iff in Hno. apply negb_true_iff.
    rewrite !contains_append in Hno.
    apply orb_false_iff in Hno as [_ Hno]. now apply orb_false_iff in Hno as [-> _]. }
  split; [exact E1|].
  now rewrite !normalize_of_eq, !interpret_of_eq, E1, E2.
Qed.

End Prose.

(* ===================================================================== *)
(** * The further properties on the samples *)
(* ===================================================================== *)

Lemma extract_text_smart_shape_witness :
  TextOnly.extract_text_smart MoreSamples.two_words 4000 = inr "Hola mundo"
  /\ (String.length "Hola mundo" <= 4000)%nat
  /\ starts_clean "Hola mundo" = true
  /\ single_blanks "Hola mundo" = true.
Proof.
  split; [reflexivity|].
  apply (extract_text_smart_shape MoreSamples.two_words 4000 "Hola mundo").
  reflexivity.
Defined.

Lemma open_failure_is_corrupt_witness :
  process_pdf_of Samples.chat MoreSamples.locked_folder VisionVariant "/data/a.pdf"
  = (inr (corrupt_file (Raise (OtherException "FileDataError") "Failed to open file")),
     []).
Proof.
  apply (open_failure_is_corrupt Samples.chat MoreSamples.locked_folder VisionVariant
           "/data/a.pdf" (Raise (OtherException "FileDataError") "Failed to open file")).
  reflexivity.
Defined.

Lemma page_failure_is_corrupt_witness :
  exists evs,
    process_pdf_of Samples.chat (Samples.every_file Samples.unreadable) TextVariant
      "/data/a.pdf"
    = (inr (corrupt_file (Raise (OtherException "RuntimeError") "cannot read page")),
       evs)
    /\ inference_calls evs = []
    /\ open_handles evs = ["/data/a.pdf"].
Proof.
  apply (page_failure_is_corrupt Samples.chat (Samples.every_file Samples.unreadable)
           TextVariant "/data/a.pdf" Samples.unreadable
           {| get_text := inl (Raise (OtherException "RuntimeError") "cannot read page");
              get_pixmap := inr "JFIF" |}
           [] (Raise (OtherException "RuntimeError") "cannot read page"));
    reflexivity.
Defined.

Lemma endpoint_failure_is_error_witness :
  classify_of MoreSamples.dead_chat VisionVariant "JFIF" Samples.text50
  = (inr {| categoria := "ERROR"; score := PyFloat PyFloat.zero;
            evidencia := PyStr "Fallo en inferencia: Connection error." |},
     [EvInfer (request_of VisionVariant "JFIF" Samples.text50)]).
Proof.
  apply (endpoint_failure_is_error MoreSamples.dead_chat VisionVariant "JFIF"
           Samples.text50 (Raise (OtherException "APIConnectionError") "Connection error."));
    reflexivity.
Defined.

Lemma missing_content_is_error_witness :
  classify_of MoreSamples.silent_chat TextVariant "" Samples.text50
  = (inr {| categoria := "ERROR"; score := PyFloat PyFloat.zero;
            evidencia := PyStr "'NoneType' object has no attribute 'strip'" |},
     [EvInfer (request_of TextVariant "" Samples.text50)]).
Proof.
  apply (missing_content_is_error MoreSamples.silent_chat TextVariant "" Samples.text50).
  reflexivity.
Defined.

Lemma basename_of_joined_path_witness :
  basename "/data/contrato_001.pdf" = "contrato_001.pdf".
Proof.
  apply (basename_of_joined_path "/data" "contrato_001.pdf"). reflexivity.
Defined.

Lemma report_layout_witness :
  exists ws evs,
    main_report Samples.chat (Samples.every_file (Samples.one_page Samples.text50))
      TextVariant ["/data/a.pdf"; "/data/b.pdf"]
    = (inr (Some ws), evs)
    /\ ws 1%nat 2%nat = Some (PyStr (lit "Categoría"))
    /\ ws 3%nat 1%nat = Some (PyStr "b.pdf")
    /\ ws 3%nat 2%nat = Some (PyStr "CONTRATO")
    /\ ws 4%nat 1%nat = None.
Proof.
  destruct (report_layout Samples.chat
              (Samples.every_file (Samples.one_page Samples.text50))
              TextVariant "/data/a.pdf" ["/data/b.pdf"])
    as (ws & evs & E & HH & HR & HB).
  - intros p r [<- | [<- | []]] H; vm_compute in H; injection H as <-;
      vm_compute; reflexivity.
  - exists ws, evs. split; [exact E|].
    split; [exact (HH 1%nat _ eq_refl)|].
    assert (R : exists r,
               fst (process_pdf_of Samples.chat
                      (Samples.every_file (Samples.one_page Samples.text50))
                      TextVariant "/data/b.pdf") = inr r
               /\ categoria r = "CONTRATO")
      by (eexists; split; vm_compute; reflexivity).
    destruct R as (r & R & C).
    destruct (HR 1%nat "/data/b.pdf" r eq_refl R) as (H1 & H2 & _).
    split; [exact H1|]. split; [now rewrite <- C|].
    apply HB. simpl. lia.
Defined.

Lemma unstorable_evidence_stops_main_witness :
  exists e evs,
    main_report (Samples.constant_chat MoreSamples.listed_evidence)
      (Samples.every_file (Samples.one_page Samples.text50))
      TextVariant ["/data/a.pdf"; "/data/b.pdf"]
    = (inl e, evs)
    /\ forall x, e <> Uncaught x.
Proof.
  eapply (unstorable_evidence_stops_main
            (Samples.constant_chat MoreSamples.listed_evidence)
            (Samples.every_file (Samples.one_page Samples.text50))
            TextVariant ["/data/a.pdf"; "/data/b.pdf"] "/data/b.pdf").
  - simpl. tauto.
  - vm_compute. reflexivity.
  - reflexivity.
Defined.

Lemma scanned_document_skips_inference_witness :
  TextOnly.process_pdf Samples.chat (Samples.every_file MoreSamples.scanned)
    "/data/escaneado.pdf"
  = (inr short_text_record,
     [EvOpen "/data/escaneado.pdf"; EvClose "/data/escaneado.pdf"]).
Proof.
  apply (scanned_document_skips_inference Samples.chat
           (Samples.every_file MoreSamples.scanned) "/data/escaneado.pdf"
           MoreSamples.scanned).
  - reflexivity.
  - discriminate.
  - reflexivity.
Defined.

Lemma parsed_answer_is_object_witness :
  exists items,
    PyDict [("categoria", PyStr "CONTRATO"); ("score", PyFloat (hundredth 87));
            ("evidencia", PyStr "Contratante")] = PyDict items
    /\ (forall key default,
           exists x,
             py_get (PyDict [("categoria", PyStr "CONTRATO");
                             ("score", PyFloat (hundredth 87));
                             ("evidencia", PyStr "Contratante")]) key default = inr x).
Proof.
  apply (parsed_answer_is_object TextVariant Samples.two_decimals).
  vm_compute. reflexivity.
Defined.


Lemma non_string_category_is_error_witness :
  normalize_of TextVariant MoreSamples.null_category
  = (inr {| categoria := "ERROR"; score := PyFloat PyFloat.zero;
            evidencia := PyStr "'NoneType' object has no attribute 'upper'" |},
     [EvJsonLoads (cleaned_of TextVariant MoreSamples.null_category)]).
Proof.
  apply (non_string_category_is_error TextVariant MoreSamples.null_category
           [("categoria", PyNone); ("score", PyFloat (PyFloat.of_decimal false 9 (-1)))]
           PyNone).
  - vm_compute. reflexivity.
  - reflexivity.
  - reflexivity.
Defined.

Lemma label_matched_without_case_witness :
  exists r,
    normalize_of TextVariant MoreSamples.lower_case_label
    = (inr r, [EvJsonLoads (cleaned_of TextVariant MoreSamples.lower_case_label)])
    /\ categoria r = "INFORME_TECNICO".
Proof.
  apply (label_matched_without_case TextVariant MoreSamples.lower_case_label
           [("categoria", PyStr "informe tecnico");
            ("score", PyFloat (PyFloat.of_decimal false 6 (-1)))]
           "informe tecnico").
  - vm_compute. reflexivity.
  - reflexivity.
  - reflexivity.
  - vm_compute. do 3 right. left. reflexivity.
Defined.

Lemma comma_decimal_score_witness :
  exists r,
    normalize_of VisionVariant MoreSamples.comma_score
    = (inr r, [EvJsonLoads (cleaned_of VisionVariant MoreSamples.comma_score)])
    /\ score r = PyFloat (hundredth 87).
Proof.
  apply (comma_decimal_score VisionVariant MoreSamples.comma_score
           [("categoria", PyStr "CONTRATO"); ("score", PyStr "0,87")]
           "CONTRATO" 87%nat).
  - vm_compute. reflexivity.
  - reflexivity.
  - vm_compute. reflexivity.
  - lia.
Defined.

Lemma out_of_range_score_saturates_witness :
  exists r,
    normalize_of VisionVariant MoreSamples.nan_score
    = (inr r, [EvJsonLoads (cleaned_of VisionVariant MoreSamples.nan_score)])
    /\ score r = PyFloat PyFloat.one.
Proof.
  destruct (out_of_range_score_saturates VisionVariant MoreSamples.nan_score
              [("categoria", PyStr "CONTRATO"); ("score", PyFloat S754_nan)]
              "CONTRATO" (PyFloat S754_nan))
    as (r & H & _ & _ & HN).
  - vm_compute. reflexivity.
  - reflexivity.
  - reflexivity.
  - reflexivity.
  - exists r. split; [exact H|]. apply HN. reflexivity.
Defined.

Lemma prose_around_object_is_dropped_witness :
  cleaned_of TextVariant
    (MoreSamples.wordy_before ++ String "{" MoreSamples.wordy_body
       ++ MoreSamples.wordy_after)
  = String "{" MoreSamples.wordy_body
  /\ normalize_of TextVariant
       (MoreSamples.wordy_before ++ String "{" MoreSamples.wordy_body
          ++ MoreSamples.wordy_after)
     = normalize_of TextVariant (String "{" MoreSamples.wordy_body).
Proof.
  apply (prose_around_object_is_dropped TextVariant MoreSamples.wordy_before
           MoreSamples.wordy_body MoreSamples.wordy_after);
    vm_compute; reflexivity.
Defined.
